(** * mollie/chargebacks.go: the chargebacks accessor of the Mollie API client

    A shallow embedding of [ChargebacksService] ([Get], [List],
    [ListForPayment] and the private [list]) together with the parts of the
    libraries the file calls into: [fmt.Sprintf] with [%s] verbs (string
    concatenation), [net/url] ([QueryEscape], [Values.Encode]),
    [github.com/google/go-querystring/query] ([Values]) and [encoding/json]
    ([Marshal], [Unmarshal]).

    Go strings and byte slices are sequences of bytes; both are modelled by
    [string], whose characters are the 256 byte values. *)

From Stdlib Require Import ZArith Lia Ascii String List Bool.
From stdpp Require Import base option list gmap strings sorting.

Set Warnings "-register-all".
Local Open Scope Z_scope.

(** ** Bytes *)

Definition byte_val (c : ascii) : Z := Z.of_N (N_of_ascii c).
Definition byte_of (z : Z) : ascii := ascii_of_N (Z.to_N z).

(** [tbl[n]] for a digit table such as ["0123456789ABCDEF"]. *)
Definition digit_of (tbl : string) (n : Z) : ascii :=
  default "0"%char (String.get (Z.to_nat n) tbl).

Definition in_range (lo hi : Z) (c : ascii) : bool :=
  (lo <=? byte_val c) && (byte_val c <=? hi).

Fixpoint contains_byte (c : ascii) (s : string) : bool :=
  match s with
  | EmptyString => false
  | String d r => Ascii.eqb c d || contains_byte c r
  end.

Fixpoint drop_bytes (n : nat) (s : string) : string :=
  match n, s with
  | S n, String _ r => drop_bytes n r
  | _, _ => s
  end.

Fixpoint take_bytes (n : nat) (s : string) : string :=
  match n, s with
  | S n, String c r => String c (take_bytes n r)
  | _, _ => EmptyString
  end.

(** ** Errors

    Go's [error] interface.  The two error types of [encoding/json] that
    [Unmarshal] produces are kept apart (without their offsets); every other
    error, among them those of the request builder and of the transport, is
    an [errorString]. *)

Inductive error : Type :=
| errorString (msg : string)
| SyntaxError (msg : string)
| UnmarshalTypeError (Value : string) (Type_ : string).

(** A call that returns [(T, error)] and whose caller looks at the value
    only when the error is nil. *)
Inductive result (A : Type) : Type :=
| Ok (a : A)
| Err (e : error).
Arguments Ok {A} a.
Arguments Err {A} e.

(** ** net/url *)

Module url.

Definition upperhex : string := "0123456789ABCDEF".

(** [shouldEscape(c, encodeQueryComponent)]: everything but the unreserved
    characters of RFC 3986 is escaped. *)
Definition shouldEscape (c : ascii) : bool :=
  if in_range 97 122 c || in_range 65 90 c || in_range 48 57 c then false
  else if contains_byte c "-_.~" then false
  else true.

(** [escape(s, encodeQueryComponent)] *)
Fixpoint escape (s : string) : string :=
  match s with
  | EmptyString => EmptyString
  | String c r =>
      if Ascii.eqb c " " then String "+" (escape r)
      else if shouldEscape c then
        String "%" (String (digit_of upperhex (Z.shiftr (byte_val c) 4))
                      (String (digit_of upperhex (Z.land (byte_val c) 15))
                         (escape r)))
      else String c (escape r)
  end.

Definition QueryEscape (s : string) : string := escape s.

(** [type Values map[string][]string] *)
Definition Values : Type := gmap string (list string).

(** [Values.Add]: append the value to the key's list. *)
Definition Add (key value : string) (v : gmap string (list string))
  : gmap string (list string) :=
  <[key := (default [] (v !! key) ++ [value])%list]> v.

(** [Values.Encode]: the keys in sorted order, every value of a key as
    [key=value], the pairs separated by [&]. *)
Definition Encode (v : gmap string (list string)) : string :=
  let keys := merge_sort String.le (map fst (map_to_list v)) in
  fold_left
    (fun buf k =>
       let vs := default [] (v !! k) in
       let keyEscaped := QueryEscape k in
       fold_left
         (fun buf value =>
            (if String.eqb buf "" then buf else buf +:+ "&")
              +:+ keyEscaped +:+ "=" +:+ QueryEscape value)
         vs buf)
    keys "".

End url.

(** ** github.com/google/go-querystring/query

    [query.Values] walks its argument by reflection.  [Value] is the
    reflected view of the values that reach it from this file: pointers,
    strings and structs whose fields carry a [url] tag. *)

Module query.

Inductive Value : Type :=
| Nil                                   (* a nil pointer or interface *)
| Ptr (v : Value)
| Str (s : string)
| Struct (fields : list (string * string * Value)). (* name, url tag, value *)

(** [strings.Split(tag, ",")] *)
Fixpoint split_comma (cur : string) (s : string) : list string :=
  match s with
  | EmptyString => [String.rev cur]
  | String c r =>
      if Ascii.eqb c "," then String.rev cur :: split_comma "" r
      else split_comma (String c cur) r
  end.

(** [parseTag]: the name and the options of a [url] tag. *)
Definition parseTag (tag : string) : string * list string :=
  match split_comma "" tag with
  | name :: opts => (name, opts)
  | [] => ("", [])
  end.

(** [tagOptions.Contains] *)
Definition Contains (opts : list string) (option : string) : bool :=
  existsb (String.eqb option) opts.

(** [isEmptyValue] *)
Definition isEmptyValue (v : Value) : bool :=
  match v with
  | Nil => true
  | Ptr _ => false
  | Str s => String.eqb s ""
  | Struct _ => false
  end.

(** The body of [reflectValue]'s loop for one field value [sv] that is
    not skipped: pointers are followed, a struct is walked with the
    field's name as scope, anything else is added under [name]. *)
Fixpoint reflectField (values : gmap string (list string))
    (name : string) (sv : Value) : gmap string (list string) :=
  match sv with
  | Nil => url.Add name "" values
  | Ptr v => reflectField values name v
  | Str s => url.Add name s values
  | Struct fields =>
      fold_left
        (fun values f =>
           let '(fname, tag, fv) := f in
           if String.eqb tag "-" then values
           else
             let '(n, opts) := parseTag tag in
             let n := if String.eqb n "" then fname else n in
             let n := if String.eqb name "" then n
                      else name +:+ "[" +:+ n +:+ "]" in
             if Contains opts "omitempty" && isEmptyValue fv then values
             else reflectField values n fv)
        fields values
  end.

Definition reflectValue (values : gmap string (list string))
    (val : Value) (scope : string) : gmap string (list string) :=
  reflectField values scope val.

Fixpoint indirect (v : Value) : Value :=
  match v with
  | Ptr v => indirect v
  | _ => v
  end.

(** [query.Values]: a nil pointer gives no values, a struct its tagged
    fields, anything else a nil map and an error. *)
Definition Values (v : Value) : gmap string (list string) * option error :=
  match indirect v with
  | Nil => (∅, None)
  | Struct fields => (reflectValue ∅ (Struct fields) "", None)
  | _ => (∅, Some (errorString "query: Values() expects struct input"))
  end.

End query.

(** ** unicode/utf8 and unicode/utf16 *)

Module utf8.

Definition RuneError : Z := 65533.   (* U+FFFD *)
Definition RuneSelf : Z := 128.
Definition MaxRune : Z := 1114111.   (* U+10FFFF *)

(** The table [first]: what the first byte of a sequence announces. *)
Inductive lead : Type :=
| AS                                  (* ASCII, one byte *)
| XX                                  (* not a first byte *)
| Seq (size : nat) (lo hi : Z).       (* size, accepted range of byte 1 *)

Definition first (p0 : ascii) : lead :=
  let b := byte_val p0 in
  if b <? 128 then AS
  else if b <? 194 then XX
  else if b <? 224 then Seq 2 128 191
  else if b =? 224 then Seq 3 160 191
  else if b =? 237 then Seq 3 128 159
  else if b <? 240 then Seq 3 128 191
  else if b =? 240 then Seq 4 144 191
  else if b <? 244 then Seq 4 128 191
  else if b =? 244 then Seq 4 128 143
  else XX.

(** A continuation byte lies in [locb..hicb]. *)
Definition cont (b : ascii) : bool := in_range 128 191 b.

(** [DecodeRune] (and [DecodeRuneInString]): the first rune of [p] and its
    width in bytes; [(RuneError, 1)] for an invalid or short sequence,
    [(RuneError, 0)] for no bytes at all. *)
Definition DecodeRune (p : string) : Z * nat :=
  match p with
  | EmptyString => (RuneError, 0%nat)
  | String p0 r =>
      match first p0 with
      | AS => (byte_val p0, 1%nat)
      | XX => (RuneError, 1%nat)
      | Seq sz lo hi =>
          match r with
          | EmptyString => (RuneError, 1%nat)
          | String b1 r1 =>
              if negb (in_range lo hi b1) then (RuneError, 1%nat)
              else if (sz <=? 2)%nat then
                (Z.lor (Z.shiftl (Z.land (byte_val p0) 31) 6)
                       (Z.land (byte_val b1) 63), 2%nat)
              else
                match r1 with
                | EmptyString => (RuneError, 1%nat)
                | String b2 r2 =>
                    if negb (cont b2) then (RuneError, 1%nat)
                    else if (sz <=? 3)%nat then
                      (Z.lor (Z.lor (Z.shiftl (Z.land (byte_val p0) 15) 12)
                                    (Z.shiftl (Z.land (byte_val b1) 63) 6))
                             (Z.land (byte_val b2) 63), 3%nat)
                    else
                      match r2 with
                      | EmptyString => (RuneError, 1%nat)
                      | String b3 _ =>
                          if negb (cont b3) then (RuneError, 1%nat)
                          else
                            (Z.lor (Z.lor (Z.lor
                               (Z.shiftl (Z.land (byte_val p0) 7) 18)
                               (Z.shiftl (Z.land (byte_val b1) 63) 12))
                               (Z.shiftl (Z.land (byte_val b2) 63) 6))
                               (Z.land (byte_val b3) 63), 4%nat)
                      end
                end
          end
      end
  end.

(** [byte(x)]: the conversion of a rune to a byte keeps the low 8 bits. *)
Definition to_byte (x : Z) : Z := Z.land x 255.

Definition enc3 (r : Z) : string :=
  String (byte_of (Z.lor 224 (to_byte (Z.shiftr r 12))))
    (String (byte_of (Z.lor 128 (Z.land (to_byte (Z.shiftr r 6)) 63)))
       (String (byte_of (Z.lor 128 (Z.land (to_byte r) 63))) EmptyString)).

(** [EncodeRune] / [AppendRune]: the UTF-8 encoding of a rune; a rune out
    of range or in the surrogate range is written as U+FFFD. *)
Definition EncodeRune (r : Z) : string :=
  if (0 <=? r) && (r <=? 127) then String (byte_of (to_byte r)) EmptyString
  else if (0 <=? r) && (r <=? 2047) then
    String (byte_of (Z.lor 192 (to_byte (Z.shiftr r 6))))
      (String (byte_of (Z.lor 128 (Z.land (to_byte r) 63))) EmptyString)
  else if (r <? 0) || (MaxRune <? r) || ((55296 <=? r) && (r <=? 57343)) then
    enc3 RuneError
  else if r <=? 65535 then enc3 r
  else
    String (byte_of (Z.lor 240 (to_byte (Z.shiftr r 18))))
      (String (byte_of (Z.lor 128 (Z.land (to_byte (Z.shiftr r 12)) 63)))
         (String (byte_of (Z.lor 128 (Z.land (to_byte (Z.shiftr r 6)) 63)))
            (String (byte_of (Z.lor 128 (Z.land (to_byte r) 63)))
               EmptyString))).

(** [ValidString]: no byte decodes to [(RuneError, 1)].  The loop of the
    source runs over an index; [fuel] bounds its iterations. *)
Fixpoint Valid_loop (fuel : nat) (s : string) : bool :=
  match fuel with
  | O => match s with EmptyString => true | _ => false end
  | S fuel =>
      match s with
      | EmptyString => true
      | String b r =>
          if byte_val b <? RuneSelf then Valid_loop fuel r
          else
            let '(c, size) := DecodeRune s in
            if (c =? RuneError) && (size =? 1)%nat then false
            else Valid_loop fuel (drop_bytes size s)
      end
  end.

Definition ValidString (s : string) : bool := Valid_loop (String.length s) s.

End utf8.

Module utf16.

(** [IsSurrogate] *)
Definition IsSurrogate (r : Z) : bool := (55296 <=? r) && (r <? 57344).

(** [DecodeRune]: the rune of a surrogate pair, U+FFFD for anything else. *)
Definition DecodeRune (r1 r2 : Z) : Z :=
  if (55296 <=? r1) && (r1 <? 56320) && (56320 <=? r2) && (r2 <? 57344)
  then Z.lor (Z.shiftl (r1 - 55296) 10) (r2 - 56320) + 65536
  else 65533.

End utf16.

(** ** encoding/json: values, scanner, string literals *)

Module json.

(** A JSON value as the scanner delimits it.  A number keeps its literal
    (the decoder converts it for the kind of its destination); strings and
    member names are held unquoted. *)
Inductive value : Type :=
| JNull
| JBool (b : bool)
| JNumber (lit : string)
| JString (s : string)
| JArray (elems : list value)
| JObject (members : list (string * value)).

Definition byte_is (c : ascii) (n : Z) : bool := byte_val c =? n.

(** [isSpace] *)
Definition isSpace (c : ascii) : bool :=
  (byte_val c <=? 32)
  && (byte_is c 32 || byte_is c 9 || byte_is c 13 || byte_is c 10).

Fixpoint skip_space (s : string) : string :=
  match s with
  | String c r => if isSpace c then skip_space r else s
  | EmptyString => s
  end.

Definition is_digit (c : ascii) : bool := in_range 48 57 c.

Definition is_hex (c : ascii) : bool :=
  in_range 48 57 c || in_range 97 102 c || in_range 65 70 c.

(** The scanner inside a string literal ([stateInString],
    [stateInStringEsc], [stateInStringEscU...]), entered after the opening
    quote: the text of the literal up to its closing quote, and what
    follows the quote. *)
Fixpoint scan_string (s : string) : option (string * string) :=
  match s with
  | EmptyString => None
  | String c r =>
      if byte_is c 34 then Some (EmptyString, r)
      else if byte_is c 92 then
        match r with
        | EmptyString => None
        | String e r1 =>
            if byte_is e 98 || byte_is e 102 || byte_is e 110
               || byte_is e 114 || byte_is e 116
               || byte_is e 92 || byte_is e 47 || byte_is e 34
            then
              match scan_string r1 with
              | Some (lit, rest) => Some (String c (String e lit), rest)
              | None => None
              end
            else if byte_is e 117 then
              match r1 with
              | String h1 (String h2 (String h3 (String h4 r2))) =>
                  if is_hex h1 && is_hex h2 && is_hex h3 && is_hex h4 then
                    match scan_string r2 with
                    | Some (lit, rest) =>
                        Some (String c (String e (String h1 (String h2
                                (String h3 (String h4 lit))))), rest)
                    | None => None
                    end
                  else None
              | _ => None
              end
            else None
        end
      else if byte_val c <? 32 then None
      else
        match scan_string r with
        | Some (lit, rest) => Some (String c lit, rest)
        | None => None
        end
  end.

Fixpoint span_digits (s : string) : string * string :=
  match s with
  | String c r =>
      if is_digit c then let '(ds, rest) := span_digits r in (String c ds, rest)
      else (EmptyString, s)
  | EmptyString => (EmptyString, s)
  end.

(** The scanner on a number, state by state; each step gives the text it
    takes and what follows.  [stateNeg]: an optional minus sign. *)
Definition scan_sign (s : string) : option (string * string) :=
  match s with
  | String c r => if byte_is c 45 then Some ("-", r) else Some ("", s)
  | EmptyString => Some ("", s)
  end.

(** [state0], [state1]: a zero, or a digit from 1 to 9 and more digits. *)
Definition scan_int (s : string) : option (string * string) :=
  match s with
  | String c r =>
      if byte_is c 48 then Some ("0", r)
      else if in_range 49 57 c then
        let '(ds, rest) := span_digits r in Some (String c ds, rest)
      else None
  | EmptyString => None
  end.

(** [stateDot], [stateDot0]: an optional fraction, with a digit at least. *)
Definition scan_frac (s : string) : option (string * string) :=
  match s with
  | String c r =>
      if byte_is c 46 then
        let '(ds, rest) := span_digits r in
        if String.eqb ds "" then None else Some (String c ds, rest)
      else Some ("", s)
  | EmptyString => Some ("", s)
  end.

(** [stateE], [stateESign], [stateE0]: an optional exponent. *)
Definition scan_exp (s : string) : option (string * string) :=
  match s with
  | String c r =>
      if byte_is c 101 || byte_is c 69 then
        let '(sg, r') :=
          match r with
          | String d r' =>
              if byte_is d 43 || byte_is d 45 then (String d "", r')
              else ("", r)
          | EmptyString => ("", r)
          end in
        let '(ds, rest) := span_digits r' in
        if String.eqb ds "" then None
        else Some (String c (sg +:+ ds), rest)
      else Some ("", s)
  | EmptyString => Some ("", s)
  end.

(** The scanner on a number: the literal and what follows it.  Whether
    the byte after the literal may follow a value is the caller's check. *)
Definition scan_number (s : string) : option (string * string) :=
  match scan_sign s with
  | None => None
  | Some (sign, s1) =>
      match scan_int s1 with
      | None => None
      | Some (int, s2) =>
          match scan_frac s2 with
          | None => None
          | Some (frac, s3) =>
              match scan_exp s3 with
              | None => None
              | Some (exp, s4) => Some (sign +:+ int +:+ frac +:+ exp, s4)
              end
          end
      end
  end.

(** The value of a hexadecimal digit, [-1] for any other byte. *)
Definition hexval (c : ascii) : Z :=
  if in_range 48 57 c then byte_val c - 48
  else if in_range 97 102 c then byte_val c - 97 + 10
  else if in_range 65 70 c then byte_val c - 65 + 10
  else -1.

(** [getu4]: the rune of a [\uXXXX] escape at the head of [s], [-1] if
    there is none. *)
Definition getu4 (s : string) : Z :=
  match s with
  | String b (String u (String h1 (String h2 (String h3 (String h4 _))))) =>
      if byte_is b 92 && byte_is u 117 && is_hex h1 && is_hex h2 && is_hex h3
         && is_hex h4
      then ((hexval h1 * 16 + hexval h2) * 16 + hexval h3) * 16 + hexval h4
      else -1
  | _ => -1
  end.

Definition map_cons (c : ascii) (o : option string) : option string :=
  match o with Some t => Some (String c t) | None => None end.

Definition map_app (p : string) (o : option string) : option string :=
  match o with Some t => Some (p +:+ t) | None => None end.

(** [unquoteBytes] on the text between the quotes: escapes are replaced,
    and every byte sequence is coerced to well-formed UTF-8.  The source
    first looks for a byte that needs work and returns the text as it is if
    there is none; its loop, modelled here from the first byte on, leaves
    such a text unchanged.  [fuel] bounds the iterations of the loop. *)
Fixpoint unquote_loop (fuel : nat) (s : string) : option string :=
  match fuel with
  | O => match s with EmptyString => Some EmptyString | _ => None end
  | S fuel =>
      match s with
      | EmptyString => Some EmptyString
      | String c r =>
          if byte_is c 92 then
            match r with
            | EmptyString => None
            | String e r1 =>
                if byte_is e 34 || byte_is e 92 || byte_is e 47
                   || byte_is e 39
                then map_cons e (unquote_loop fuel r1)
                else if byte_is e 98 then
                  map_cons (byte_of 8) (unquote_loop fuel r1)
                else if byte_is e 102 then
                  map_cons (byte_of 12) (unquote_loop fuel r1)
                else if byte_is e 110 then
                  map_cons (byte_of 10) (unquote_loop fuel r1)
                else if byte_is e 114 then
                  map_cons (byte_of 13) (unquote_loop fuel r1)
                else if byte_is e 116 then
                  map_cons (byte_of 9) (unquote_loop fuel r1)
                else if byte_is e 117 then
                  let rr := getu4 s in
                  if rr <? 0 then None
                  else
                    let s1 := drop_bytes 6 s in
                    if utf16.IsSurrogate rr then
                      let rr1 := getu4 s1 in
                      let dec := utf16.DecodeRune rr rr1 in
                      if negb (dec =? 65533) then
                        map_app (utf8.EncodeRune dec)
                          (unquote_loop fuel (drop_bytes 6 s1))
                      else
                        map_app (utf8.EncodeRune 65533) (unquote_loop fuel s1)
                    else map_app (utf8.EncodeRune rr) (unquote_loop fuel s1)
                else None
            end
          else if byte_is c 34 || (byte_val c <? 32) then None
          else if byte_val c <? utf8.RuneSelf then
            map_cons c (unquote_loop fuel r)
          else
            let '(rr, size) := utf8.DecodeRune s in
            map_app (utf8.EncodeRune rr)
              (unquote_loop fuel (drop_bytes size s))
      end
  end.

Definition unquote (lit : string) : option string :=
  unquote_loop (String.length lit) lit.

Definition hex : string := "0123456789abcdef".

(** [htmlSafeSet]: the ASCII bytes the encoder copies as they are. *)
Definition htmlSafe (b : ascii) : bool :=
  in_range 32 127 b
  && negb (byte_is b 34 || byte_is b 38 || byte_is b 60 || byte_is b 62
           || byte_is b 92).

(** The escape the encoder writes for an ASCII byte outside
    [htmlSafeSet]. *)
Definition escape_byte (b : ascii) : string :=
  if byte_is b 92 || byte_is b 34 then
    String (byte_of 92) (String b EmptyString)
  else if byte_is b 8 then String (byte_of 92) "b"
  else if byte_is b 12 then String (byte_of 92) "f"
  else if byte_is b 10 then String (byte_of 92) "n"
  else if byte_is b 13 then String (byte_of 92) "r"
  else if byte_is b 9 then String (byte_of 92) "t"
  else
    String (byte_of 92)
      (String "u" (String "0" (String "0"
         (String (digit_of hex (Z.shiftr (byte_val b) 4))
            (String (digit_of hex (Z.land (byte_val b) 15)) EmptyString))))).

(** The loop of [appendString] with [escapeHTML] set, as [Marshal] runs
    it: the text written between the quotes.  The source copies the safe
    stretches in one piece; here every byte is written as it is met. *)
Fixpoint appendString_loop (fuel : nat) (src : string) : string :=
  match fuel with
  | O => EmptyString
  | S fuel =>
      match src with
      | EmptyString => EmptyString
      | String b r =>
          if byte_val b <? utf8.RuneSelf then
            if htmlSafe b then String b (appendString_loop fuel r)
            else escape_byte b +:+ appendString_loop fuel r
          else
            let '(c, size) := utf8.DecodeRune (take_bytes 4 src) in
            if (c =? utf8.RuneError) && (size =? 1)%nat then
              String (byte_of 92) "ufffd" +:+ appendString_loop fuel r
            else if (c =? 8232) || (c =? 8233) then
              String (byte_of 92) "u202"
                +:+ String (digit_of hex (Z.land c 15)) EmptyString
                +:+ appendString_loop fuel (drop_bytes size src)
            else
              take_bytes size src
                +:+ appendString_loop fuel (drop_bytes size src)
      end
  end.

Definition QUOTE : string := String (byte_of 34) EmptyString.

(** [appendString]: a Go string as a JSON string literal. *)
Definition appendString (src : string) : string :=
  QUOTE +:+ appendString_loop (String.length src) src +:+ QUOTE.

(** The elements of an array and the members of an object as the encoder
    writes them, up to the closing bracket. *)
Definition print_elements (pr : value -> string) : list value -> string :=
  fix elements (l : list value) : string :=
    match l with
    | [] => "]"
    | x :: l' =>
        match l' with
        | [] => pr x +:+ "]"
        | _ => pr x +:+ "," +:+ elements l'
        end
    end.

Definition print_members (pr : value -> string)
  : list (string * value) -> string :=
  fix members (l : list (string * value)) : string :=
    match l with
    | [] => "}"
    | kv :: l' =>
        match l' with
        | [] => appendString (fst kv) +:+ ":" +:+ pr (snd kv) +:+ "}"
        | _ =>
            appendString (fst kv) +:+ ":" +:+ pr (snd kv) +:+ ","
              +:+ members l'
        end
    end.

(** The compact text the encoder writes for a value. *)
Fixpoint print (j : value) : string :=
  match j with
  | JNull => "null"
  | JBool true => "true"
  | JBool false => "false"
  | JNumber lit => lit
  | JString s => appendString s
  | JArray elems => "[" +:+ print_elements print elems
  | JObject members => "{" +:+ print_members print members
  end.

(** [bytes.HasPrefix] *)
Fixpoint has_prefix (p s : string) : bool :=
  match p with
  | EmptyString => true
  | String a p' =>
      match s with
      | String b s' => Ascii.eqb a b && has_prefix p' s'
      | EmptyString => false
      end
  end.

(** The scanner and the decoder's walk over one value, as a recursive
    descent: the value at the head of [s] (after white space) and what
    follows it.  [fuel] bounds the depth of the recursion; the length of
    the input is enough. *)
Fixpoint parse_value (fuel : nat) (s : string) : option (value * string) :=
  match fuel with
  | O => None
  | S fuel =>
      match skip_space s with
      | EmptyString => None
      | String c r =>
          if byte_is c 123 then
            match skip_space r with
            | EmptyString => None
            | String c' r' =>
                if byte_is c' 125 then Some (JObject [], r')
                else
                  match parse_members fuel (String c' r') with
                  | Some (ms, rest) => Some (JObject ms, rest)
                  | None => None
                  end
            end
          else if byte_is c 91 then
            match skip_space r with
            | EmptyString => None
            | String c' r' =>
                if byte_is c' 93 then Some (JArray [], r')
                else
                  match parse_elems fuel (String c' r') with
                  | Some (vs, rest) => Some (JArray vs, rest)
                  | None => None
                  end
            end
          else if byte_is c 34 then
            match scan_string r with
            | Some (lit, rest) =>
                match unquote lit with
                | Some t => Some (JString t, rest)
                | None => None
                end
            | None => None
            end
          else if byte_is c 45 || is_digit c then
            match scan_number (String c r) with
            | Some (lit, rest) => Some (JNumber lit, rest)
            | None => None
            end
          else if has_prefix "true" (String c r) then
            Some (JBool true, drop_bytes 4 (String c r))
          else if has_prefix "false" (String c r) then
            Some (JBool false, drop_bytes 5 (String c r))
          else if has_prefix "null" (String c r) then
            Some (JNull, drop_bytes 4 (String c r))
          else None
      end
  end
with parse_members (fuel : nat) (s : string)
  : option (list (string * value) * string) :=
  match fuel with
  | O => None
  | S fuel =>
      match s with
      | EmptyString => None
      | String c r =>
          if byte_is c 34 then
            match scan_string r with
            | None => None
            | Some (klit, r1) =>
                match unquote klit, skip_space r1 with
                | Some key, String c1 r2 =>
                    if byte_is c1 58 then
                      match parse_value fuel r2 with
                      | None => None
                      | Some (v, r3) =>
                          match skip_space r3 with
                          | EmptyString => None
                          | String c3 r4 =>
                              if byte_is c3 44 then
                                match parse_members fuel (skip_space r4) with
                                | Some (ms, r5) => Some ((key, v) :: ms, r5)
                                | None => None
                                end
                              else if byte_is c3 125 then Some ([(key, v)], r4)
                              else None
                          end
                      end
                    else None
                | _, _ => None
                end
            end
          else None
      end
  end
with parse_elems (fuel : nat) (s : string) : option (list value * string) :=
  match fuel with
  | O => None
  | S fuel =>
      match parse_value fuel s with
      | None => None
      | Some (v, r1) =>
          match skip_space r1 with
          | EmptyString => None
          | String c r2 =>
              if byte_is c 44 then
                match parse_elems fuel r2 with
                | Some (vs, r3) => Some (v :: vs, r3)
                | None => None
                end
              else if byte_is c 93 then Some ([v], r2)
              else None
          end
      end
  end.

(** [checkValid] followed by the scan of the one top-level value: only
    white space may follow it.  The scanner's bound on the nesting of
    arrays and objects is not applied here; [within_depth], below, states
    it where a property needs it. *)
Definition parse (data : string) : option value :=
  match parse_value (S (String.length data)) data with
  | Some (v, rest) =>
      match skip_space rest with
      | EmptyString => Some v
      | _ => None
      end
  | None => None
  end.

(** ** encoding/json: decoding into and encoding from Go values *)

(** How a decoding stands: no error, an error that was saved while the
    decoding went on ([decodeState.saveError] keeps the first one), or an
    error that stopped the decoding where it was. *)
Inductive outcome : Type :=
| Done
| Saved (e : error)
| Aborted (e : error).

(** The outcome of two steps in a row. *)
Definition and_then (o1 o2 : outcome) : outcome :=
  match o1, o2 with
  | Aborted e, _ => Aborted e
  | _, Aborted e => Aborted e
  | Saved e, _ => Saved e
  | Done, o => o
  end.

Definition stopped (o : outcome) : bool :=
  match o with Aborted _ => true | _ => false end.

Definition error_of (o : outcome) : option error :=
  match o with
  | Done => None
  | Saved e => Some e
  | Aborted e => Some e
  end.

(** What [Unmarshal] does with a value whose destination has Go type [T]:
    [decode j dst] is the destination after the value [j] was stored into
    a destination holding [dst].  [zero] is the zero value of the type.
    A type with an [UnmarshalJSON] method of its own, as [time.Time], is
    handed the text of the value; [decode] stands for it up to the escapes
    of a string literal, which the value no longer shows. *)
Class Decodable (T : Type) : Type := {
  zero : T;
  decode : value -> T -> T * outcome
}.

(** What [Marshal] writes for a value of Go type [T]. *)
Class Encodable (T : Type) : Type := {
  encode : T -> result value
}.

(** The [Value] field of an [UnmarshalTypeError]. *)
Definition kind_of (j : value) : string :=
  match j with
  | JNull => "null"
  | JBool _ => "bool"
  | JNumber _ => "number"
  | JString _ => "string"
  | JArray _ => "array"
  | JObject _ => "object"
  end.

(** A destination of kind string. *)
Definition decode_string (j : value) (dst : string) : string * outcome :=
  match j with
  | JNull => (dst, Done)
  | JString s => (s, Done)
  | _ => (dst, Saved (UnmarshalTypeError (kind_of j) "string"))
  end.

Fixpoint digits_value (acc : Z) (s : string) : option Z :=
  match s with
  | EmptyString => Some acc
  | String c r =>
      if is_digit c then digits_value (acc * 10 + (byte_val c - 48)) r
      else None
  end.

(** [strconv.ParseInt(s, 10, 64)] *)
Definition ParseInt (s : string) : option Z :=
  let '(neg, ds) :=
    match s with
    | String c r =>
        if byte_is c 45 then (true, r)
        else if byte_is c 43 then (false, r)
        else (false, s)
    | EmptyString => (false, s)
    end in
  match ds with
  | EmptyString => None
  | _ =>
      match digits_value 0 ds with
      | Some n =>
          let v := if neg then - n else n in
          if (- 9223372036854775808 <=? v) && (v <=? 9223372036854775807)
          then Some v else None
      | None => None
      end
  end.

(** A destination of kind int (64 bits wide). *)
Definition decode_int (j : value) (dst : Z) : Z * outcome :=
  match j with
  | JNull => (dst, Done)
  | JNumber lit =>
      match ParseInt lit with
      | Some n => (n, Done)
      | None => (dst, Saved (UnmarshalTypeError ("number " +:+ lit) "int"))
      end
  | _ => (dst, Saved (UnmarshalTypeError (kind_of j) "int"))
  end.

(** A destination of pointer type [*T], [None] being nil: [null] sets it
    to nil; for any other value a nil pointer is first pointed at a new
    zero value, and the value is stored into what it points at. *)
Definition decode_ptr {T : Type} `{!Decodable T}
    (j : value) (dst : option T) : option T * outcome :=
  match j with
  | JNull => (None, Done)
  | _ => let '(t, o) := decode j (default zero dst) in (Some t, o)
  end.

(** The elements of an array stored into a slice: element [i] is stored
    into the element the slice holds at [i], a zero value beyond its
    length. *)
Fixpoint decode_elems {T : Type} `{!Decodable T}
    (elems : list value) (old : list T) : list T * outcome :=
  match elems with
  | [] => ([], Done)
  | j :: elems' =>
      let '(t, o1) := decode j (default zero (head old)) in
      if stopped o1 then (t :: tail old, o1)
      else
        let '(ts, o2) := decode_elems elems' (tail old) in
        (t :: ts, and_then o1 o2)
  end.

(** A destination of slice type [[]T], [None] being the nil slice. *)
Definition decode_slice {T : Type} `{!Decodable T} (type_name : string)
    (j : value) (dst : option (list T)) : option (list T) * outcome :=
  match j with
  | JNull => (None, Done)
  | JArray elems =>
      let '(ts, o) := decode_elems elems (default [] dst) in (Some ts, o)
  | _ => (dst, Saved (UnmarshalTypeError (kind_of j) type_name))
  end.

(** [foldRune] on the runes that matter when a member name is compared
    with an ASCII field name: the smallest rune that differs only in case.
    Only the Kelvin sign and the long s have an ASCII letter as such; every
    other rune beyond ASCII is left as it is, which no ASCII name equals. *)
Definition foldRune (r : Z) : Z :=
  if r =? 8490 then 75 else if r =? 383 then 83 else r.

(** [foldName]: the name with its case folded away. *)
Fixpoint foldName_loop (fuel : nat) (s : string) : string :=
  match fuel with
  | O => EmptyString
  | S fuel =>
      match s with
      | EmptyString => EmptyString
      | String c r =>
          if byte_val c <? utf8.RuneSelf then
            String (if in_range 97 122 c then byte_of (byte_val c - 32) else c)
              (foldName_loop fuel r)
          else
            let '(rr, n) := utf8.DecodeRune s in
            utf8.EncodeRune (foldRune rr)
              +:+ foldName_loop fuel (drop_bytes n s)
      end
  end.

Definition foldName (s : string) : string := foldName_loop (String.length s) s.

(** A field of a struct type [S] as the decoder sees it: the name it goes
    by in JSON, and how a value is stored into it. *)
Definition field (S : Type) : Type := string * (value -> S -> S * outcome).

(** The field a member name selects: the one of exactly that name, else
    the first one whose name differs only in case. *)
Definition find_field {S : Type} (fields : list (field S)) (key : string)
  : option (value -> S -> S * outcome) :=
  match find (fun f => String.eqb (fst f) key) fields with
  | Some f => Some (snd f)
  | None =>
      match find (fun f => String.eqb (foldName (fst f)) (foldName key))
              fields with
      | Some f => Some (snd f)
      | None => None
      end
  end.

(** The members of an object stored into a struct, in the order of the
    text; a member that selects no field is skipped. *)
Fixpoint decode_members {S : Type} (fields : list (field S))
    (members : list (string * value)) (s : S) : S * outcome :=
  match members with
  | [] => (s, Done)
  | (key, j) :: rest =>
      match find_field fields key with
      | None => decode_members fields rest s
      | Some store =>
          let '(s1, o1) := store j s in
          if stopped o1 then (s1, o1)
          else
            let '(s2, o2) := decode_members fields rest s1 in
            (s2, and_then o1 o2)
      end
  end.

(** A destination of struct type. *)
Definition decode_struct {S : Type} (type_name : string)
    (fields : list (field S)) (j : value) (s : S) : S * outcome :=
  match j with
  | JNull => (s, Done)
  | JObject members => decode_members fields members s
  | _ => (s, Saved (UnmarshalTypeError (kind_of j) type_name))
  end.

(** [json.Unmarshal(data, &v)]: a text that is not one well-formed JSON
    value is refused before anything is stored. *)
Definition Unmarshal {T : Type} `{!Decodable T} (data : string) (v : T)
  : T * option error :=
  match parse data with
  | None => (v, Some (SyntaxError "invalid JSON text"))
  | Some j => let '(v', o) := decode j v in (v', error_of o)
  end.

(** The members a struct encoder writes: a field tagged [omitempty] gives
    none when it is empty. *)
Fixpoint collect (fs : list (result (option (string * value))))
  : result (list (string * value)) :=
  match fs with
  | [] => Ok []
  | Err e :: _ => Err e
  | Ok m :: fs' =>
      match collect fs' with
      | Err e => Err e
      | Ok ms => Ok (match m with Some kv => kv :: ms | None => ms end)
      end
  end.

Definition encode_struct (fs : list (result (option (string * value))))
  : result value :=
  match collect fs with
  | Ok ms => Ok (JObject ms)
  | Err e => Err e
  end.

(** A string field tagged [omitempty]. *)
Definition omitempty_string (name : string) (s : string)
  : result (option (string * value)) :=
  Ok (if String.eqb s "" then None else Some (name, JString s)).

(** A pointer field tagged [omitempty]. *)
Definition omitempty_ptr {T : Type} `{!Encodable T} (name : string)
    (p : option T) : result (option (string * value)) :=
  match p with
  | None => Ok None
  | Some t =>
      match encode t with
      | Ok j => Ok (Some (name, j))
      | Err e => Err e
      end
  end.

(** A field of struct type: [omitempty] never omits it. *)
Definition struct_field {T : Type} `{!Encodable T} (name : string) (t : T)
  : result (option (string * value)) :=
  match encode t with
  | Ok j => Ok (Some (name, j))
  | Err e => Err e
  end.

(** [json.Marshal] *)
Definition Marshal {T : Type} `{!Encodable T} (v : T) : result string :=
  match encode v with
  | Ok j => Ok (print j)
  | Err e => Err e
  end.

End json.

(** ** Package mollie *)

(** What chargebacks.go takes from outside: the types [context.Context],
    [*http.Request] and [time.Time], and the types [Amount], [URL] and
    [PaginationLinks] that package mollie declares in other files.  Of each
    data type only what [encoding/json] does with its values is used. *)
Module ext.

Class Declarations : Type := {
  Context : Type;
  Request : Type;
  Amount : Type;
  URL : Type;
  PaginationLinks : Type;
  Time : Type;
  Amount_decodable :: json.Decodable Amount;
  Amount_encodable :: json.Encodable Amount;
  URL_decodable :: json.Decodable URL;
  URL_encodable :: json.Encodable URL;
  PaginationLinks_decodable :: json.Decodable PaginationLinks;
  Time_decodable :: json.Decodable Time;
  Time_encodable :: json.Encodable Time
}.

End ext.

#[global] Existing Instances
  ext.Amount_decodable ext.Amount_encodable
  ext.URL_decodable ext.URL_encodable
  ext.PaginationLinks_decodable
  ext.Time_decodable ext.Time_encodable.

(** [ChargebackLinks] describes all the possible links to be returned with
    a chargeback object. *)
Module ChargebackLinks.

Record t `{ext.Declarations} : Type := mk {
  Self : option ext.URL;
  Payment : option ext.URL;
  Settlement : option ext.URL;
  Documentation : option ext.URL
}.
Arguments mk {_}.

Definition fields `{ext.Declarations} : list (json.field t) :=
  [ ("self", fun j l =>
       let '(x, o) := json.decode_ptr j (Self l) in
       (mk x (Payment l) (Settlement l) (Documentation l), o));
    ("payment", fun j l =>
       let '(x, o) := json.decode_ptr j (Payment l) in
       (mk (Self l) x (Settlement l) (Documentation l), o));
    ("settlement", fun j l =>
       let '(x, o) := json.decode_ptr j (Settlement l) in
       (mk (Self l) (Payment l) x (Documentation l), o));
    ("documentation", fun j l =>
       let '(x, o) := json.decode_ptr j (Documentation l) in
       (mk (Self l) (Payment l) (Settlement l) x, o)) ].

#[global] Instance decodable `{ext.Declarations} : json.Decodable t := {
  json.zero := mk None None None None;
  json.decode := json.decode_struct "ChargebackLinks" fields
}.

#[global] Instance encodable `{ext.Declarations} : json.Encodable t := {
  json.encode l :=
    json.encode_struct
      [ json.omitempty_ptr "self" (Self l);
        json.omitempty_ptr "payment" (Payment l);
        json.omitempty_ptr "settlement" (Settlement l);
        json.omitempty_ptr "documentation" (Documentation l) ]
}.

End ChargebackLinks.

(** [Chargeback] describes a forced transaction reversal initiated by the
    cardholder's bank. *)
Module Chargeback.

Record t `{ext.Declarations} : Type := mk {
  Resource : string;
  ID : string;
  Amount : option ext.Amount;
  SettlementAmount : option ext.Amount;
  CreatedAt : option ext.Time;
  ReversedAt : option ext.Time;
  PaymentID : string;
  Links : ChargebackLinks.t
}.
Arguments mk {_}.

Definition fields `{ext.Declarations} : list (json.field t) :=
  [ ("resource", fun j c =>
       let '(x, o) := json.decode_string j (Resource c) in
       (mk x (ID c) (Amount c) (SettlementAmount c) (CreatedAt c)
           (ReversedAt c) (PaymentID c) (Links c), o));
    ("id", fun j c =>
       let '(x, o) := json.decode_string j (ID c) in
       (mk (Resource c) x (Amount c) (SettlementAmount c) (CreatedAt c)
           (ReversedAt c) (PaymentID c) (Links c), o));
    ("amount", fun j c =>
       let '(x, o) := json.decode_ptr j (Amount c) in
       (mk (Resource c) (ID c) x (SettlementAmount c) (CreatedAt c)
           (ReversedAt c) (PaymentID c) (Links c), o));
    ("settlementAmount", fun j c =>
       let '(x, o) := json.decode_ptr j (SettlementAmount c) in
       (mk (Resource c) (ID c) (Amount c) x (CreatedAt c)
           (ReversedAt c) (PaymentID c) (Links c), o));
    ("createdAt", fun j c =>
       let '(x, o) := json.decode_ptr j (CreatedAt c) in
       (mk (Resource c) (ID c) (Amount c) (SettlementAmount c) x
           (ReversedAt c) (PaymentID c) (Links c), o));
    ("reversedAt", fun j c =>
       let '(x, o) := json.decode_ptr j (ReversedAt c) in
       (mk (Resource c) (ID c) (Amount c) (SettlementAmount c)
           (CreatedAt c) x (PaymentID c) (Links c), o));
    ("paymentId", fun j c =>
       let '(x, o) := json.decode_string j (PaymentID c) in
       (mk (Resource c) (ID c) (Amount c) (SettlementAmount c)
           (CreatedAt c) (ReversedAt c) x (Links c), o));
    ("_links", fun j c =>
       let '(x, o) := json.decode j (Links c) in
       (mk (Resource c) (ID c) (Amount c) (SettlementAmount c)
           (CreatedAt c) (ReversedAt c) (PaymentID c) x, o)) ].

#[global] Instance decodable `{ext.Declarations} : json.Decodable t := {
  json.zero := mk "" "" None None None None "" json.zero;
  json.decode := json.decode_struct "Chargeback" fields
}.

#[global] Instance encodable `{ext.Declarations} : json.Encodable t := {
  json.encode c :=
    json.encode_struct
      [ json.omitempty_string "resource" (Resource c);
        json.omitempty_string "id" (ID c);
        json.omitempty_ptr "amount" (Amount c);
        json.omitempty_ptr "settlementAmount" (SettlementAmount c);
        json.omitempty_ptr "createdAt" (CreatedAt c);
        json.omitempty_ptr "reversedAt" (ReversedAt c);
        json.omitempty_string "paymentId" (PaymentID c);
        json.struct_field "_links" (Links c) ]
}.

End Chargeback.

(** [ChargebackOptions] describes chargeback endpoint valid query string
    parameters. *)
Module ChargebackOptions.

Record t : Type := mk {
  Include : string;
  Embed : string
}.

(** The options as reflection shows them to [query.Values]. *)
Definition reflect (o : t) : query.Value :=
  query.Struct
    [ ("Include", "include,omitempty", query.Str (Include o));
      ("Embed", "embed,omitempty", query.Str (Embed o)) ].

End ChargebackOptions.

(** [ListChargebackOptions] describes list chargebacks endpoint valid query
    string parameters. *)
Module ListChargebackOptions.

Record t : Type := mk {
  Include : string;
  Embed : string;
  ProfileID : string
}.

Definition reflect (o : t) : query.Value :=
  query.Struct
    [ ("Include", "include,omitempty", query.Str (Include o));
      ("Embed", "embed,omitempty", query.Str (Embed o));
      ("ProfileID", "profileId,omitempty", query.Str (ProfileID o)) ].

End ListChargebackOptions.

(** The anonymous struct type of [ChargebackList.Embedded]; its one field
    has no tag and goes by its Go name. *)
Module Embedded.

Record t `{ext.Declarations} : Type := mk {
  Chargebacks : option (list Chargeback.t)
}.
Arguments mk {_}.

Definition fields `{ext.Declarations} : list (json.field t) :=
  [ ("Chargebacks", fun j e =>
       let '(x, o) := json.decode_slice "[]Chargeback" j (Chargebacks e) in
       (mk x, o)) ].

#[global] Instance decodable `{ext.Declarations} : json.Decodable t := {
  json.zero := mk None;
  json.decode := json.decode_struct "struct" fields
}.

End Embedded.

(** [ChargebackList] describes how a list of chargebacks will be retrieved
    by Mollie. *)
Module ChargebackList.

Record t `{ext.Declarations} : Type := mk {
  Count : Z;
  Embedded : Embedded.t;
  Links : ext.PaginationLinks
}.
Arguments mk {_}.

Definition fields `{ext.Declarations} : list (json.field t) :=
  [ ("count", fun j l =>
       let '(x, o) := json.decode_int j (Count l) in
       (mk x (Embedded l) (Links l), o));
    ("_embedded", fun j l =>
       let '(x, o) := json.decode j (Embedded l) in
       (mk (Count l) x (Links l), o));
    ("_links", fun j l =>
       let '(x, o) := json.decode j (Links l) in
       (mk (Count l) (Embedded l) x, o)) ].

#[global] Instance decodable `{ext.Declarations} : json.Decodable t := {
  json.zero := mk 0 json.zero json.zero;
  json.decode := json.decode_struct "ChargebackList" fields
}.

(** The destination [&cl] of [list]: a [*ChargebackList]. *)
#[global] Instance ptr_decodable `{ext.Declarations}
  : json.Decodable (option t) := {
  json.zero := None;
  json.decode := json.decode_ptr
}.

End ChargebackList.

(** ** The client behind the service *)

(** [Response]: of what the client returns, the accessor reads the raw
    body, [res.content]. *)
Module Response.

Record t : Type := mk {
  content : string
}.

End Response.

Module http.

Definition MethodGet : string := "GET".

End http.

(** A method of the service as the calls it makes on [cs.client], each
    with what is done with its answer. *)
Inductive call `{ext.Declarations} (A : Type) : Type :=
| Return (a : A)
| NewAPIRequest (ctx : ext.Context) (method : string) (uri : string)
    (body : option string) (k : result ext.Request -> call A)
| Do (req : ext.Request) (k : result Response.t -> call A).
Arguments Return {_ _} a.
Arguments NewAPIRequest {_ _} ctx method uri body k.
Arguments Do {_ _} req k.

(** The client: the request builder and the transport. *)
Module Client.

Record t `{ext.Declarations} : Type := mk {
  NewAPIRequest :
    ext.Context -> string -> string -> option string -> result ext.Request;
  Do : ext.Request -> result Response.t
}.
Arguments mk {_}.

End Client.

(** A method run against a client. *)
Fixpoint run `{ext.Declarations} {A : Type} (client : Client.t) (c : call A)
  : A :=
  match c with
  | Return a => a
  | NewAPIRequest ctx method uri body k =>
      run client (k (Client.NewAPIRequest client ctx method uri body))
  | Do req k => run client (k (Client.Do client req))
  end.

(** ** ChargebacksService

    The body of each public method is written once, with the encoder it
    calls, [query.Values] of go-querystring, as the parameter [Values]:
    [Get_with], [List_with] and [ListForPayment_with].  The methods are
    these at the library's function.  What a method does with the error of
    the encoder shows only against an encoder that fails, which the
    library's does not on the options of this file. *)

(** [Get] retrieves a single chargeback by its ID.
    Note the original payment's ID is needed as well. *)
Definition Get_with `{ext.Declarations}
    (Values : query.Value -> gmap string (list string) * option error)
    (ctx : ext.Context) (paymentID chargebackID : string)
    (options : option ChargebackOptions.t)
  : call (Chargeback.t * option error) :=
  let p : Chargeback.t := json.zero in
  let u := "v2/payments/" +:+ paymentID +:+ "/chargebacks/" +:+ chargebackID in
  let u :=
    match options with
    | Some o =>
        let '(v, _) := Values (query.Ptr (ChargebackOptions.reflect o)) in
        u +:+ "?" +:+ url.Encode v
    | None => u
    end in
  NewAPIRequest ctx http.MethodGet u None (fun r =>
    match r with
    | Err err => Return (p, Some err)
    | Ok req =>
        Do req (fun r =>
          match r with
          | Err err => Return (p, Some err)
          | Ok res => Return (json.Unmarshal (Response.content res) p)
          end)
    end).

Definition Get `{ext.Declarations} (ctx : ext.Context)
    (paymentID chargebackID : string) (options : option ChargebackOptions.t)
  : call (Chargeback.t * option error) :=
  Get_with query.Values ctx paymentID chargebackID options.

(** [list] encapsulates the shared list methods logic. *)
Definition list_ `{ext.Declarations} (ctx : ext.Context) (uri : string)
  : call (option ChargebackList.t * option error) :=
  let cl : option ChargebackList.t := None in
  NewAPIRequest ctx http.MethodGet uri None (fun r =>
    match r with
    | Err err => Return (cl, Some err)
    | Ok req =>
        Do req (fun r =>
          match r with
          | Err err => Return (cl, Some err)
          | Ok res => Return (json.Unmarshal (Response.content res) cl)
          end)
    end).

(** [List] retrieves a list of chargebacks associated with your
    account/organization. *)
Definition List_with `{ext.Declarations}
    (Values : query.Value -> gmap string (list string) * option error)
    (ctx : ext.Context) (options : option ListChargebackOptions.t)
  : call (option ChargebackList.t * option error) :=
  let u := "v2/chargebacks" in
  let u :=
    match options with
    | Some o =>
        let '(v, _) := Values (query.Ptr (ListChargebackOptions.reflect o)) in
        u +:+ "?" +:+ url.Encode v
    | None => u
    end in
  list_ ctx u.

Definition List `{ext.Declarations} (ctx : ext.Context)
    (options : option ListChargebackOptions.t)
  : call (option ChargebackList.t * option error) :=
  List_with query.Values ctx options.

(** [ListForPayment] retrieves a list of chargebacks associated with a
    single payment. *)
Definition ListForPayment_with `{ext.Declarations}
    (Values : query.Value -> gmap string (list string) * option error)
    (ctx : ext.Context) (paymentID : string)
    (options : option ListChargebackOptions.t)
  : call (option ChargebackList.t * option error) :=
  let u := "v2/payments/" +:+ paymentID +:+ "/chargebacks" in
  let u :=
    match options with
    | Some o =>
        let '(v, _) := Values (query.Ptr (ListChargebackOptions.reflect o)) in
        u +:+ "?" +:+ url.Encode v
    | None => u
    end in
  list_ ctx u.

Definition ListForPayment `{ext.Declarations} (ctx : ext.Context)
    (paymentID : string) (options : option ListChargebackOptions.t)
  : call (option ChargebackList.t * option error) :=
  ListForPayment_with query.Values ctx paymentID options.

(** ** An instance of the outside declarations

    Used to run the accessor on concrete data: [Amount] and [URL] as
    structs of two strings with [omitempty] tags, [PaginationLinks] as a
    struct of four links, a timestamp as the text of its RFC 3339 form, a
    request as its method and URI, and a context that carries nothing. *)
Module sample.

Record Amount : Type := mkAmount {
  Currency : string;
  Value : string
}.

Definition Amount_fields : list (json.field Amount) :=
  [ ("currency", fun j a =>
       let '(x, o) := json.decode_string j (Currency a) in
       (mkAmount x (Value a), o));
    ("value", fun j a =>
       let '(x, o) := json.decode_string j (Value a) in
       (mkAmount (Currency a) x, o)) ].

Definition Amount_decodable : json.Decodable Amount := {|
  json.zero := mkAmount "" "";
  json.decode := json.decode_struct "Amount" Amount_fields
|}.

Definition Amount_encodable : json.Encodable Amount := {|
  json.encode a :=
    json.encode_struct
      [ json.omitempty_string "currency" (Currency a);
        json.omitempty_string "value" (Value a) ]
|}.

Record URL : Type := mkURL {
  Href : string;
  Type_ : string
}.

Definition URL_fields : list (json.field URL) :=
  [ ("href", fun j u =>
       let '(x, o) := json.decode_string j (Href u) in
       (mkURL x (Type_ u), o));
    ("type", fun j u =>
       let '(x, o) := json.decode_string j (Type_ u) in
       (mkURL (Href u) x, o)) ].

Definition URL_decodable : json.Decodable URL := {|
  json.zero := mkURL "" "";
  json.decode := json.decode_struct "URL" URL_fields
|}.

Definition URL_encodable : json.Encodable URL := {|
  json.encode u :=
    json.encode_struct
      [ json.omitempty_string "href" (Href u);
        json.omitempty_string "type" (Type_ u) ]
|}.

Record PaginationLinks : Type := mkPaginationLinks {
  Self : option URL;
  Previous : option URL;
  Next : option URL;
  Documentation : option URL
}.

Definition PaginationLinks_fields : list (json.field PaginationLinks) :=
  [ ("self", fun j l =>
       let '(x, o) :=
         json.decode_ptr (Decodable0 := URL_decodable) j (Self l) in
       (mkPaginationLinks x (Previous l) (Next l) (Documentation l), o));
    ("previous", fun j l =>
       let '(x, o) :=
         json.decode_ptr (Decodable0 := URL_decodable) j (Previous l) in
       (mkPaginationLinks (Self l) x (Next l) (Documentation l), o));
    ("next", fun j l =>
       let '(x, o) :=
         json.decode_ptr (Decodable0 := URL_decodable) j (Next l) in
       (mkPaginationLinks (Self l) (Previous l) x (Documentation l), o));
    ("documentation", fun j l =>
       let '(x, o) :=
         json.decode_ptr (Decodable0 := URL_decodable) j (Documentation l) in
       (mkPaginationLinks (Self l) (Previous l) (Next l) x, o)) ].

Definition PaginationLinks_decodable : json.Decodable PaginationLinks := {|
  json.zero := mkPaginationLinks None None None None;
  json.decode := json.decode_struct "PaginationLinks" PaginationLinks_fields
|}.

(** A timestamp goes through its own [UnmarshalJSON] and [MarshalJSON]:
    only a string is accepted, and a refusal stops the decoding. *)
Definition Time_decodable : json.Decodable string := {|
  json.zero := "0001-01-01T00:00:00Z";
  json.decode j t :=
    match j with
    | json.JNull => (t, json.Done)
    | json.JString s => (s, json.Done)
    | _ => (t, json.Aborted
                 (errorString "Time.UnmarshalJSON: input is not a JSON string"))
    end
|}.

Definition Time_encodable : json.Encodable string := {|
  json.encode t := Ok (json.JString t)
|}.

Definition declarations : ext.Declarations := {|
  ext.Context := unit;
  ext.Request := string * string;
  ext.Amount := Amount;
  ext.URL := URL;
  ext.PaginationLinks := PaginationLinks;
  ext.Time := string;
  ext.Amount_decodable := Amount_decodable;
  ext.Amount_encodable := Amount_encodable;
  ext.URL_decodable := URL_decodable;
  ext.URL_encodable := URL_encodable;
  ext.PaginationLinks_decodable := PaginationLinks_decodable;
  ext.Time_decodable := Time_decodable;
  ext.Time_encodable := Time_encodable
|}.

(** A client that builds every request and answers each with the same
    body. *)
Definition serving (body : string) : Client.t (H := declarations) :=
  Client.mk (H := declarations)
    (fun _ method uri _ => Ok (method, uri))
    (fun _ => Ok (Response.mk body)).

(** A client whose request builder refuses every request, naming the URI
    it was asked for. *)
Definition refusing : Client.t (H := declarations) :=
  Client.mk (H := declarations)
    (fun _ _ uri _ => Err (errorString uri))
    (fun _ => Err (errorString "unreachable")).

(** A client whose transport fails. *)
Definition failing : Client.t (H := declarations) :=
  Client.mk (H := declarations)
    (fun _ method uri _ => Ok (method, uri))
    (fun _ => Err (errorString "502 Bad Gateway")).

Definition QUOTE : string := json.QUOTE.

End sample.

(** ** What the properties are stated with *)

(** The URI of the request a method asks the request builder for first. *)
Definition requested_uri `{ext.Declarations} {A : Type} (c : call A)
  : option string :=
  match c with
  | NewAPIRequest _ _ uri _ _ => Some uri
  | _ => None
  end.

(** The query string the specification describes for a list of parameters
    in the order of their names: every parameter with a non-empty value as
    [name=value], the value escaped, the pairs joined by [&]. *)
Fixpoint join_pairs (ps : list (string * string)) : string :=
  match ps with
  | [] => ""
  | (k, v) :: ps' =>
      match ps' with
      | [] => k +:+ "=" +:+ url.QueryEscape v
      | _ => k +:+ "=" +:+ url.QueryEscape v +:+ "&" +:+ join_pairs ps'
      end
  end.

Definition expected_query (params : list (string * string)) : string :=
  join_pairs (filter (fun p => negb (String.eqb (snd p) "")) params).

(** A JSON text written with apostrophes in the place of its quotes. *)
Fixpoint json_text (s : string) : string :=
  match s with
  | EmptyString => EmptyString
  | String c r =>
      String (if Ascii.eqb c "'" then byte_of 34 else c) (json_text r)
  end.

(** Every byte of a string passes a test. *)
Fixpoint all_bytes (P : ascii -> bool) (s : string) : bool :=
  match s with
  | EmptyString => true
  | String c r => P c && all_bytes P r
  end.

(** A byte beyond ASCII. *)
Definition high (b : ascii) : bool := 128 <=? byte_val b.

(** A byte that stands for itself inside a string literal. *)
Definition plain (c : ascii) : bool :=
  (32 <=? byte_val c) && negb (json.byte_is c 34) && negb (json.byte_is c 92).

(** What the scanner makes of a literal that goes on after a prefix it
    accepts. *)
Definition scanned (p : string) (o : option (string * string))
  : option (string * string) :=
  match o with
  | Some (lit, rest) => Some (p +:+ lit, rest)
  | None => None
  end.

(** What may follow a value inside a text: nothing, a comma or a closing
    bracket. *)
Definition delimited (rest : string) : bool :=
  match rest with
  | EmptyString => true
  | String c _ => json.byte_is c 44 || json.byte_is c 93 || json.byte_is c 125
  end.

(** Fuel that is enough for [json.parse_value] to read a value back. *)
Fixpoint need (j : json.value) : nat :=
  match j with
  | json.JArray elems => S (fold_right (fun x n => S (need x + n)) O elems)
  | json.JObject members =>
      S (fold_right (fun kv n => S (need (snd kv) + n)) O members)
  | _ => 1%nat
  end.

(** The conditions under which a value is read back from its compact
    text as it is: its strings and member names are well-formed UTF-8, its
    numbers are number literals. *)
Fixpoint well_formed (j : json.value) : bool :=
  match j with
  | json.JNull => true
  | json.JBool _ => true
  | json.JNumber lit =>
      match json.scan_number lit with
      | Some (l, EmptyString) => String.eqb l lit
      | _ => false
      end
  | json.JString s => utf8.ValidString s
  | json.JArray elems => forallb well_formed elems
  | json.JObject members =>
      forallb (fun kv => utf8.ValidString (fst kv) && well_formed (snd kv))
        members
  end.

(** A value goes through JSON and back: it is encoded without error, as
    a well-formed value other than [null] that is decoded, into a zero
    value, as the value it was. *)
Definition round_trips {T : Type} `{!json.Encodable T} `{!json.Decodable T}
    (x : T) : Prop :=
  exists j, json.encode x = Ok j /\ j <> json.JNull /\ well_formed j = true
            /\ json.decode j json.zero = (x, json.Done).

Definition opt_round_trips {T : Type} `{!json.Encodable T}
    `{!json.Decodable T} (p : option T) : Prop :=
  match p with
  | Some x => round_trips x
  | None => True
  end.

(** The member names of the object a value is encoded as. *)
Definition member_names (r : result json.value) : list string :=
  match r with
  | Ok (json.JObject members) => map fst members
  | _ => []
  end.

(** The client builds the request a method asks for, and the transport
    answers it with [body]. *)
Definition answered `{ext.Declarations} {A : Type} (client : Client.t)
    (ctx : ext.Context) (c : call A) (body : string) : Prop :=
  exists uri req res,
    requested_uri c = Some uri
    /\ Client.NewAPIRequest client ctx http.MethodGet uri None = Ok req
    /\ Client.Do client req = Ok res
    /\ Response.content res = body.

(** Where an error that a method returns comes from: the request builder,
    the transport, or the decoding of the body into [dst]. *)
Definition error_from `{ext.Declarations} {T : Type} `{!json.Decodable T}
    (client : Client.t) (ctx : ext.Context) (uri : string) (dst : T)
    (e : error) : Prop :=
  Client.NewAPIRequest client ctx http.MethodGet uri None = Err e
  \/ exists req,
       Client.NewAPIRequest client ctx http.MethodGet uri None = Ok req
       /\ (Client.Do client req = Err e
           \/ exists res,
                Client.Do client req = Ok res
                /\ (json.Unmarshal (Response.content res) dst).2 = Some e).

(** What a scanner step gives on a text that goes on with [rest]. *)
Definition extended (rest : string) (o : option (string * string))
  : option (string * string) :=
  match o with
  | Some (l, r) => Some (l, r +:+ rest)
  | None => None
  end.

(** The first byte of a printed value: not white space, not a closing
    bracket. *)
Definition opens (s : string) : Prop :=
  exists c t, s = String c t /\ json.isSpace c = false
              /\ json.byte_is c 93 = false /\ json.byte_is c 125 = false.

(** A value is read back from its text, whatever delimited text follows
    and whatever fuel at least [need] there is. *)
Definition reads_back (j : json.value) : Prop :=
  well_formed j = true ->
  forall (fuel : nat) (rest : string),
    (need j <= fuel)%nat -> delimited rest = true ->
    json.parse_value fuel (json.print j +:+ rest) = Some (j, rest).

Definition need_elems (l : list json.value) : nat :=
  fold_right (fun x n => S (need x + n)) O l.

Definition need_members (l : list (string * json.value)) : nat :=
  fold_right (fun kv n => S (need (snd kv) + n)) O l.

(** The member a field tagged [omitempty] is expected to give: none when
    the string is empty or the pointer nil. *)
Definition present_string (name s : string) : list string :=
  if String.eqb s "" then [] else [name].

Definition present_ptr {T : Type} (name : string) (p : option T)
  : list string :=
  match p with
  | Some _ => [name]
  | None => []
  end.

(** A chargeback with an ID that is not UTF-8, and one with every kind
    of field set. *)
Definition bad_chargeback : Chargeback.t (H := sample.declarations) :=
  @Chargeback.mk sample.declarations
    "" (String (byte_of 255) "") None None None None ""
    (ChargebackLinks.mk None None None None).

Definition full_chargeback : Chargeback.t (H := sample.declarations) :=
  @Chargeback.mk sample.declarations "chargeback" "chb_n9z0tp"
    (Some (sample.mkAmount "EUR" "43.38")) None
    (Some "2018-03-14T17:00:52.0Z") None "tr_7UhSN1zuXS"
    (@ChargebackLinks.mk sample.declarations
       (Some (sample.mkURL
                "https://api.mollie.com/v2/chargebacks/chb_n9z0tp"
                "application/hal+json"))
       None None
       (Some (sample.mkURL
                "https://docs.mollie.com/reference/v2/chargebacks-api"
                "text/html"))).

(** The response bodies of the scenarios. *)
Definition body7 : string :=
  json_text
    "{'count':1,'_embedded':{'chargebacks':[{'id':'chb_1'}]},'_links':{}}".

Definition body2 : string := json_text "{'id':'chb_1','resource':5}".

(** ** What the further properties are stated with *)

(** A call made on the client: a request asked of the request builder, a
    request handed to the transport. *)
Inductive event `{ext.Declarations} : Type :=
| Built (ctx : ext.Context) (method : string) (uri : string)
    (body : option string)
| Sent (req : ext.Request).

(** The calls a method makes when it is run against a client, in order. *)
Fixpoint trace `{ext.Declarations} {A : Type} (client : Client.t)
    (c : call A) : list event :=
  match c with
  | Return _ => []
  | NewAPIRequest ctx method uri body k =>
      Built ctx method uri body
        :: trace client (k (Client.NewAPIRequest client ctx method uri body))
  | Do req k => Sent req :: trace client (k (Client.Do client req))
  end.

(** The request a method asks for is refused with [e]: by the request
    builder, or by the transport once the request is built. *)
Definition refused `{ext.Declarations} {A : Type} (client : Client.t)
    (ctx : ext.Context) (c : call A) (e : error) : Prop :=
  exists uri,
    requested_uri c = Some uri
    /\ (Client.NewAPIRequest client ctx http.MethodGet uri None = Err e
        \/ exists req,
             Client.NewAPIRequest client ctx http.MethodGet uri None = Ok req
             /\ Client.Do client req = Err e).

(** The bytes a query string is made of: the unreserved characters, the
    two that escaping writes, and the two separators. *)
Definition query_byte (c : ascii) : bool :=
  negb (url.shouldEscape c) || contains_byte c "%+=&".

(** A JSON value that is neither [null] nor an object. *)
Definition not_an_object (j : json.value) : bool :=
  match j with
  | json.JNull => false
  | json.JObject _ => false
  | _ => true
  end.

(** The names of the fields of a struct as the decoder compares them. *)
Definition folded_names {S : Type} (fields : list (json.field S))
  : list string :=
  map (fun f => json.foldName (fst f)) fields.

(** A string without a slash. *)
Definition no_slash (s : string) : bool := negb (contains_byte "/" s).

(** [ishex] and [unhex] of net/url. *)
Definition ishex (c : ascii) : bool :=
  in_range 48 57 c || in_range 97 102 c || in_range 65 70 c.

Definition unhex (c : ascii) : Z :=
  if in_range 48 57 c then byte_val c - 48
  else if in_range 97 102 c then byte_val c - 97 + 10
  else if in_range 65 70 c then byte_val c - 65 + 10
  else 0.

(** [url.QueryUnescape], the reading of what [QueryEscape] wrote: [%XY]
    is the byte with the hexadecimal digits [X] and [Y], [+] is a space;
    a [%] that two hexadecimal digits do not follow is an error, [None]. *)
Fixpoint QueryUnescape (s : string) : option string :=
  match s with
  | EmptyString => Some EmptyString
  | String c r =>
      if Ascii.eqb c "%" then
        match r with
        | String x (String y r') =>
            if ishex x && ishex y then
              match QueryUnescape r' with
              | Some t =>
                  Some (String (byte_of (Z.lor (Z.shiftl (unhex x) 4)
                                                  (unhex y))) t)
              | None => None
              end
            else None
        | _ => None
        end
      else
        match QueryUnescape r with
        | Some t => Some (String (if Ascii.eqb c "+" then " "%char else c) t)
        | None => None
        end
  end.

(** The members of an object name a field, up to case. *)
Definition mentions (name : string) (members : list (string * json.value))
  : bool :=
  existsb (fun m => String.eqb (json.foldName (fst m)) (json.foldName name))
    members.

(** A JSON value that holds nothing: [null], or an object whose members
    are all [null]. *)
Definition all_null (j : json.value) : bool :=
  match j with
  | json.JNull => true
  | json.JObject members =>
      forallb (fun m => match snd m with json.JNull => true | _ => false end)
        members
  | _ => false
  end.

(** A JSON value that a destination of kind string refuses. *)
Definition not_a_string (j : json.value) : bool :=
  match j with
  | json.JNull => false
  | json.JString _ => false
  | _ => true
  end.

(** How the outcome changes when a step that saves the error [e] is put
    somewhere into a decoding: an abort stays, an error saved before it
    stays, and where there was none there is [e]. *)
Definition with_saved (e : error) (o o' : json.outcome) : Prop :=
  match o with
  | json.Done => o' = json.Saved e
  | json.Saved e0 => o' = json.Saved e0 \/ o' = json.Saved e
  | json.Aborted e0 => o' = json.Aborted e0
  end.

(** The value of the last member of an object that names a field, up to
    case. *)
Fixpoint last_member (name : string) (members : list (string * json.value))
  : option json.value :=
  match members with
  | [] => None
  | (key, j) :: rest =>
      match last_member name rest with
      | Some j' => Some j'
      | None =>
          if String.eqb (json.foldName key) (json.foldName name) then Some j
          else None
      end
  end.

(** An object gives a field nothing to point at: no member names the
    field, or the last one that does holds [null]. *)
Definition holds_null (name : string) (members : list (string * json.value))
  : bool :=
  match last_member name members with
  | None => true
  | Some json.JNull => true
  | Some _ => false
  end.

(** A nil pointer. *)
Definition is_nil {T : Type} (p : option T) : bool :=
  match p with None => true | Some _ => false end.

(** ** URL encoding as the specification means it

    Written from the specification's word, URL-encoded, as RFC 3986 and
    the form encoding of HTML define it, with no use of the model of
    [net/url] above: an unreserved character (a letter, a digit, [-], [.],
    [_], [~]) stands for itself, a space is written [+], and every other
    byte is written [%] and the two upper-case hexadecimal digits of its
    value.  The model of [net/url] is compared with it. *)

Definition unreserved (c : ascii) : bool :=
  let b := byte_val c in
  ((65 <=? b) && (b <=? 90)) || ((97 <=? b) && (b <=? 122))
  || ((48 <=? b) && (b <=? 57))
  || Ascii.eqb c "-" || Ascii.eqb c "." || Ascii.eqb c "_" || Ascii.eqb c "~".

Definition hex_upper (n : Z) : ascii :=
  if n <? 10 then byte_of (48 + n) else byte_of (55 + n).

Fixpoint percent_encode (s : string) : string :=
  match s with
  | EmptyString => EmptyString
  | String c r =>
      if unreserved c then String c (percent_encode r)
      else if Ascii.eqb c " " then String "+" (percent_encode r)
      else
        String "%"
          (String (hex_upper (byte_val c / 16))
             (String (hex_upper (byte_val c mod 16)) (percent_encode r)))
  end.

(** The query string the specification describes, with that encoding:
    every parameter with a non-empty value as [name=value], the value
    encoded, the pairs joined by [&]. *)
Fixpoint encoded_pairs (ps : list (string * string)) : string :=
  match ps with
  | [] => ""
  | (k, v) :: ps' =>
      match ps' with
      | [] => k +:+ "=" +:+ percent_encode v
      | _ => k +:+ "=" +:+ percent_encode v +:+ "&" +:+ encoded_pairs ps'
      end
  end.

Definition nonempty_fields (params : list (string * string))
  : list (string * string) :=
  filter (fun p => negb (String.eqb (snd p) "")) params.

Definition encoded_query (params : list (string * string)) : string :=
  encoded_pairs (nonempty_fields params).

(** ** Reading a query string

    [strings.Cut] at a separator of one byte. *)
Fixpoint cut (sep : ascii) (s : string) : string * option string :=
  match s with
  | EmptyString => (EmptyString, None)
  | String c r =>
      if Ascii.eqb c sep then (EmptyString, Some r)
      else let '(a, b) := cut sep r in (String c a, b)
  end.

(** [url.ParseQuery], what a server reads of a query string: the text is
    cut at every [&], each piece at its first [=], and name and value are
    unescaped.  The pairs are kept in the order of the text, where Go
    collects them in a [Values] map; [None] stands for its error (a
    semicolon, a malformed escape). *)
Fixpoint ParseQuery_loop (fuel : nat) (query : string)
  : option (list (string * string)) :=
  match query, fuel with
  | EmptyString, _ => Some []
  | _, O => None
  | _, S fuel =>
      let '(piece, rest) := cut "&" query in
      if contains_byte ";" piece then None
      else if String.eqb piece "" then ParseQuery_loop fuel (default "" rest)
      else
        let '(key, value) := cut "=" piece in
        match QueryUnescape key, QueryUnescape (default "" value) with
        | Some k, Some v =>
            match ParseQuery_loop fuel (default "" rest) with
            | Some ps => Some ((k, v) :: ps)
            | None => None
            end
        | _, _ => None
        end
  end.

Definition ParseQuery (query : string) : option (list (string * string)) :=
  ParseQuery_loop (String.length query) query.

(** A parameter name that is written into a query string as it is and
    read back as it is. *)
Definition plain_name (k : string) : bool :=
  negb (String.eqb k "") && all_bytes unreserved k.

(** ** The nesting of a JSON value

    The number of arrays and objects that are open at once in the text of
    a value.  The scanner of [encoding/json] refuses a text in which it
    exceeds [maxNestingDepth]. *)
Definition maxNestingDepth : Z := 10000.

Fixpoint nesting (j : json.value) : Z :=
  match j with
  | json.JArray elems =>
      1 + fold_right (fun e n => Z.max (nesting e) n) 0 elems
  | json.JObject members =>
      1 + fold_right (fun m n => Z.max (nesting (snd m)) n) 0 members
  | _ => 0
  end.

Definition within_depth (j : json.value) : bool :=
  nesting j <=? maxNestingDepth.

(** The bytes a query string of this file is made of, in the terms of the
    specification's encoding: the unreserved characters, [%] and [+] that
    the encoding writes, and the separators [=] and [&]. *)
Definition query_alphabet (c : ascii) : bool :=
  unreserved c || contains_byte c "%+=&".

(** * Properties *)

#[local] Arguments String.append !_ _ / : simpl nomatch.
#[local] Arguments url.QueryEscape : simpl never.

(** ** Strings *)

Lemma append_assoc (a b c : string) : (a +:+ b) +:+ c = a +:+ b +:+ c.
Proof.
  induction a as [|x a IH]; simpl; [reflexivity | rewrite IH; reflexivity].
Qed.

Lemma append_nil_r (a : string) : a +:+ "" = a.
Proof.
  induction a as [|x a IH]; simpl; [reflexivity | rewrite IH; reflexivity].
Qed.

Lemma contains_byte_app (c : ascii) (a b : string) :
  contains_byte c (a +:+ b) = contains_byte c a || contains_byte c b.
Proof.
  induction a as [|d a IH]; simpl; [reflexivity|].
  rewrite IH. apply orb_assoc.
Qed.

(** ** The query string *)

Lemma fold_left_keys {A B C : Type} (f : A -> B -> C -> A) (g : B -> C)
    (keys : list B) (a : A) :
  fold_left (fun a k => f a k (g k)) keys a
  = fold_left (fun a kv => f a (fst kv) (snd kv))
      (map (fun k => (k, g k)) keys) a.
Proof.
  revert a. induction keys as [|k keys IH]; intros a; simpl; [reflexivity|].
  apply IH.
Qed.

(** [Encode] run over the sorted keys paired with their values. *)
Lemma Encode_step (m : gmap string (list string))
    (kvs : list (string * list string)) :
  map (fun k => (k, default [] (m !! k)))
      (merge_sort String.le (map fst (map_to_list m))) = kvs ->
  url.Encode m =
  fold_left
    (fun buf kv =>
       fold_left
         (fun buf value =>
            (if String.eqb buf "" then buf else buf +:+ "&")
              +:+ url.QueryEscape (fst kv) +:+ "=" +:+ url.QueryEscape value)
         (snd kv) buf)
    kvs "".
Proof.
  intros <-. unfold url.Encode.
  apply (fold_left_keys
    (fun buf k vs =>
       fold_left
         (fun buf value =>
            (if String.eqb buf "" then buf else buf +:+ "&")
              +:+ url.QueryEscape k +:+ "=" +:+ url.QueryEscape value)
         vs buf)
    (fun k => default [] (m !! k))).
Qed.

Ltac encode :=
  unfold expected_query; simpl filter; simpl join_pairs;
  match goal with
  | |- url.Encode ?m = _ =>
      let kvs := eval vm_compute in
        (map (fun k => (k, default [] (m !! k)))
           (merge_sort String.le (map fst (map_to_list m)))) in
      rewrite (Encode_step m kvs) by (vm_compute; reflexivity)
  end;
  simpl; rewrite ?append_assoc; simpl; rewrite ?append_assoc; simpl.

(** The query string of a [ChargebackOptions] value. *)
Lemma Encode_ChargebackOptions (o : ChargebackOptions.t) :
  url.Encode (query.Values (query.Ptr (ChargebackOptions.reflect o))).1
  = expected_query [("embed", ChargebackOptions.Embed o);
                    ("include", ChargebackOptions.Include o)].
Proof.
  destruct o as [[|a i] [|b e]]; encode; reflexivity.
Qed.

(** The query string of a [ListChargebackOptions] value. *)
Lemma Encode_ListChargebackOptions (o : ListChargebackOptions.t) :
  url.Encode (query.Values (query.Ptr (ListChargebackOptions.reflect o))).1
  = expected_query [("embed", ListChargebackOptions.Embed o);
                    ("include", ListChargebackOptions.Include o);
                    ("profileId", ListChargebackOptions.ProfileID o)].
Proof.
  destruct o as [[|a i] [|b e] [|c p]]; encode; reflexivity.
Qed.

(** Neither options type makes [query.Values] fail. *)
Lemma Values_ChargebackOptions_nil (o : ChargebackOptions.t) :
  (query.Values (query.Ptr (ChargebackOptions.reflect o))).2 = None.
Proof. reflexivity. Qed.

Lemma Values_ListChargebackOptions_nil (o : ListChargebackOptions.t) :
  (query.Values (query.Ptr (ListChargebackOptions.reflect o))).2 = None.
Proof. reflexivity. Qed.

(** When [query.Values] fails, the values it returns are a nil map. *)
Lemma Values_error_empty (v : query.Value) (vals : gmap string (list string))
    (e : error) :
  query.Values v = (vals, Some e) -> vals = ∅.
Proof.
  unfold query.Values. destruct (query.indirect v); intros Hv;
    inversion Hv; reflexivity.
Qed.

(** The URIs the three methods build. *)
Section uris.
Context `{ext.Declarations}.

Lemma Get_uri ctx paymentID chargebackID options :
  requested_uri (Get ctx paymentID chargebackID options)
  = Some ("v2/payments/" +:+ paymentID +:+ "/chargebacks/" +:+ chargebackID
          +:+ match options with
              | Some o =>
                  "?" +:+ url.Encode
                    (query.Values (query.Ptr (ChargebackOptions.reflect o))).1
              | None => ""
              end).
Proof.
  unfold Get, Get_with, requested_uri. destruct options as [o|].
  - destruct (query.Values _) as [v e]. simpl.
    rewrite ?append_assoc. simpl. rewrite ?append_assoc. reflexivity.
  - simpl. rewrite ?append_nil_r. reflexivity.
Qed.

Lemma List_uri ctx options :
  requested_uri (List ctx options)
  = Some ("v2/chargebacks"
          +:+ match options with
              | Some o =>
                  "?" +:+ url.Encode
                    (query.Values
                       (query.Ptr (ListChargebackOptions.reflect o))).1
              | None => ""
              end).
Proof.
  unfold List, List_with, list_, requested_uri. destruct options as [o|].
  - destruct (query.Values _) as [v e]. reflexivity.
  - reflexivity.
Qed.

Lemma ListForPayment_uri ctx paymentID options :
  requested_uri (ListForPayment ctx paymentID options)
  = Some ("v2/payments/" +:+ paymentID +:+ "/chargebacks"
          +:+ match options with
              | Some o =>
                  "?" +:+ url.Encode
                    (query.Values
                       (query.Ptr (ListChargebackOptions.reflect o))).1
              | None => ""
              end).
Proof.
  unfold ListForPayment, ListForPayment_with, list_, requested_uri.
  destruct options as [o|].
  - destruct (query.Values _) as [v e]. simpl.
    rewrite ?append_assoc. reflexivity.
  - simpl. rewrite ?append_nil_r. reflexivity.
Qed.

End uris.

(** ** Escaped values *)

Lemma digit_of_upperhex_unreserved (n : Z) :
  url.shouldEscape (digit_of url.upperhex n) = false.
Proof.
  unfold digit_of. generalize (Z.to_nat n) as k. intros k.
  do 17 (destruct k as [|k]; [reflexivity|]). reflexivity.
Qed.

(** A byte that [QueryEscape] escapes, other than [%] and [+], occurs in
    none of its results. *)
Lemma QueryEscape_no_reserved (x : ascii) (v : string) :
  url.shouldEscape x = true -> x <> "%"%char -> x <> "+"%char ->
  contains_byte x (url.QueryEscape v) = false.
Proof.
  intros Hx Hp Hq. unfold url.QueryEscape.
  assert (Hne : forall d, url.shouldEscape d = false -> Ascii.eqb x d = false).
  { intros d Hd. destruct (Ascii.eqb_spec x d) as [->|]; [congruence|reflexivity]. }
  induction v as [|c r IH]; [reflexivity|].
  simpl. destruct (Ascii.eqb c " ").
  - simpl. rewrite IH. destruct (Ascii.eqb_spec x "+"); [contradiction|reflexivity].
  - destruct (url.shouldEscape c) eqn:Hc; simpl.
    + rewrite IH.
      rewrite (Hne (digit_of url.upperhex (Z.shiftr (byte_val c) 4)))
        by apply digit_of_upperhex_unreserved.
      rewrite (Hne (digit_of url.upperhex (Z.land (byte_val c) 15)))
        by apply digit_of_upperhex_unreserved.
      destruct (Ascii.eqb_spec x "%"); [contradiction|reflexivity].
    + rewrite IH, Hne by assumption. reflexivity.
Qed.

Section runs.
Context `{ext.Declarations}.

(** A method that asks for one request and decodes the body of the
    response: what running it against a client amounts to. *)
Lemma Get_run (client : Client.t) ctx paymentID chargebackID options uri :
  requested_uri (Get ctx paymentID chargebackID options) = Some uri ->
  run client (Get ctx paymentID chargebackID options)
  = match Client.NewAPIRequest client ctx http.MethodGet uri None with
    | Err e => (json.zero, Some e)
    | Ok req =>
        match Client.Do client req with
        | Err e => (json.zero, Some e)
        | Ok res => json.Unmarshal (Response.content res) json.zero
        end
    end.
Proof.
  unfold Get, Get_with, requested_uri. intros [= <-]. simpl.
  destruct (Client.NewAPIRequest _ _ _ _ _) as [req|e]; simpl; [|reflexivity].
  destruct (Client.Do _ _) as [res|e]; reflexivity.
Qed.

Lemma list_run (client : Client.t) ctx uri :
  run client (list_ ctx uri)
  = match Client.NewAPIRequest client ctx http.MethodGet uri None with
    | Err e => (None, Some e)
    | Ok req =>
        match Client.Do client req with
        | Err e => (None, Some e)
        | Ok res => json.Unmarshal (Response.content res) None
        end
    end.
Proof.
  unfold list_. simpl.
  destruct (Client.NewAPIRequest _ _ _ _ _) as [req|e]; simpl; [|reflexivity].
  destruct (Client.Do _ _) as [res|e]; reflexivity.
Qed.

Lemma List_list ctx options :
  exists uri, List ctx options = list_ ctx uri
              /\ requested_uri (List ctx options) = Some uri.
Proof.
  unfold List, List_with.
  destruct options as [o|]; [destruct (query.Values _)|];
    eexists; split; reflexivity.
Qed.

Lemma ListForPayment_list ctx paymentID options :
  exists uri, ListForPayment ctx paymentID options = list_ ctx uri
              /\ requested_uri (ListForPayment ctx paymentID options) = Some uri.
Proof.
  unfold ListForPayment, ListForPayment_with.
  destruct options as [o|]; [destruct (query.Values _)|];
    eexists; split; reflexivity.
Qed.

End runs.

(** ** Running the methods *)

Section answers.
Context `{ext.Declarations}.

Lemma Get_answered (client : Client.t) ctx paymentID chargebackID options body :
  answered client ctx (Get ctx paymentID chargebackID options) body ->
  run client (Get ctx paymentID chargebackID options)
  = json.Unmarshal body json.zero.
Proof.
  intros (uri & req & res & Hu & Hreq & Hres & <-).
  rewrite (Get_run _ _ _ _ _ _ Hu), Hreq, Hres. reflexivity.
Qed.

Lemma list_answered (client : Client.t) ctx uri body :
  answered client ctx (list_ ctx uri) body ->
  run client (list_ ctx uri) = json.Unmarshal body None.
Proof.
  intros (uri' & req & res & [= <-] & Hreq & Hres & <-).
  rewrite list_run, Hreq, Hres. reflexivity.
Qed.

(** Both list methods are [list] on the URI they build. *)
Lemma list_methods ctx paymentID options (m : call _) :
  m = List ctx options \/ m = ListForPayment ctx paymentID options ->
  exists uri, m = list_ ctx uri.
Proof.
  intros [-> | ->].
  - destruct (List_list ctx options) as (uri & -> & _). eauto.
  - destruct (ListForPayment_list ctx paymentID options) as (uri & -> & _). eauto.
Qed.

Lemma parse_null : json.parse "null" = Some json.JNull.
Proof. reflexivity. Qed.

Lemma Unmarshal_syntax_error {T : Type} `{!json.Decodable T} (body : string) (dst : T) :
  json.parse body = None ->
  json.Unmarshal body dst = (dst, Some (SyntaxError "invalid JSON text")).
Proof. unfold json.Unmarshal. intros ->. reflexivity. Qed.

End answers.


Lemma parse_body7 : json.parse body7 =
  Some (json.JObject
            [("count", json.JNumber "1");
             ("_embedded",
              json.JObject
                [("chargebacks",
                  json.JArray [json.JObject [("id", json.JString "chb_1")]])]);
             ("_links", json.JObject [])]).
Proof. vm_compute. reflexivity. Qed.

Lemma Unmarshal_body7 `{ext.Declarations} :
  json.decode (json.JObject []) (json.zero : ext.PaginationLinks)
  = (json.zero, json.Done) ->
  json.Unmarshal body7 (None : option ChargebackList.t) =
  (Some (ChargebackList.mk 1
           (Embedded.mk
              (Some [Chargeback.mk "" "chb_1" None None None None "" json.zero]))
           json.zero), None).
Proof.
  intros Hl. unfold json.Unmarshal. rewrite parse_body7.
  vm_compute in Hl |- *. rewrite Hl. reflexivity.
Qed.

Section provenance.
Context `{ext.Declarations}.


Lemma list_error_from (client : Client.t) ctx uri r e :
  run client (list_ ctx uri) = (r, Some e) ->
  error_from client ctx uri (None : option ChargebackList.t) e.
Proof.
  intros Hrun. rewrite list_run in Hrun. unfold error_from.
  destruct (Client.NewAPIRequest _ _ _ _ _) as [req|e'].
  - right. exists req. split; [reflexivity|].
    destruct (Client.Do _ _) as [res|e'].
    + right. exists res. split; [reflexivity|]. rewrite Hrun. reflexivity.
    + left. congruence.
  - left. congruence.
Qed.

(** An error leaves the destination as it was unless a well-formed body
    was decoded. *)
Lemma Get_error_zero (client : Client.t) ctx paymentID chargebackID options r e :
  run client (Get ctx paymentID chargebackID options) = (r, Some e) ->
  r = json.zero
  \/ exists body j,
       answered client ctx (Get ctx paymentID chargebackID options) body
       /\ json.parse body = Some j.
Proof.
  intros Hrun.
  destruct (requested_uri (Get ctx paymentID chargebackID options)) as [uri|] eqn:Hu;
    [|rewrite Get_uri in Hu; discriminate].
  rewrite (Get_run _ _ _ _ _ _ Hu) in Hrun.
  destruct (Client.NewAPIRequest _ _ _ _ _) as [req|e'] eqn:Hreq;
    [|left; congruence].
  destruct (Client.Do _ _) as [res|e'] eqn:Hres; [|left; congruence].
  destruct (json.parse (Response.content res)) as [j|] eqn:Hp.
  - right. exists (Response.content res), j. split; [|assumption].
    exists uri, req, res. auto.
  - left. unfold json.Unmarshal in Hrun. rewrite Hp in Hrun. congruence.
Qed.

Lemma list_error_zero (client : Client.t) ctx uri r e :
  run client (list_ ctx uri) = (r, Some e) ->
  r = None
  \/ exists body j,
       answered client ctx (list_ ctx uri) body /\ json.parse body = Some j.
Proof.
  intros Hrun. rewrite list_run in Hrun.
  destruct (Client.NewAPIRequest _ _ _ _ _) as [req|e'] eqn:Hreq;
    [|left; congruence].
  destruct (Client.Do _ _) as [res|e'] eqn:Hres; [|left; congruence].
  destruct (json.parse (Response.content res)) as [j|] eqn:Hp.
  - right. exists (Response.content res), j. split; [|assumption].
    exists uri, req, res. auto.
  - left. unfold json.Unmarshal in Hrun. rewrite Hp in Hrun. congruence.
Qed.

End provenance.


(** ** Bytes and bit operations *)

Lemma byte_val_range (b : ascii) : 0 <= byte_val b < 256.
Proof.
  unfold byte_val. pose proof (N_ascii_bounded b). lia.
Qed.

Lemma byte_of_val (b : ascii) : byte_of (byte_val b) = b.
Proof.
  unfold byte_of, byte_val. rewrite N2Z.id. apply ascii_N_embedding.
Qed.

Lemma byte_val_of (z : Z) : 0 <= z < 256 -> byte_val (byte_of z) = z.
Proof.
  intros Hz. unfold byte_of, byte_val.
  rewrite N_ascii_embedding by lia. lia.
Qed.

(** ** Bit operations as arithmetic *)

Lemma lor_shiftl (a b k : Z) :
  0 <= k -> 0 <= b < 2 ^ k -> Z.lor (Z.shiftl a k) b = a * 2 ^ k + b.
Proof.
  intros Hk Hb.
  assert (Hland : Z.land (Z.shiftl a k) b = 0).
  { apply Z.bits_inj'; intros n Hn. rewrite Z.land_spec, Z.bits_0.
    destruct (Z.lt_ge_cases n k).
    - rewrite Z.shiftl_spec_low by lia. reflexivity.
    - assert (Z.testbit b n = false) as ->; [|apply andb_false_r].
      destruct (Z.eq_dec b 0) as [->|]; [apply Z.bits_0|].
      apply Z.bits_above_log2; [lia|].
      assert (Z.log2 b < k) by (apply Z.log2_lt_pow2; lia). lia. }
  rewrite <- Z.lxor_lor, <- Z.add_nocarry_lxor, Z.shiftl_mul_pow2 by lia.
  reflexivity.
Qed.

(** [a | b] is [a + b] when [b] fits below the lowest set bit of [a]. *)
Lemma lor_add (k a b : Z) :
  0 <= k -> 0 <= b < 2 ^ k -> a mod 2 ^ k = 0 -> Z.lor a b = a + b.
Proof.
  intros Hk Hb Ha.
  assert (a = Z.shiftl (a / 2 ^ k) k) as ->.
  { rewrite Z.shiftl_mul_pow2 by lia.
    pose proof (Z.div_mod a (2 ^ k)). lia. }
  rewrite lor_shiftl, Z.shiftl_mul_pow2 by lia. reflexivity.
Qed.

Lemma land_mod (k x : Z) : 0 <= k -> Z.land x (2 ^ k - 1) = x mod 2 ^ k.
Proof.
  intros Hk. rewrite <- Z.land_ones by lia.
  rewrite Z.ones_equiv, <- Z.sub_1_r. reflexivity.
Qed.

Ltac arith := Z.to_euclidean_division_equations; lia.

(** The bit operations of the goal (masks, shifts by constants, [|] of
    disjoint parts) turned into arithmetic. *)
Ltac unbit :=
  unfold utf8.to_byte;
  repeat first
    [ rewrite (Z.shiftr_div_pow2 _ 6) by lia
    | rewrite (Z.shiftr_div_pow2 _ 12) by lia
    | rewrite (Z.shiftr_div_pow2 _ 18) by lia
    | rewrite (Z.shiftl_mul_pow2 _ 6) by lia
    | rewrite (Z.shiftl_mul_pow2 _ 12) by lia
    | rewrite (Z.shiftl_mul_pow2 _ 18) by lia
    | rewrite (land_mod 8 : forall x, _ -> Z.land x 255 = _) by lia
    | rewrite (land_mod 6 : forall x, _ -> Z.land x 63 = _) by lia
    | rewrite (land_mod 5 : forall x, _ -> Z.land x 31 = _) by lia
    | rewrite (land_mod 4 : forall x, _ -> Z.land x 15 = _) by lia
    | rewrite (land_mod 3 : forall x, _ -> Z.land x 7 = _) by lia ];
  change (2 ^ 6) with 64 in *; change (2 ^ 12) with 4096 in *;
  change (2 ^ 18) with 262144 in *; change (2 ^ 8) with 256 in *;
  change (2 ^ 5) with 32 in *; change (2 ^ 4) with 16 in *;
  change (2 ^ 3) with 8 in *.

Lemma decode2 (x0 x1 : Z) :
  192 <= x0 <= 223 -> 128 <= x1 <= 191 ->
  Z.lor (Z.shiftl (Z.land x0 31) 6) (Z.land x1 63)
  = (x0 - 192) * 64 + (x1 - 128).
Proof.
  intros H0 H1. unbit.
  rewrite (lor_add 6) by arith. arith.
Qed.

Lemma decode3 (x0 x1 x2 : Z) :
  224 <= x0 <= 239 -> 128 <= x1 <= 191 -> 128 <= x2 <= 191 ->
  Z.lor (Z.lor (Z.shiftl (Z.land x0 15) 12) (Z.shiftl (Z.land x1 63) 6))
    (Z.land x2 63)
  = (x0 - 224) * 4096 + (x1 - 128) * 64 + (x2 - 128).
Proof.
  intros H0 H1 H2. unbit.
  rewrite (lor_add 12 (_ * 4096)) by arith.
  rewrite (lor_add 6) by arith. arith.
Qed.

Lemma decode4 (x0 x1 x2 x3 : Z) :
  240 <= x0 <= 247 -> 128 <= x1 <= 191 -> 128 <= x2 <= 191 ->
  128 <= x3 <= 191 ->
  Z.lor (Z.lor (Z.lor (Z.shiftl (Z.land x0 7) 18)
                      (Z.shiftl (Z.land x1 63) 12))
               (Z.shiftl (Z.land x2 63) 6))
    (Z.land x3 63)
  = (x0 - 240) * 262144 + (x1 - 128) * 4096 + (x2 - 128) * 64 + (x3 - 128).
Proof.
  intros H0 H1 H2 H3. unbit.
  rewrite (lor_add 18 (_ * 262144)) by arith.
  rewrite (lor_add 12 (_ + _) (_ * 64)) by arith.
  rewrite (lor_add 6) by arith. arith.
Qed.


Ltac bool_to_Z :=
  repeat match goal with
  | H : _ = true |- _ =>
      first [ rewrite andb_true_iff in H | rewrite orb_true_iff in H
            | rewrite negb_true_iff in H
            | rewrite Z.ltb_lt in H | rewrite Z.leb_le in H
            | rewrite Z.eqb_eq in H | rewrite Nat.eqb_eq in H
            | rewrite Nat.leb_le in H ]
  | H : _ = false |- _ =>
      first [ rewrite andb_false_iff in H | rewrite orb_false_iff in H
            | rewrite negb_false_iff in H
            | rewrite Z.ltb_ge in H | rewrite Z.leb_gt in H
            | rewrite Z.eqb_neq in H | rewrite Nat.eqb_neq in H
            | rewrite Nat.leb_gt in H ]
  | H : _ /\ _ |- _ => destruct H
  end.

(** Settle the first test of the goal by arithmetic. *)
Ltac decide_if :=
  match goal with
  | |- context [if ?b then _ else _] =>
      let E := fresh "E" in
      destruct b eqn:E;
      [ try (exfalso; unfold utf8.MaxRune in *; bool_to_Z; lia)
      | try (exfalso; unfold utf8.MaxRune in *; bool_to_Z; lia) ]
  end.

Lemma EncodeRune1 (x0 : Z) :
  0 <= x0 <= 127 -> utf8.EncodeRune x0 = String (byte_of x0) EmptyString.
Proof.
  intros H0. unfold utf8.EncodeRune. decide_if.
  f_equal. f_equal. unbit. arith.
Qed.

Lemma EncodeRune2 (x0 x1 : Z) :
  194 <= x0 <= 223 -> 128 <= x1 <= 191 ->
  utf8.EncodeRune ((x0 - 192) * 64 + (x1 - 128))
  = String (byte_of x0) (String (byte_of x1) EmptyString).
Proof.
  intros H0 H1. unfold utf8.EncodeRune. do 2 decide_if.
  f_equal; [|f_equal]; f_equal; unbit.
  - rewrite (lor_add 5) by arith. arith.
  - rewrite (lor_add 6) by arith. arith.
Qed.

Lemma EncodeRune3 (x0 x1 x2 : Z) :
  224 <= x0 <= 239 -> 128 <= x1 <= 191 -> 128 <= x2 <= 191 ->
  (x0 = 224 -> 160 <= x1) -> (x0 = 237 -> x1 <= 159) ->
  utf8.EncodeRune ((x0 - 224) * 4096 + (x1 - 128) * 64 + (x2 - 128))
  = String (byte_of x0)
      (String (byte_of x1) (String (byte_of x2) EmptyString)).
Proof.
  intros H0 H1 H2 Hlo Hhi. unfold utf8.EncodeRune. do 4 decide_if.
  unfold utf8.enc3.
  f_equal; [|f_equal; [|f_equal]]; f_equal; unbit.
  - rewrite (lor_add 4) by arith. arith.
  - rewrite (lor_add 6) by arith. arith.
  - rewrite (lor_add 6) by arith. arith.
Qed.

Lemma EncodeRune4 (x0 x1 x2 x3 : Z) :
  240 <= x0 <= 244 -> 128 <= x1 <= 191 -> 128 <= x2 <= 191 ->
  128 <= x3 <= 191 ->
  (x0 = 240 -> 144 <= x1) -> (x0 = 244 -> x1 <= 143) ->
  utf8.EncodeRune
    ((x0 - 240) * 262144 + (x1 - 128) * 4096 + (x2 - 128) * 64 + (x3 - 128))
  = String (byte_of x0)
      (String (byte_of x1)
         (String (byte_of x2) (String (byte_of x3) EmptyString))).
Proof.
  intros H0 H1 H2 H3 Hlo Hhi. unfold utf8.EncodeRune. do 4 decide_if.
  f_equal; [|f_equal; [|f_equal; [|f_equal]]]; f_equal; unbit.
  - rewrite (lor_add 3) by arith. arith.
  - rewrite (lor_add 6) by arith. arith.
  - rewrite (lor_add 6) by arith. arith.
  - rewrite (lor_add 6) by arith. arith.
Qed.

(** ** UTF-8 *)

Ltac step H :=
  match type of H with
  | context [if ?b then _ else _] =>
      let E := fresh "E" in destruct b eqn:E
  | context [match ?s with EmptyString => _ | String _ _ => _ end] =>
      destruct s
  end; simpl in H.

Ltac bad_rune H Hne :=
  injection H as <- <-; simpl in Hne; discriminate Hne.

Lemma DecodeRune_spec (p0 : ascii) (r : string) (c : Z) (n : nat) :
  utf8.DecodeRune (String p0 r) = (c, n) ->
  (c =? utf8.RuneError) && (n =? 1)%nat = false ->
  128 <= byte_val p0 ->
  exists p t,
    String p0 r = p +:+ t
    /\ take_bytes n (String p0 r) = p
    /\ drop_bytes n (String p0 r) = t
    /\ (0 < n)%nat
    /\ utf8.EncodeRune c = p
    /\ all_bytes high p = true
    /\ (forall t', utf8.DecodeRune (p +:+ t') = (c, n))
    /\ (forall t', drop_bytes n (p +:+ t') = t').
Proof.
  intros Hd Hne Hhi. unfold utf8.DecodeRune, utf8.first in Hd.
  repeat step Hd; try (bad_rune Hd Hne); try (exfalso; bool_to_Z; lia).
  all: injection Hd as <- <-.
  all: match goal with
       | |- context [take_bytes 2 (String ?a (String ?b ?t))] =>
           exists (String a (String b EmptyString)), t
       | |- context [take_bytes 3 (String ?a (String ?b (String ?c ?t)))] =>
           exists (String a (String b (String c EmptyString))), t
       | |- context [take_bytes 4
                       (String ?a (String ?b (String ?c (String ?d ?t))))] =>
           exists (String a (String b (String c (String d EmptyString)))), t
       end.
  all: split; [reflexivity|]; split; [reflexivity|]; split; [reflexivity|];
       split; [simpl; lia|].
  all: split; [|split; [|split; [|reflexivity]]].
  all: try (intros t'; simpl; unfold utf8.first;
            repeat match goal with
                   | E : ?b = _ |- context [?b] => rewrite E
                   end; reflexivity).
  all: try (unfold utf8.cont, in_range in *; simpl; unfold high;
            pose proof (byte_val_range p0);
            bool_to_Z;
            repeat match goal with
                   | |- context [?x <=? ?y] =>
                       replace (x <=? y) with true
                         by (symmetry; apply Z.leb_le; lia)
                   end; reflexivity).
  all: unfold utf8.cont, in_range in *; bool_to_Z.
  all: pose proof (byte_val_range p0).
  all: first
    [ rewrite decode2 by lia; rewrite EncodeRune2 by lia
    | rewrite decode3 by lia; rewrite EncodeRune3 by lia
    | rewrite decode4 by lia; rewrite EncodeRune4 by lia ].
  all: rewrite !byte_of_val; reflexivity.
Qed.

(** ** String literals *)

Lemma scanned_app p q o : scanned (p +:+ q) o = scanned p (scanned q o).
Proof. destruct o as [[lit rest]|]; simpl; [rewrite append_assoc|]; reflexivity. Qed.

Lemma scan_plain (c : ascii) (tail : string) :
  plain c = true ->
  json.scan_string (String c tail)
  = scanned (String c EmptyString) (json.scan_string tail).
Proof.
  unfold plain, json.byte_is. intros H. simpl. unfold json.byte_is.
  apply andb_true_iff in H as [H H92]; apply andb_true_iff in H as [H32 H34].
  apply negb_true_iff in H92, H34. rewrite H34, H92.
  replace (byte_val c <? 32) with false by (symmetry; apply Z.ltb_ge; lia).
  destruct (json.scan_string tail) as [[lit rest]|]; reflexivity.
Qed.

Lemma scan_plain_prefix (p tail : string) :
  all_bytes plain p = true ->
  json.scan_string (p +:+ tail) = scanned p (json.scan_string tail).
Proof.
  induction p as [|c p IH]; intros H.
  - simpl. destruct (json.scan_string tail) as [[lit rest]|]; reflexivity.
  - simpl in H. apply andb_true_iff in H as [Hc Hp].
    change (String c p +:+ tail) with (String c (p +:+ tail)).
    rewrite scan_plain, IH by assumption.
    destruct (json.scan_string tail) as [[lit rest]|]; reflexivity.
Qed.

Lemma all_bytes_impl (P Q : ascii -> bool) (s : string) :
  (forall c, P c = true -> Q c = true) ->
  all_bytes P s = true -> all_bytes Q s = true.
Proof.
  intros HPQ. induction s as [|c s IH]; simpl; [reflexivity|].
  intros H. apply andb_true_iff in H as [Hc Hs].
  rewrite (HPQ _ Hc), IH by assumption. reflexivity.
Qed.

Lemma high_plain (c : ascii) : high c = true -> plain c = true.
Proof.
  unfold high, plain, json.byte_is. intros H. apply Z.leb_le in H.
  replace (32 <=? byte_val c) with true by (symmetry; apply Z.leb_le; lia).
  replace (byte_val c =? 34) with false by (symmetry; apply Z.eqb_neq; lia).
  replace (byte_val c =? 92) with false by (symmetry; apply Z.eqb_neq; lia).
  reflexivity.
Qed.

Lemma safe_plain (c : ascii) : json.htmlSafe c = true -> plain c = true.
Proof.
  unfold json.htmlSafe, plain, in_range. intros H.
  apply andb_true_iff in H as [H1 H2]. apply andb_true_iff in H1 as [H1 _].
  apply negb_true_iff in H2.
  apply orb_false_iff in H2 as [H2 H92].
  apply orb_false_iff in H2 as [H2 _].
  apply orb_false_iff in H2 as [H2 _].
  apply orb_false_iff in H2 as [H34 _].
  rewrite H1, H34, H92. reflexivity.
Qed.

Ltac each_byte b := destruct b as [[] [] [] [] [] [] [] []].

Lemma scan_escape_byte (b : ascii) (tail : string) :
  (byte_val b <? 128) = true -> json.htmlSafe b = false ->
  json.scan_string (json.escape_byte b +:+ tail)
  = scanned (json.escape_byte b) (json.scan_string tail).
Proof.
  each_byte b; intros H1 H2; try discriminate H1; try discriminate H2.
  all: simpl; destruct (json.scan_string tail) as [[lit rest]|]; reflexivity.
Qed.

Lemma DecodeRune_take4 (s : string) :
  utf8.DecodeRune (take_bytes 4 s) = utf8.DecodeRune s.
Proof.
  destruct s as [|b0 [|b1 [|b2 [|b3 r]]]]; reflexivity.
Qed.

(** One step of the encoder's loop. *)
Lemma appendString_loop_step (fuel : nat) (b : ascii) (r : string) :
  json.appendString_loop (S fuel) (String b r)
  = if byte_val b <? utf8.RuneSelf then
      if json.htmlSafe b then String b (json.appendString_loop fuel r)
      else json.escape_byte b +:+ json.appendString_loop fuel r
    else
      let '(c, size) := utf8.DecodeRune (String b r) in
      if (c =? utf8.RuneError) && (size =? 1)%nat then
        String (byte_of 92) "ufffd" +:+ json.appendString_loop fuel r
      else if (c =? 8232) || (c =? 8233) then
        String (byte_of 92) "u202"
          +:+ String (digit_of json.hex (Z.land c 15)) EmptyString
          +:+ json.appendString_loop fuel (drop_bytes size (String b r))
      else
        take_bytes size (String b r)
          +:+ json.appendString_loop fuel (drop_bytes size (String b r)).
Proof.
  rewrite <- (DecodeRune_take4 (String b r)). reflexivity.
Qed.

Lemma scan_string_end (rest : string) :
  json.scan_string (json.QUOTE +:+ rest) = Some (EmptyString, rest).
Proof. reflexivity. Qed.

Lemma scan_replacement (tail : string) :
  json.scan_string (String (byte_of 92) "ufffd" +:+ tail)
  = scanned (String (byte_of 92) "ufffd") (json.scan_string tail).
Proof.
  simpl. destruct (json.scan_string tail) as [[lit rest]|]; reflexivity.
Qed.

Lemma scan_separator (c : Z) (tail : string) :
  c = 8232 \/ c = 8233 ->
  json.scan_string
    (String (byte_of 92) "u202"
       +:+ String (digit_of json.hex (Z.land c 15)) EmptyString +:+ tail)
  = scanned
      (String (byte_of 92) "u202"
         +:+ String (digit_of json.hex (Z.land c 15)) EmptyString)
      (json.scan_string tail).
Proof.
  intros [-> | ->]; simpl;
    destruct (json.scan_string tail) as [[lit rest]|]; reflexivity.
Qed.

(** The scanner reads the text the encoder writes for a string up to the
    closing quote. *)
Lemma scan_appendString (fuel : nat) (s rest : string) :
  json.scan_string (json.appendString_loop fuel s +:+ json.QUOTE +:+ rest)
  = Some (json.appendString_loop fuel s, rest).
Proof.
  revert s. induction fuel as [|fuel IH]; intros s; [reflexivity|].
  destruct s as [|b r]; [reflexivity|].
  rewrite appendString_loop_step.
  destruct (byte_val b <? utf8.RuneSelf) eqn:Hb.
  - destruct (json.htmlSafe b) eqn:Hs.
    + change (String b ?x +:+ ?y) with (String b (x +:+ y)).
      rewrite scan_plain, IH by (apply safe_plain, Hs). reflexivity.
    + rewrite append_assoc, scan_escape_byte, IH by assumption. reflexivity.
  - destruct (utf8.DecodeRune (String b r)) as [c size] eqn:Hd.
    destruct ((c =? utf8.RuneError) && (size =? 1)%nat) eqn:Hbad.
    + rewrite append_assoc, scan_replacement, IH. reflexivity.
    + apply Z.ltb_ge in Hb. change utf8.RuneSelf with 128 in Hb.
      destruct (DecodeRune_spec _ _ _ _ Hd Hbad Hb)
        as (p & t & Hs & Htake & Hdrop & Hn & Henc & Hhigh & _).
      destruct ((c =? 8232) || (c =? 8233)) eqn:Hsep.
      * rewrite !append_assoc.
        rewrite scan_separator, IH.
        -- simpl. rewrite ?append_assoc. reflexivity.
        -- apply orb_true_iff in Hsep as [H|H]; apply Z.eqb_eq in H; auto.
      * rewrite Htake, append_assoc, scan_plain_prefix, IH.
        -- reflexivity.
        -- eapply all_bytes_impl; [apply high_plain|exact Hhigh].
Qed.

(** ** Unquoting what the encoder wrote *)

Lemma length_append (a b : string) :
  String.length (a +:+ b) = (String.length a + String.length b)%nat.
Proof.
  induction a as [|c a IH]; simpl; [reflexivity | rewrite IH; reflexivity].
Qed.

Lemma unquote_plain (n : nat) (c : ascii) (tail : string) :
  plain c = true -> (byte_val c <? 128) = true ->
  json.unquote_loop (S n) (String c tail)
  = json.map_cons c (json.unquote_loop n tail).
Proof.
  unfold plain, json.byte_is. intros H H128. simpl. unfold json.byte_is.
  apply andb_true_iff in H as [H H92]; apply andb_true_iff in H as [H32 H34].
  apply negb_true_iff in H92, H34. rewrite H34, H92.
  replace (byte_val c <? 32) with false by (symmetry; apply Z.ltb_ge; lia).
  change utf8.RuneSelf with 128. rewrite H128. reflexivity.
Qed.

Lemma unquote_escape_byte (n : nat) (b : ascii) (tail : string) :
  (byte_val b <? 128) = true -> json.htmlSafe b = false ->
  json.unquote_loop (S n) (json.escape_byte b +:+ tail)
  = json.map_cons b (json.unquote_loop n tail).
Proof.
  each_byte b; intros H1 H2; try discriminate H1; try discriminate H2.
  all: simpl; destruct (json.unquote_loop n tail); reflexivity.
Qed.

Lemma unquote_separator (n : nat) (c : Z) (tail : string) :
  c = 8232 \/ c = 8233 ->
  json.unquote_loop (S n)
    (String (byte_of 92) "u202"
       +:+ String (digit_of json.hex (Z.land c 15)) EmptyString +:+ tail)
  = json.map_app (utf8.EncodeRune c) (json.unquote_loop n tail).
Proof.
  intros [-> | ->]; simpl; destruct (json.unquote_loop n tail); reflexivity.
Qed.

Lemma unquote_high (n : nat) (b : ascii) (r : string) (c : Z) (size : nat)
    (tail : string) :
  utf8.DecodeRune (String b r) = (c, size) ->
  (c =? utf8.RuneError) && (size =? 1)%nat = false ->
  128 <= byte_val b ->
  json.unquote_loop (S n) (take_bytes size (String b r) +:+ tail)
  = json.map_app (take_bytes size (String b r)) (json.unquote_loop n tail).
Proof.
  intros Hd Hbad Hb.
  destruct (DecodeRune_spec _ _ _ _ Hd Hbad Hb)
    as (p & t & Hs & Htake & Hdrop & Hn & Henc & Hhigh & Hdec & Hdr).
  rewrite Htake.
  destruct size as [|size]; [lia|]. simpl in Htake.
  destruct p as [|b' p']; [discriminate|]. injection Htake as <- Hp'.
  change (String b p' +:+ tail) with (String b (p' +:+ tail)).
  cbn [json.unquote_loop].
  unfold json.byte_is.
  replace (byte_val b =? 92) with false by (symmetry; apply Z.eqb_neq; lia).
  replace (byte_val b =? 34) with false by (symmetry; apply Z.eqb_neq; lia).
  replace (byte_val b <? 32) with false by (symmetry; apply Z.ltb_ge; lia).
  replace (byte_val b <? utf8.RuneSelf) with false
    by (symmetry; apply Z.ltb_ge; change utf8.RuneSelf with 128; lia).
  cbn [orb].
  change (String b (p' +:+ tail)) with (String b p' +:+ tail).
  rewrite Hdec, Henc, Hdr. reflexivity.
Qed.

Lemma escape_byte_length (b : ascii) :
  (1 <= String.length (json.escape_byte b))%nat.
Proof.
  unfold json.escape_byte.
  repeat match goal with
         | |- context [if ?c then _ else _] => destruct c
         end; simpl; lia.
Qed.

Lemma unquote_loop_nil (n : nat) : json.unquote_loop n "" = Some EmptyString.
Proof. destruct n; reflexivity. Qed.

Lemma Valid_loop_step (fuel : nat) (b : ascii) (r : string) :
  utf8.Valid_loop (S fuel) (String b r)
  = if byte_val b <? utf8.RuneSelf then utf8.Valid_loop fuel r
    else
      let '(c, size) := utf8.DecodeRune (String b r) in
      if (c =? utf8.RuneError) && (size =? 1)%nat then false
      else utf8.Valid_loop fuel (drop_bytes size (String b r)).
Proof. reflexivity. Qed.

(** Unquoting the text the encoder writes for a well-formed UTF-8 string
    gives the string back. *)
Lemma unquote_appendString (fuel : nat) (s : string) :
  utf8.Valid_loop fuel s = true ->
  forall n : nat,
    (String.length (json.appendString_loop fuel s) <= n)%nat ->
    json.unquote_loop n (json.appendString_loop fuel s) = Some s.
Proof.
  revert s. induction fuel as [|fuel IH]; intros s Hv n Hn.
  - destruct s; [|simpl in Hv; discriminate Hv]. apply unquote_loop_nil.
  - destruct s as [|b r]; [apply unquote_loop_nil|].
    rewrite appendString_loop_step in *. rewrite Valid_loop_step in Hv.
    destruct (byte_val b <? utf8.RuneSelf) eqn:Hb.
    + destruct (json.htmlSafe b) eqn:Hs.
      * destruct n as [|n]; [simpl in Hn; lia|]. simpl in Hn.
        rewrite unquote_plain, IH; auto using safe_plain. lia.
      * rewrite length_append in Hn. pose proof (escape_byte_length b).
        destruct n as [|n]; [lia|].
        rewrite unquote_escape_byte, IH by (auto; lia). reflexivity.
    + destruct (utf8.DecodeRune (String b r)) as [c size] eqn:Hd.
      destruct ((c =? utf8.RuneError) && (size =? 1)%nat) eqn:Hbad;
        [discriminate Hv|].
      apply Z.ltb_ge in Hb. change utf8.RuneSelf with 128 in Hb.
      destruct (DecodeRune_spec _ _ _ _ Hd Hbad Hb)
        as (p & t & Hs & Htake & Hdrop & Hsz & Henc & Hhigh & _).
      rewrite Hdrop in *.
      destruct ((c =? 8232) || (c =? 8233)) eqn:Hsep.
      * assert (c = 8232 \/ c = 8233) as Hc
          by (apply orb_true_iff in Hsep as [H|H]; apply Z.eqb_eq in H; auto).
        rewrite !length_append in Hn. simpl in Hn.
        destruct n as [|n]; [lia|].
        rewrite unquote_separator, IH by (auto; lia).
        simpl. rewrite Henc, <- Hs. reflexivity.
      * rewrite length_append in Hn.
        assert (1 <= String.length (take_bytes size (String b r)))%nat.
        { destruct size; [lia|]. simpl. lia. }
        destruct n as [|n]; [lia|].
        rewrite (unquote_high _ _ _ _ _ _ Hd Hbad Hb), IH by (auto; lia).
        simpl. rewrite Htake, <- Hs. reflexivity.
Qed.

Lemma unquote_appendString_valid (s : string) :
  utf8.ValidString s = true ->
  json.unquote (json.appendString_loop (String.length s) s) = Some s.
Proof.
  intros Hv. apply unquote_appendString; [exact Hv|]. unfold json.unquote. lia.
Qed.

(** ** Numbers *)

Lemma delimiter_facts (c : ascii) :
  json.byte_is c 44 || json.byte_is c 93 || json.byte_is c 125 = true ->
  json.is_digit c = false /\ in_range 49 57 c = false
  /\ json.byte_is c 45 = false /\ json.byte_is c 46 = false
  /\ json.byte_is c 48 = false /\ json.byte_is c 43 = false
  /\ json.byte_is c 101 = false /\ json.byte_is c 69 = false
  /\ json.isSpace c = false.
Proof.
  each_byte c; intros H; try discriminate H; repeat split; reflexivity.
Qed.

Lemma span_digits_app (s rest : string) :
  delimited rest = true ->
  json.span_digits (s +:+ rest)
  = let '(ds, r) := json.span_digits s in (ds, r +:+ rest).
Proof.
  intros Hd. induction s as [|c s IH]; simpl.
  - destruct rest as [|c r]; [reflexivity|]. simpl.
    destruct (delimiter_facts c Hd) as (-> & _). reflexivity.
  - destruct (json.is_digit c); [|reflexivity].
    rewrite IH. destruct (json.span_digits s). reflexivity.
Qed.

Lemma scan_sign_app (s rest : string) :
  delimited rest = true ->
  json.scan_sign (s +:+ rest) = extended rest (json.scan_sign s).
Proof.
  intros Hd. destruct s as [|c s]; simpl.
  - destruct rest as [|c r]; [reflexivity|]. simpl.
    destruct (delimiter_facts c Hd) as (_ & _ & -> & _). reflexivity.
  - destruct (json.byte_is c 45); reflexivity.
Qed.

Lemma scan_int_app (s rest : string) :
  delimited rest = true ->
  json.scan_int (s +:+ rest) = extended rest (json.scan_int s).
Proof.
  intros Hd. destruct s as [|c s]; simpl.
  - destruct rest as [|c r]; [reflexivity|]. simpl.
    destruct (delimiter_facts c Hd) as (_ & -> & _ & _ & -> & _). reflexivity.
  - destruct (json.byte_is c 48); [reflexivity|].
    destruct (in_range 49 57 c); [|reflexivity].
    rewrite span_digits_app by assumption.
    destruct (json.span_digits s). reflexivity.
Qed.

Lemma scan_frac_app (s rest : string) :
  delimited rest = true ->
  json.scan_frac (s +:+ rest) = extended rest (json.scan_frac s).
Proof.
  intros Hd. destruct s as [|c s]; simpl.
  - destruct rest as [|c r]; [reflexivity|]. simpl.
    destruct (delimiter_facts c Hd) as (_ & _ & _ & -> & _). reflexivity.
  - destruct (json.byte_is c 46); [|reflexivity].
    rewrite span_digits_app by assumption.
    destruct (json.span_digits s) as [ds r]. destruct (String.eqb ds "");
      reflexivity.
Qed.

Lemma scan_exp_app (s rest : string) :
  delimited rest = true ->
  json.scan_exp (s +:+ rest) = extended rest (json.scan_exp s).
Proof.
  intros Hd. destruct s as [|c s]; simpl.
  - destruct rest as [|c r]; [reflexivity|]. simpl.
    destruct (delimiter_facts c Hd) as (_ & _ & _ & _ & _ & _ & -> & -> & _).
    reflexivity.
  - destruct (json.byte_is c 101 || json.byte_is c 69); [|reflexivity].
    destruct s as [|d s]; simpl.
    + destruct rest as [|d r]; [reflexivity|]. simpl.
      destruct (delimiter_facts d Hd) as (Hdig & _ & -> & _ & _ & -> & _).
      simpl. rewrite Hdig. reflexivity.
    + destruct (json.byte_is d 43 || json.byte_is d 45).
      * rewrite span_digits_app by assumption.
        destruct (json.span_digits s) as [ds r]. destruct (String.eqb ds "");
          reflexivity.
      * change (String d (s +:+ rest)) with (String d s +:+ rest).
        rewrite span_digits_app by assumption.
        destruct (json.span_digits (String d s)) as [ds r].
        destruct (String.eqb ds ""); reflexivity.
Qed.

(** A number literal is scanned alike when a delimiter follows it. *)
Lemma scan_number_app (s rest : string) :
  delimited rest = true ->
  json.scan_number (s +:+ rest) = extended rest (json.scan_number s).
Proof.
  intros Hd. unfold json.scan_number.
  rewrite scan_sign_app by assumption.
  destruct (json.scan_sign s) as [[sign s1]|]; [simpl|reflexivity].
  rewrite scan_int_app by assumption.
  destruct (json.scan_int s1) as [[int s2]|]; [simpl|reflexivity].
  rewrite scan_frac_app by assumption.
  destruct (json.scan_frac s2) as [[frac s3]|]; [simpl|reflexivity].
  rewrite scan_exp_app by assumption.
  destruct (json.scan_exp s3) as [[exp s4]|]; reflexivity.
Qed.

(** A number literal starts with a minus sign or a digit. *)
Lemma scan_number_head (s l r : string) :
  json.scan_number s = Some (l, r) ->
  exists c t, s = String c t
              /\ (json.byte_is c 45 || json.is_digit c) = true.
Proof.
  unfold json.scan_number. destruct s as [|c t]; [discriminate|].
  intros H. exists c, t. split; [reflexivity|].
  simpl in H. destruct (json.byte_is c 45); [reflexivity|].
  simpl in H. unfold json.is_digit.
  destruct (json.byte_is c 48) eqn:H0.
  - unfold json.byte_is in H0. apply Z.eqb_eq in H0.
    unfold in_range. rewrite H0. reflexivity.
  - destruct (in_range 49 57 c) eqn:H1; [|discriminate H].
    unfold in_range in *. apply andb_true_iff in H1 as [Ha Hb].
    apply Z.leb_le in Ha. rewrite Hb.
    replace (48 <=? byte_val c) with true by (symmetry; apply Z.leb_le; lia).
    reflexivity.
Qed.

(** ** Reading back what was printed *)

Lemma value_induction (P : json.value -> Prop) :
  P json.JNull ->
  (forall b, P (json.JBool b)) ->
  (forall lit, P (json.JNumber lit)) ->
  (forall s, P (json.JString s)) ->
  (forall elems, Forall P elems -> P (json.JArray elems)) ->
  (forall members, Forall (fun kv => P (snd kv)) members ->
                   P (json.JObject members)) ->
  forall j, P j.
Proof.
  intros Hnull Hbool Hnum Hstr Harr Hobj.
  fix IH 1. intros [| b | lit | s | elems | members].
  - apply Hnull.
  - apply Hbool.
  - apply Hnum.
  - apply Hstr.
  - apply Harr. induction elems as [|x l IHl]; constructor; [apply IH|apply IHl].
  - apply Hobj. induction members as [|[k x] l IHl]; constructor;
      [apply IH|apply IHl].
Qed.

Lemma opens_app (s rest : string) : opens s -> opens (s +:+ rest).
Proof.
  intros (c & t & -> & H). exists c, (t +:+ rest). split; [reflexivity|exact H].
Qed.

Lemma number_head_facts (c : ascii) :
  (json.byte_is c 45 || json.is_digit c) = true ->
  json.isSpace c = false /\ json.byte_is c 93 = false
  /\ json.byte_is c 125 = false /\ json.byte_is c 123 = false
  /\ json.byte_is c 91 = false /\ json.byte_is c 34 = false.
Proof.
  each_byte c; intros H; try discriminate H; repeat split; reflexivity.
Qed.

Lemma print_opens (j : json.value) :
  well_formed j = true -> opens (json.print j).
Proof.
  destruct j as [| [] | lit | s | elems | members]; intros Hwf;
    try (eexists _, _; repeat split; reflexivity).
  simpl in Hwf. destruct (json.scan_number lit) as [[l r]|] eqn:Hs;
    [|discriminate].
  destruct (scan_number_head _ _ _ Hs) as (c & t & -> & Hc).
  destruct (number_head_facts c Hc) as (? & ? & ? & _).
  exists c, t. auto.
Qed.

Lemma skip_space_opens (s : string) : opens s -> json.skip_space s = s.
Proof. intros (c & t & -> & Hsp & _). simpl. rewrite Hsp. reflexivity. Qed.

Lemma well_formed_number (lit : string) :
  well_formed (json.JNumber lit) = true ->
  json.scan_number lit = Some (lit, EmptyString).
Proof.
  simpl. destruct (json.scan_number lit) as [[l [|c r]]|]; try discriminate.
  intros H. apply String.eqb_eq in H. subst. reflexivity.
Qed.

Lemma parse_number (fuel : nat) (lit rest : string) :
  well_formed (json.JNumber lit) = true -> delimited rest = true ->
  json.parse_value (S fuel) (lit +:+ rest) = Some (json.JNumber lit, rest).
Proof.
  intros Hwf Hd. pose proof (well_formed_number _ Hwf) as Hs.
  destruct (scan_number_head _ _ _ Hs) as (c & t & -> & Hc).
  destruct (number_head_facts c Hc) as (Hsp & _ & _ & H123 & H91 & H34).
  change (String c t +:+ rest) with (String c (t +:+ rest)).
  cbn [json.parse_value json.skip_space]. rewrite Hsp, H123, H91, H34, Hc.
  change (String c (t +:+ rest)) with (String c t +:+ rest).
  rewrite scan_number_app, Hs by assumption. reflexivity.
Qed.

Lemma parse_string (fuel : nat) (s rest : string) :
  utf8.ValidString s = true ->
  json.parse_value (S fuel) (json.appendString s +:+ rest)
  = Some (json.JString s, rest).
Proof.
  intros Hv. unfold json.appendString.
  rewrite !append_assoc.
  change (json.QUOTE +:+ ?x) with (String (byte_of 34) x).
  cbn [json.parse_value json.skip_space].
  change (json.isSpace (byte_of 34)) with false.
  change (json.byte_is (byte_of 34) 123) with false.
  change (json.byte_is (byte_of 34) 91) with false.
  change (json.byte_is (byte_of 34) 34) with true.
  cbn iota.
  rewrite scan_appendString, unquote_appendString_valid by assumption.
  reflexivity.
Qed.

Lemma parse_elems_print (x : json.value) (l : list json.value) :
  Forall reads_back (x :: l) ->
  forallb well_formed (x :: l) = true ->
  forall (fuel : nat) (rest : string),
    (need_elems (x :: l) <= fuel)%nat ->
    json.parse_elems fuel (json.print_elements json.print (x :: l) +:+ rest)
    = Some (x :: l, rest).
Proof.
  revert x. induction l as [|y l IH]; intros x HP Hwf fuel rest Hfuel.
  - apply Forall_cons in HP as [Hx _]. simpl in Hwf.
    apply andb_true_iff in Hwf as [Hwx _].
    destruct fuel as [|fuel]; [simpl in Hfuel; lia|].
    simpl in Hfuel.
    change (json.print_elements json.print [x]) with (json.print x +:+ "]").
    rewrite append_assoc. cbn [json.parse_elems].
    rewrite (Hx Hwx) by (reflexivity || lia). reflexivity.
  - apply Forall_cons in HP as [Hx HP].
    change (forallb well_formed (x :: y :: l))
      with (well_formed x && forallb well_formed (y :: l)) in Hwf.
    apply andb_true_iff in Hwf as [Hwx Hwf].
    destruct fuel as [|fuel]; [simpl in Hfuel; lia|].
    change (need_elems (x :: y :: l))
      with (S (need x + need_elems (y :: l))) in Hfuel.
    change (json.print_elements json.print (x :: y :: l))
      with (json.print x +:+ "," +:+ json.print_elements json.print (y :: l)).
    rewrite !append_assoc. cbn [json.parse_elems].
    rewrite (Hx Hwx) by (reflexivity || lia).
    change ("," +:+ ?X) with (String ","%char X).
    cbn [json.skip_space].
    change (json.isSpace ",") with false.
    change (json.byte_is "," 44) with true. cbn iota.
    rewrite IH by (assumption || lia). reflexivity.
Qed.

Lemma members_key (k : string) (tail : string) :
  json.appendString k +:+ tail
  = String (byte_of 34)
      (json.appendString_loop (String.length k) k +:+ json.QUOTE +:+ tail).
Proof. unfold json.appendString. rewrite !append_assoc. reflexivity. Qed.

Lemma parse_members_print (kv : string * json.value)
    (l : list (string * json.value)) :
  Forall (fun kv => reads_back (snd kv)) (kv :: l) ->
  forallb (fun kv => utf8.ValidString (fst kv) && well_formed (snd kv))
    (kv :: l) = true ->
  forall (fuel : nat) (rest : string),
    (need_members (kv :: l) <= fuel)%nat ->
    json.parse_members fuel
      (json.print_members json.print (kv :: l) +:+ rest)
    = Some (kv :: l, rest).
Proof.
  revert kv. induction l as [|kv' l IH]; intros [k x] HP Hwf fuel rest Hfuel.
  - apply Forall_cons in HP as [Hx _]. simpl in Hx, Hwf.
    rewrite andb_true_r in Hwf. apply andb_true_iff in Hwf as [Hk Hwx].
    destruct fuel as [|fuel]; [simpl in Hfuel; lia|].
    simpl in Hfuel.
    change (json.print_members json.print [(k, x)])
      with (json.appendString k +:+ ":" +:+ json.print x +:+ "}").
    rewrite !append_assoc, members_key. cbn [json.parse_members].
    change (json.byte_is (byte_of 34) 34) with true. cbn iota.
    rewrite scan_appendString, unquote_appendString_valid by assumption.
    change (":" +:+ ?X) with (String ":"%char X).
    cbn [json.skip_space].
    change (json.isSpace ":") with false.
    change (json.byte_is ":" 58) with true. cbn iota.
    rewrite (Hx Hwx) by (reflexivity || lia). reflexivity.
  - apply Forall_cons in HP as [Hx HP]. simpl in Hx.
    change (forallb ?f ((k, x) :: kv' :: l))
      with (utf8.ValidString k && well_formed x && forallb f (kv' :: l)) in Hwf.
    apply andb_true_iff in Hwf as [Hwf Hwl].
    apply andb_true_iff in Hwf as [Hk Hwx].
    destruct fuel as [|fuel]; [simpl in Hfuel; lia|].
    change (need_members ((k, x) :: kv' :: l))
      with (S (need x + need_members (kv' :: l))) in Hfuel.
    change (json.print_members json.print ((k, x) :: kv' :: l))
      with (json.appendString k +:+ ":" +:+ json.print x +:+ ","
            +:+ json.print_members json.print (kv' :: l)).
    rewrite !append_assoc, members_key. cbn [json.parse_members].
    change (json.byte_is (byte_of 34) 34) with true. cbn iota.
    rewrite scan_appendString, unquote_appendString_valid by assumption.
    change (":" +:+ ?X) with (String ":"%char X).
    cbn [json.skip_space].
    change (json.isSpace ":") with false.
    change (json.byte_is ":" 58) with true. cbn iota.
    rewrite (Hx Hwx) by (reflexivity || lia).
    change ("," +:+ ?X) with (String ","%char X).
    cbn [json.skip_space].
    change (json.isSpace ",") with false.
    change (json.byte_is "," 44) with true. cbn iota.
    assert (Hsk : forall t,
      json.skip_space (json.print_members json.print (kv' :: l) +:+ t)
      = json.print_members json.print (kv' :: l) +:+ t).
    { intros t. apply skip_space_opens.
      destruct kv' as [k' x'], l as [|kv'' l'].
      - change (json.print_members json.print [(k', x')])
          with (json.appendString k' +:+ ":" +:+ json.print x' +:+ "}").
        rewrite append_assoc, members_key.
        eexists _, _. repeat split; reflexivity.
      - change (json.print_members json.print ((k', x') :: kv'' :: l'))
          with (json.appendString k' +:+ ":" +:+ json.print x' +:+ ","
                +:+ json.print_members json.print (kv'' :: l')).
        rewrite append_assoc, members_key.
        eexists _, _. repeat split; reflexivity. }
    rewrite Hsk, IH by (assumption || lia). reflexivity.
Qed.

(** Every well-formed value is read back from its compact text. *)
Lemma parse_value_print (j : json.value) : reads_back j.
Proof.
  induction j as [| b | lit | s | elems IH | members IH] using value_induction;
    intros Hwf fuel rest Hfuel Hd;
    (destruct fuel as [|fuel]; [simpl in Hfuel; lia|]).
  - reflexivity.
  - destruct b; reflexivity.
  - apply parse_number; assumption.
  - apply parse_string. exact Hwf.
  - change (json.print (json.JArray elems))
      with ("[" +:+ json.print_elements json.print elems).
    rewrite append_assoc.
    change ("[" +:+ ?X) with (String "["%char X).
    cbn [json.parse_value json.skip_space].
    change (json.isSpace "[") with false.
    change (json.byte_is "[" 123) with false.
    change (json.byte_is "[" 91) with true. cbn iota.
    destruct elems as [|x l]; [reflexivity|].
    assert (Ho : opens (json.print_elements json.print (x :: l) +:+ rest)).
    { apply opens_app. simpl in Hwf. apply andb_true_iff in Hwf as [Hwx _].
      destruct l; apply opens_app, print_opens, Hwx. }
    rewrite (skip_space_opens _ Ho).
    destruct Ho as (c & t & E & _ & H93 & _). rewrite E, H93, <- E.
    change (need (json.JArray (x :: l))) with (S (need_elems (x :: l))) in Hfuel.
    rewrite parse_elems_print by (assumption || lia). reflexivity.
  - change (json.print (json.JObject members))
      with ("{" +:+ json.print_members json.print members).
    rewrite append_assoc.
    change ("{" +:+ ?X) with (String "{"%char X).
    cbn [json.parse_value json.skip_space].
    change (json.isSpace "{") with false.
    change (json.byte_is "{" 123) with true. cbn iota.
    destruct members as [|[k x] l]; [reflexivity|].
    assert (Ho : opens (json.print_members json.print ((k, x) :: l) +:+ rest)).
    { destruct l.
      - change (json.print_members json.print [(k, x)])
          with (json.appendString k +:+ ":" +:+ json.print x +:+ "}").
        rewrite append_assoc, members_key.
        eexists _, _. repeat split; reflexivity.
      - change (json.print_members json.print ((k, x) :: p :: l))
          with (json.appendString k +:+ ":" +:+ json.print x +:+ ","
                +:+ json.print_members json.print (p :: l)).
        rewrite append_assoc, members_key.
        eexists _, _. repeat split; reflexivity. }
    rewrite (skip_space_opens _ Ho).
    destruct Ho as (c & t & E & _ & _ & H125). rewrite E, H125, <- E.
    change (need (json.JObject ((k, x) :: l)))
      with (S (need_members ((k, x) :: l))) in Hfuel.
    rewrite parse_members_print by (assumption || lia). reflexivity.
Qed.

Lemma print_nonempty (j : json.value) :
  well_formed j = true -> (1 <= String.length (json.print j))%nat.
Proof.
  intros Hwf. destruct (print_opens j Hwf) as (c & t & -> & _). simpl. lia.
Qed.

Lemma need_le_length (j : json.value) :
  well_formed j = true -> (need j <= String.length (json.print j))%nat.
Proof.
  induction j as [| b | lit | s | elems IH | members IH] using value_induction;
    intros Hwf; try (apply print_nonempty, Hwf).
  - change (need (json.JArray elems)) with (S (need_elems elems)).
    change (json.print (json.JArray elems))
      with ("[" +:+ json.print_elements json.print elems).
    rewrite length_append. simpl String.length.
    apply le_n_S. simpl in Hwf.
    induction elems as [|x l IHl]; [simpl; lia|].
    apply Forall_cons in IH as [Hx Hl]. simpl in Hwf.
    apply andb_true_iff in Hwf as [Hwx Hwl].
    specialize (IHl Hl Hwl). specialize (Hx Hwx).
    change (need_elems (x :: l)) with (S (need x + need_elems l)).
    destruct l as [|y l].
    + change (json.print_elements json.print [x]) with (json.print x +:+ "]").
      rewrite length_append. change (need_elems []) with O.
      simpl String.length. lia.
    + change (json.print_elements json.print (x :: y :: l))
        with (json.print x +:+ "," +:+ json.print_elements json.print (y :: l)).
      rewrite !length_append. change (String.length ",") with 1%nat. lia.
  - change (need (json.JObject members)) with (S (need_members members)).
    change (json.print (json.JObject members))
      with ("{" +:+ json.print_members json.print members).
    rewrite length_append. simpl String.length.
    apply le_n_S. simpl in Hwf.
    induction members as [|[k x] l IHl]; [simpl; lia|].
    apply Forall_cons in IH as [Hx Hl]. simpl in Hwf, Hx.
    apply andb_true_iff in Hwf as [Hwx Hwl].
    apply andb_true_iff in Hwx as [_ Hwx].
    specialize (IHl Hl Hwl). specialize (Hx Hwx).
    change (need_members ((k, x) :: l)) with (S (need x + need_members l)).
    destruct l as [|y l].
    + change (json.print_members json.print [(k, x)])
        with (json.appendString k +:+ ":" +:+ json.print x +:+ "}").
      rewrite !length_append. change (need_members []) with O.
      simpl String.length. lia.
    + change (json.print_members json.print ((k, x) :: y :: l))
        with (json.appendString k +:+ ":" +:+ json.print x +:+ ","
              +:+ json.print_members json.print (y :: l)).
      rewrite !length_append. change (String.length ",") with 1%nat. lia.
Qed.

(** [json.parse] reads a well-formed value back from its compact text. *)
Lemma parse_print (j : json.value) :
  well_formed j = true -> json.parse (json.print j) = Some j.
Proof.
  intros Hwf. unfold json.parse.
  rewrite <- (append_nil_r (json.print j)) at 2.
  rewrite (parse_value_print j Hwf).
  - reflexivity.
  - pose proof (need_le_length j Hwf). lia.
  - reflexivity.
Qed.

(** Encoded, printed, parsed and decoded: a value that goes through JSON
    values and back goes through JSON text and back. *)
Lemma Unmarshal_Marshal {T : Type} `{!json.Encodable T} `{!json.Decodable T}
    (x : T) :
  round_trips x ->
  exists data, json.Marshal x = Ok data
               /\ json.Unmarshal data json.zero = (x, None).
Proof.
  intros (j & He & _ & Hwf & Hd). exists (json.print j).
  unfold json.Marshal, json.Unmarshal.
  rewrite He, (parse_print j Hwf), Hd. split; reflexivity.
Qed.

(** ** Structs *)

Section structs.
Context `{ext.Declarations}.

Lemma decode_ptr_round_trip {T : Type} `{!json.Decodable T} (x : T)
    (j : json.value) :
  j <> json.JNull -> json.decode j json.zero = (x, json.Done) ->
  json.decode_ptr j None = (Some x, json.Done).
Proof.
  intros Hnn Hd. unfold json.decode_ptr.
  destruct j; try contradiction; simpl; rewrite Hd; reflexivity.
Qed.

Lemma ChargebackLinks_round_trips (l : ChargebackLinks.t) :
  opt_round_trips (ChargebackLinks.Self l) ->
  opt_round_trips (ChargebackLinks.Payment l) ->
  opt_round_trips (ChargebackLinks.Settlement l) ->
  opt_round_trips (ChargebackLinks.Documentation l) ->
  round_trips l.
Proof.
  destruct l as [s p st d]. simpl. intros Hs Hp Hst Hd.
  destruct s as [s|], p as [p|], st as [st|], d as [d|].
  all: repeat match goal with
              | H : opt_round_trips (Some _) |- _ =>
                  let j := fresh "j" in
                  destruct H as (j & ? & ? & ? & ?)
              | H : opt_round_trips None |- _ => clear H
              end.
  all: unfold round_trips.
  all: eexists; split; [|split; [|split]].
  all: try (cbn [json.encode ChargebackLinks.encodable json.encode_struct
                   json.collect json.omitempty_ptr
                   ChargebackLinks.Self ChargebackLinks.Payment
                   ChargebackLinks.Settlement ChargebackLinks.Documentation];
            repeat match goal with
                   | E : json.encode _ = Ok _ |- _ => rewrite E; clear E
                   end;
            cbn [json.collect]; reflexivity).
  all: try discriminate.
  all: try (cbn [well_formed forallb fst snd];
            repeat match goal with
                   | E : well_formed _ = true |- _ => rewrite E; clear E
                   end; reflexivity).
  all: cbn iota.
  all: cbn [json.decode ChargebackLinks.decodable json.decode_struct
             json.decode_members json.find_field find ChargebackLinks.fields
             fst snd String.eqb Ascii.eqb Bool.eqb
             ChargebackLinks.Self ChargebackLinks.Payment
             ChargebackLinks.Settlement ChargebackLinks.Documentation json.zero].
  all: repeat (erewrite decode_ptr_round_trip by eassumption;
               cbn [json.stopped json.and_then
                    ChargebackLinks.Self ChargebackLinks.Payment
                    ChargebackLinks.Settlement ChargebackLinks.Documentation]).
  all: reflexivity.
Qed.

Lemma Chargeback_round_trips (c : Chargeback.t) :
  utf8.ValidString (Chargeback.Resource c) = true ->
  utf8.ValidString (Chargeback.ID c) = true ->
  utf8.ValidString (Chargeback.PaymentID c) = true ->
  opt_round_trips (Chargeback.Amount c) ->
  opt_round_trips (Chargeback.SettlementAmount c) ->
  opt_round_trips (Chargeback.CreatedAt c) ->
  opt_round_trips (Chargeback.ReversedAt c) ->
  round_trips (Chargeback.Links c) ->
  round_trips c.
Proof.
  destruct c as [res id am sam cr rv pid links]. simpl.
  intros Hres Hid Hpid Ham Hsam Hcr Hrv (jl & Hel & _ & Hwl & Hdl).
  destruct res as [|c1 res], id as [|c2 id], pid as [|c3 pid],
    am as [am|], sam as [sam|], cr as [cr|], rv as [rv|].
  all: repeat match goal with
              | H : opt_round_trips (Some _) |- _ =>
                  let j := fresh "j" in
                  destruct H as (j & ? & ? & ? & ?)
              | H : opt_round_trips None |- _ => clear H
              end.
  all: unfold round_trips.
  all: eexists; split; [|split; [|split]].
  all: try (cbn [json.encode Chargeback.encodable json.encode_struct
                   json.collect json.omitempty_ptr json.omitempty_string
                   json.struct_field String.eqb
                   Chargeback.Resource Chargeback.ID Chargeback.Amount
                   Chargeback.SettlementAmount Chargeback.CreatedAt
                   Chargeback.ReversedAt Chargeback.PaymentID
                   Chargeback.Links];
            unfold json.encode_struct, json.omitempty_string,
              json.struct_field, json.omitempty_ptr;
            repeat match goal with
                   | E : json.encode _ = Ok _ |- _ => rewrite E; clear E
                   end;
            cbn [json.collect String.eqb]; reflexivity).
  all: try discriminate.
  all: try (cbn [well_formed forallb fst snd];
            repeat match goal with
                   | E : well_formed _ = true |- _ => rewrite E; clear E
                   | E : utf8.ValidString _ = true |- _ => rewrite E; clear E
                   end; reflexivity).
  all: cbn iota.
  all: cbn [json.decode Chargeback.decodable json.decode_struct
             json.decode_members json.find_field find Chargeback.fields
             fst snd String.eqb Ascii.eqb Bool.eqb json.decode_string
             Chargeback.Resource Chargeback.ID Chargeback.Amount
             Chargeback.SettlementAmount Chargeback.CreatedAt
             Chargeback.ReversedAt Chargeback.PaymentID Chargeback.Links
             json.stopped json.and_then json.zero].
  all: repeat (first [ erewrite decode_ptr_round_trip by eassumption
                     | rewrite Hdl ];
               cbn [json.stopped json.and_then json.decode_string
                    Chargeback.Resource Chargeback.ID Chargeback.Amount
                    Chargeback.SettlementAmount Chargeback.CreatedAt
                    Chargeback.ReversedAt Chargeback.PaymentID
                    Chargeback.Links]).
  all: reflexivity.
Qed.

End structs.

Section names.
Context `{ext.Declarations}.

(** The members written for the links are those of the links that are
    set. *)
Lemma ChargebackLinks_member_names (l : ChargebackLinks.t) :
  opt_round_trips (ChargebackLinks.Self l) ->
  opt_round_trips (ChargebackLinks.Payment l) ->
  opt_round_trips (ChargebackLinks.Settlement l) ->
  opt_round_trips (ChargebackLinks.Documentation l) ->
  member_names (json.encode l)
  = (present_ptr "self" (ChargebackLinks.Self l)
     ++ present_ptr "payment" (ChargebackLinks.Payment l)
     ++ present_ptr "settlement" (ChargebackLinks.Settlement l)
     ++ present_ptr "documentation" (ChargebackLinks.Documentation l))%list.
Proof.
  destruct l as [s p st d]. simpl. intros Hs Hp Hst Hd.
  destruct s as [s|], p as [p|], st as [st|], d as [d|].
  all: repeat match goal with
              | H : opt_round_trips (Some _) |- _ =>
                  let j := fresh "j" in
                  destruct H as (j & ? & ? & ? & ?)
              | H : opt_round_trips None |- _ => clear H
              end.
  all: cbn [json.encode ChargebackLinks.encodable
              ChargebackLinks.Self ChargebackLinks.Payment
              ChargebackLinks.Settlement ChargebackLinks.Documentation];
       unfold json.encode_struct, json.omitempty_ptr;
       repeat match goal with
              | E : json.encode _ = Ok _ |- _ => rewrite E; clear E
              end;
       reflexivity.
Qed.

(** The members written for a chargeback are those of its fields that
    are not empty, and [_links]. *)
Lemma Chargeback_member_names (c : Chargeback.t) :
  opt_round_trips (Chargeback.Amount c) ->
  opt_round_trips (Chargeback.SettlementAmount c) ->
  opt_round_trips (Chargeback.CreatedAt c) ->
  opt_round_trips (Chargeback.ReversedAt c) ->
  round_trips (Chargeback.Links c) ->
  member_names (json.encode c)
  = (present_string "resource" (Chargeback.Resource c)
     ++ present_string "id" (Chargeback.ID c)
     ++ present_ptr "amount" (Chargeback.Amount c)
     ++ present_ptr "settlementAmount" (Chargeback.SettlementAmount c)
     ++ present_ptr "createdAt" (Chargeback.CreatedAt c)
     ++ present_ptr "reversedAt" (Chargeback.ReversedAt c)
     ++ present_string "paymentId" (Chargeback.PaymentID c)
     ++ ["_links"])%list.
Proof.
  destruct c as [res id am sam cr rv pid links]. simpl.
  intros Ham Hsam Hcr Hrv (jl & Hel & _).
  destruct res as [|c1 res], id as [|c2 id], pid as [|c3 pid],
    am as [am|], sam as [sam|], cr as [cr|], rv as [rv|].
  all: repeat match goal with
              | H : opt_round_trips (Some _) |- _ =>
                  let j := fresh "j" in
                  destruct H as (j & ? & ? & ? & ?)
              | H : opt_round_trips None |- _ => clear H
              end.
  all: cbn [json.encode Chargeback.encodable
              Chargeback.Resource Chargeback.ID Chargeback.Amount
              Chargeback.SettlementAmount Chargeback.CreatedAt
              Chargeback.ReversedAt Chargeback.PaymentID Chargeback.Links];
       unfold json.encode_struct, json.omitempty_string, json.struct_field,
         json.omitempty_ptr;
       repeat match goal with
              | E : json.encode _ = Ok _ |- _ => rewrite E; clear E
              end;
       reflexivity.
Qed.

End names.


(** ** Request construction *)

(** C1, as stated, fails: the path [Get] builds starts with the API version
    [v2/], and it holds a [?] when an identifier holds one. *)
Lemma C1_counterexample :
  requested_uri (@Get sample.declarations tt "tr_7UhSN1zuXS" "chb_n9z0tp" None)
  <> Some "payments/tr_7UhSN1zuXS/chargebacks/chb_n9z0tp"
  /\ (exists uri,
        requested_uri (@Get sample.declarations tt "tr_1?x" "chb_1" None)
        = Some uri
        /\ contains_byte "?" uri = true).
Proof.
  split.
  - vm_compute. discriminate.
  - eexists. split; reflexivity.
Qed.

(** C1 (amended): with nil options, [Get] asks for exactly
    [v2/payments/{paymentID}/chargebacks/{chargebackID}]; nothing follows
    the chargeback identifier, so the URI holds a [?] only where one of the
    identifiers does. *)
Theorem C1_Get_nil_options_path `{ext.Declarations} (ctx : ext.Context)
    (paymentID chargebackID : string) :
  requested_uri (Get ctx paymentID chargebackID None)
  = Some ("v2/payments/" +:+ paymentID +:+ "/chargebacks/" +:+ chargebackID)
  /\ contains_byte "?"
       ("v2/payments/" +:+ paymentID +:+ "/chargebacks/" +:+ chargebackID)
     = contains_byte "?" paymentID || contains_byte "?" chargebackID.
Proof.
  split.
  - rewrite Get_uri. rewrite append_nil_r. reflexivity.
  - rewrite !contains_byte_app. reflexivity.
Qed.

(** C3: options that are not nil and whose fields are all empty still put
    a [?] after the path, followed by an empty query string. *)
Theorem C3_empty_options_keep_question_mark `{ext.Declarations}
    (ctx : ext.Context) (paymentID chargebackID : string) :
  requested_uri
    (Get ctx paymentID chargebackID (Some (ChargebackOptions.mk "" "")))
  = Some ("v2/payments/" +:+ paymentID +:+ "/chargebacks/" +:+ chargebackID
          +:+ "?")
  /\ requested_uri (List ctx (Some (ListChargebackOptions.mk "" "" "")))
     = Some "v2/chargebacks?"
  /\ requested_uri
       (ListForPayment ctx paymentID (Some (ListChargebackOptions.mk "" "" "")))
     = Some ("v2/payments/" +:+ paymentID +:+ "/chargebacks" +:+ "?").
Proof.
  rewrite Get_uri, List_uri, ListForPayment_uri.
  rewrite Encode_ChargebackOptions, Encode_ListChargebackOptions.
  repeat split; reflexivity.
Qed.

(** ** The encoding of net/url and the encoding of the specification *)

Lemma escape_percent_encode_byte (c : ascii) (r : string) :
  url.escape (String c r)
  = match percent_encode (String c EmptyString) with
    | String x EmptyString => String x (url.escape r)
    | String x (String y (String z EmptyString)) =>
        String x (String y (String z (url.escape r)))
    | _ => EmptyString
    end
  /\ percent_encode (String c r)
     = match percent_encode (String c EmptyString) with
       | String x EmptyString => String x (percent_encode r)
       | String x (String y (String z EmptyString)) =>
           String x (String y (String z (percent_encode r)))
       | _ => EmptyString
       end.
Proof.
  each_byte c; split; reflexivity.
Qed.

Lemma QueryEscape_percent_encode (v : string) :
  url.QueryEscape v = percent_encode v.
Proof.
  unfold url.QueryEscape. induction v as [|c r IH]; [reflexivity|].
  destruct (escape_percent_encode_byte c r) as [-> ->]. rewrite IH.
  reflexivity.
Qed.

Lemma join_pairs_encoded (ps : list (string * string)) :
  join_pairs ps = encoded_pairs ps.
Proof.
  induction ps as [|[k v] ps IH]; [reflexivity|].
  cbn [join_pairs encoded_pairs]. rewrite IH, QueryEscape_percent_encode.
  reflexivity.
Qed.

Lemma expected_query_encoded (params : list (string * string)) :
  expected_query params = encoded_query params.
Proof. apply join_pairs_encoded. Qed.

(** A byte that is not unreserved, other than [%] and [+], occurs in no
    encoded value. *)
Lemma percent_encode_no_reserved (x : ascii) (v : string) :
  unreserved x = false -> x <> "%"%char -> x <> "+"%char ->
  contains_byte x (percent_encode v) = false.
Proof.
  intros Hx Hp Hq. rewrite <- QueryEscape_percent_encode.
  apply QueryEscape_no_reserved; [|assumption..].
  revert Hx. clear. each_byte x; intros Hx; try reflexivity;
    discriminate Hx.
Qed.

(** C4: for every options value that is not nil, the query string of
    each method holds exactly the fields that are not empty, each as its
    declared name (include, embed, profileId), [=] and its value
    URL-encoded, in the order of the names, joined by [&], and nothing
    else.  URL-encoded is meant as the specification's own encoding
    [percent_encode], which is not written with the encoder of [net/url];
    an encoded value holds none of the separators [&], [=], [?] and [#],
    so the parameters of the query are those fields and no others. *)
Theorem C4_query_holds_exactly_the_nonempty_fields `{ext.Declarations}
    (ctx : ext.Context) (paymentID chargebackID : string)
    (o : ChargebackOptions.t) (lo : ListChargebackOptions.t) :
  requested_uri (Get ctx paymentID chargebackID (Some o))
  = Some ("v2/payments/" +:+ paymentID +:+ "/chargebacks/" +:+ chargebackID
          +:+ "?"
          +:+ encoded_query [("embed", ChargebackOptions.Embed o);
                             ("include", ChargebackOptions.Include o)])
  /\ requested_uri (List ctx (Some lo))
     = Some ("v2/chargebacks" +:+ "?"
             +:+ encoded_query
                   [("embed", ListChargebackOptions.Embed lo);
                    ("include", ListChargebackOptions.Include lo);
                    ("profileId", ListChargebackOptions.ProfileID lo)])
  /\ requested_uri (ListForPayment ctx paymentID (Some lo))
     = Some ("v2/payments/" +:+ paymentID +:+ "/chargebacks" +:+ "?"
             +:+ encoded_query
                   [("embed", ListChargebackOptions.Embed lo);
                    ("include", ListChargebackOptions.Include lo);
                    ("profileId", ListChargebackOptions.ProfileID lo)])
  /\ (forall v : string,
        url.QueryEscape v = percent_encode v
        /\ contains_byte "&" (percent_encode v) = false
        /\ contains_byte "=" (percent_encode v) = false
        /\ contains_byte "?" (percent_encode v) = false
        /\ contains_byte "#" (percent_encode v) = false).
Proof.
  rewrite Get_uri, List_uri, ListForPayment_uri.
  rewrite Encode_ChargebackOptions, Encode_ListChargebackOptions.
  rewrite !expected_query_encoded.
  repeat split; try reflexivity;
    try apply QueryEscape_percent_encode;
    apply percent_encode_no_reserved; (reflexivity || discriminate).
Qed.

(** ** The shared list path *)

(** C5: [List] and [ListForPayment] are both [list] on the URI they
    build, and whenever the transport answers them with the same body they
    return the same list and the same error: what [json.Unmarshal] makes of
    that body in a nil [*ChargebackList]. *)
Theorem C5_list_methods_share_the_decode_path `{ext.Declarations}
    (client1 client2 : Client.t) (ctx1 ctx2 : ext.Context)
    (paymentID body : string) (options1 options2 : option ListChargebackOptions.t) :
  answered client1 ctx1 (List ctx1 options1) body ->
  answered client2 ctx2 (ListForPayment ctx2 paymentID options2) body ->
  (exists uri, List ctx1 options1 = list_ ctx1 uri)
  /\ (exists uri, ListForPayment ctx2 paymentID options2 = list_ ctx2 uri)
  /\ run client1 (List ctx1 options1) = json.Unmarshal body None
  /\ run client2 (ListForPayment ctx2 paymentID options2)
     = json.Unmarshal body None
  /\ run client1 (List ctx1 options1)
     = run client2 (ListForPayment ctx2 paymentID options2).
Proof.
  intros H1 H2.
  destruct (List_list ctx1 options1) as (u1 & E1 & _).
  destruct (ListForPayment_list ctx2 paymentID options2) as (u2 & E2 & _).
  rewrite E1, E2 in *.
  rewrite (list_answered _ _ _ _ H1), (list_answered _ _ _ _ H2).
  repeat split; eauto.
Qed.

Lemma C5_witness :
  run (sample.serving body7) (@List sample.declarations tt None)
  = run (sample.serving body7)
      (@ListForPayment sample.declarations tt "tr_7UhSN1zuXS" None).
Proof.
  apply (C5_list_methods_share_the_decode_path (H := sample.declarations)
           (sample.serving body7) (sample.serving body7) tt tt
           "tr_7UhSN1zuXS" body7 None None).
  - exists "v2/chargebacks", ("GET", "v2/chargebacks"), (Response.mk body7).
    repeat split; reflexivity.
  - exists "v2/payments/tr_7UhSN1zuXS/chargebacks",
      ("GET", "v2/payments/tr_7UhSN1zuXS/chargebacks"), (Response.mk body7).
    repeat split; reflexivity.
Defined.

(** C7: [List] with nil options, answered with the body
    [{"count":1,"_embedded":{"chargebacks":[{"id":"chb_1"}]},"_links":{}}],
    returns a list that is not nil, with count 1 and exactly one embedded
    chargeback, whose ID is [chb_1], and a nil error.  ([PaginationLinks]
    is declared outside this file; as for any struct, an empty object
    stores nothing into it.) *)
Theorem C7_List_scenario `{ext.Declarations} (client : Client.t)
    (ctx : ext.Context) :
  json.decode (json.JObject []) (json.zero : ext.PaginationLinks)
  = (json.zero, json.Done) ->
  answered client ctx (List ctx None) body7 ->
  run client (List ctx None)
  = (Some (ChargebackList.mk 1
             (Embedded.mk
                (Some [Chargeback.mk "" "chb_1" None None None None ""
                         json.zero]))
             json.zero),
     None).
Proof.
  intros Hl Ha. change (List ctx None) with (list_ ctx "v2/chargebacks") in *.
  rewrite (list_answered _ _ _ _ Ha). apply Unmarshal_body7, Hl.
Qed.

Lemma C7_witness :
  run (sample.serving body7) (@List sample.declarations tt None)
  = (Some (ChargebackList.mk (H := sample.declarations) 1
             (Embedded.mk
                (Some [Chargeback.mk "" "chb_1" None None None None ""
                         json.zero]))
             json.zero),
     None).
Proof.
  apply (C7_List_scenario (H := sample.declarations)).
  - reflexivity.
  - exists "v2/chargebacks", ("GET", "v2/chargebacks"), (Response.mk body7).
    repeat split; reflexivity.
Defined.

(** C10: a list method whose transport succeeds with the body [null]
    returns a nil list together with a nil error. *)
Theorem C10_null_body_gives_nil_nil `{ext.Declarations} (client : Client.t)
    (ctx : ext.Context) (paymentID : string)
    (options : option ListChargebackOptions.t)
    (m : call (option ChargebackList.t * option error)) :
  m = List ctx options \/ m = ListForPayment ctx paymentID options ->
  answered client ctx m "null" ->
  run client m = (None, None).
Proof.
  intros Hm Ha. destruct (list_methods _ _ _ _ Hm) as (uri & ->).
  rewrite (list_answered _ _ _ _ Ha). reflexivity.
Qed.

Lemma C10_witness :
  run (sample.serving "null") (@List sample.declarations tt None)
  = (None, None).
Proof.
  apply (C10_null_body_gives_nil_nil (H := sample.declarations)
           (sample.serving "null") tt "" None).
  - left. reflexivity.
  - exists "v2/chargebacks", ("GET", "v2/chargebacks"), (Response.mk "null").
    repeat split; reflexivity.
Defined.

(** ** Errors *)

(** C2, as stated, fails for an error of the decoder: a body that is
    well-formed JSON but holds a value of the wrong type is decoded as far
    as it goes, and the error comes with what was stored. *)
Lemma C2_counterexample :
  run (sample.serving body2)
    (@Get sample.declarations tt "tr_7UhSN1zuXS" "chb_1" None)
  = (Chargeback.mk "" "chb_1" None None None None "" json.zero,
     Some (UnmarshalTypeError "number" "string"))
  /\ Chargeback.mk (H := sample.declarations) "" "chb_1" None None None None ""
       json.zero <> json.zero
  /\ run (sample.serving "5") (@List sample.declarations tt None)
     = (Some json.zero, Some (UnmarshalTypeError "number" "ChargebackList")).
Proof.
  split; [|split].
  - reflexivity.
  - discriminate.
  - reflexivity.
Qed.

(** C2 (amended): an error that [Get], [List] or [ListForPayment] returns
    comes with the zero value (a zero [Chargeback], a nil list) unless it
    is an error of decoding a body that is well-formed JSON; so an error of
    the request builder, of the transport or of a malformed body never
    comes with a populated result. *)
Theorem C2_error_comes_with_zero_value `{ext.Declarations}
    (client : Client.t) (ctx : ext.Context) (paymentID chargebackID : string)
    (options : option ChargebackOptions.t)
    (loptions : option ListChargebackOptions.t) :
  (forall r e,
     run client (Get ctx paymentID chargebackID options) = (r, Some e) ->
     r = json.zero
     \/ exists body j,
          answered client ctx (Get ctx paymentID chargebackID options) body
          /\ json.parse body = Some j)
  /\ (forall m r e,
        m = List ctx loptions \/ m = ListForPayment ctx paymentID loptions ->
        run client m = (r, Some e) ->
        r = None
        \/ exists body j,
             answered client ctx m body /\ json.parse body = Some j).
Proof.
  split.
  - apply Get_error_zero.
  - intros m r e Hm Hrun. destruct (list_methods _ _ _ _ Hm) as (uri & ->).
    eapply list_error_zero, Hrun.
Qed.

Lemma C2_witness :
  @json.zero _ (Chargeback.decodable (H := sample.declarations)) = json.zero
  \/ exists body j,
       answered sample.failing tt
         (@Get sample.declarations tt "tr_7UhSN1zuXS" "chb_1" None) body
       /\ json.parse body = Some j.
Proof.
  apply (proj1 (C2_error_comes_with_zero_value (H := sample.declarations)
                  sample.failing tt "tr_7UhSN1zuXS" "chb_1" None None)
           json.zero (errorString "502 Bad Gateway")).
  reflexivity.
Defined.



(** ** The methods against any encoder *)

Section encoder.
Context `{ext.Declarations}.
Variable Values : query.Value -> gmap string (list string) * option error.

Lemma Get_with_uri ctx paymentID chargebackID options :
  requested_uri (Get_with Values ctx paymentID chargebackID options)
  = Some ("v2/payments/" +:+ paymentID +:+ "/chargebacks/" +:+ chargebackID
          +:+ match options with
              | Some o =>
                  "?" +:+ url.Encode
                    (Values (query.Ptr (ChargebackOptions.reflect o))).1
              | None => ""
              end).
Proof.
  unfold Get_with, requested_uri. destruct options as [o|].
  - destruct (Values _) as [v e]. simpl.
    rewrite ?append_assoc. simpl. rewrite ?append_assoc. reflexivity.
  - simpl. rewrite ?append_nil_r. reflexivity.
Qed.

Lemma List_with_list ctx options :
  List_with Values ctx options
  = list_ ctx ("v2/chargebacks"
               +:+ match options with
                   | Some o =>
                       "?" +:+ url.Encode
                         (Values
                            (query.Ptr (ListChargebackOptions.reflect o))).1
                   | None => ""
                   end).
Proof.
  unfold List_with. destruct options as [o|]; [|reflexivity].
  destruct (Values _) as [v e]. reflexivity.
Qed.

Lemma ListForPayment_with_list ctx paymentID options :
  ListForPayment_with Values ctx paymentID options
  = list_ ctx ("v2/payments/" +:+ paymentID +:+ "/chargebacks"
               +:+ match options with
                   | Some o =>
                       "?" +:+ url.Encode
                         (Values
                            (query.Ptr (ListChargebackOptions.reflect o))).1
                   | None => ""
                   end).
Proof.
  unfold ListForPayment_with. destruct options as [o|].
  - destruct (Values _) as [v e]. simpl. rewrite ?append_assoc. reflexivity.
  - simpl. rewrite ?append_nil_r. reflexivity.
Qed.

(** [Get] on a URI: what every call of [Get_with] is. *)
Lemma Get_with_call ctx paymentID chargebackID options :
  exists uri,
    requested_uri (Get_with Values ctx paymentID chargebackID options)
    = Some uri
    /\ forall client : Client.t,
         run client (Get_with Values ctx paymentID chargebackID options)
         = match Client.NewAPIRequest client ctx http.MethodGet uri None with
           | Err e => (json.zero, Some e)
           | Ok req =>
               match Client.Do client req with
               | Err e => (json.zero, Some e)
               | Ok res => json.Unmarshal (Response.content res) json.zero
               end
           end.
Proof.
  unfold Get_with. eexists. split; [reflexivity|]. intros client. simpl.
  destruct (Client.NewAPIRequest _ _ _ _ _) as [req|e]; simpl; [|reflexivity].
  destruct (Client.Do _ _) as [res|e]; reflexivity.
Qed.

Lemma Get_with_error_from (client : Client.t) ctx paymentID chargebackID
    options r e :
  run client (Get_with Values ctx paymentID chargebackID options)
  = (r, Some e) ->
  exists uri,
    requested_uri (Get_with Values ctx paymentID chargebackID options)
    = Some uri
    /\ error_from client ctx uri (json.zero : Chargeback.t) e.
Proof.
  destruct (Get_with_call ctx paymentID chargebackID options)
    as (uri & Hu & Hrun).
  rewrite Hrun. intros Hr. exists uri. split; [exact Hu|].
  unfold error_from.
  destruct (Client.NewAPIRequest _ _ _ _ _) as [req|e'].
  - right. exists req. split; [reflexivity|].
    destruct (Client.Do _ _) as [res|e'].
    + right. exists res. split; [reflexivity|]. rewrite Hr. reflexivity.
    + left. congruence.
  - left. congruence.
Qed.

End encoder.

Lemma Encode_empty : url.Encode ∅ = "".
Proof. vm_compute. reflexivity. Qed.

(** C9: the error of the encoder is dropped.  With the encoder as a
    parameter, whatever it returns: the URI of each method is made of the
    values it returns and of nothing else; two encoders that return the
    same values give the same call, whatever errors they return; an
    encoder that fails with a nil map, as [query.Values] does when it
    fails, makes each method the very call it is on options that are all
    empty, the URI ending in [?], so the failure shows nowhere; and every
    error a method returns is the request builder's, the transport's or
    the decoder's.  The library's encoder does not fail on the options of
    this file. *)
Theorem C9_query_error_is_dropped `{ext.Declarations} (client : Client.t)
    (ctx : ext.Context) (paymentID chargebackID : string)
    (o : ChargebackOptions.t) (lo : ListChargebackOptions.t)
    (Values Values' : query.Value -> gmap string (list string) * option error) :
  (requested_uri (Get_with Values ctx paymentID chargebackID (Some o))
   = Some ("v2/payments/" +:+ paymentID +:+ "/chargebacks/" +:+ chargebackID
           +:+ "?" +:+ url.Encode
                 (Values (query.Ptr (ChargebackOptions.reflect o))).1)
   /\ requested_uri (List_with Values ctx (Some lo))
      = Some ("v2/chargebacks" +:+ "?" +:+ url.Encode
                (Values (query.Ptr (ListChargebackOptions.reflect lo))).1)
   /\ requested_uri (ListForPayment_with Values ctx paymentID (Some lo))
      = Some ("v2/payments/" +:+ paymentID +:+ "/chargebacks" +:+ "?"
              +:+ url.Encode
                (Values (query.Ptr (ListChargebackOptions.reflect lo))).1))
  /\ ((forall x, (Values x).1 = (Values' x).1) ->
      Get_with Values ctx paymentID chargebackID (Some o)
      = Get_with Values' ctx paymentID chargebackID (Some o)
      /\ List_with Values ctx (Some lo) = List_with Values' ctx (Some lo)
      /\ ListForPayment_with Values ctx paymentID (Some lo)
         = ListForPayment_with Values' ctx paymentID (Some lo))
  /\ (forall e,
        Values (query.Ptr (ChargebackOptions.reflect o)) = (∅, Some e) ->
        Get_with Values ctx paymentID chargebackID (Some o)
        = Get ctx paymentID chargebackID (Some (ChargebackOptions.mk "" "")))
  /\ (forall e,
        Values (query.Ptr (ListChargebackOptions.reflect lo)) = (∅, Some e) ->
        List_with Values ctx (Some lo)
        = List ctx (Some (ListChargebackOptions.mk "" "" ""))
        /\ ListForPayment_with Values ctx paymentID (Some lo)
           = ListForPayment ctx paymentID
               (Some (ListChargebackOptions.mk "" "" "")))
  /\ (forall r e,
        run client (Get_with Values ctx paymentID chargebackID (Some o))
        = (r, Some e) ->
        exists uri,
          requested_uri (Get_with Values ctx paymentID chargebackID (Some o))
          = Some uri
          /\ error_from client ctx uri (json.zero : Chargeback.t) e)
  /\ (forall m r e,
        m = List_with Values ctx (Some lo)
        \/ m = ListForPayment_with Values ctx paymentID (Some lo) ->
        run client m = (r, Some e) ->
        exists uri,
          requested_uri m = Some uri
          /\ error_from client ctx uri (None : option ChargebackList.t) e)
  /\ (forall (v : query.Value) vals e,
        query.Values v = (vals, Some e) -> vals = ∅ /\ url.Encode vals = "")
  /\ ((query.Values (query.Ptr (ChargebackOptions.reflect o))).2 = None
      /\ (query.Values (query.Ptr (ListChargebackOptions.reflect lo))).2 = None).
Proof.
  split; [|split; [|split; [|split; [|split; [|split; [|split]]]]]].
  - rewrite Get_with_uri, List_with_list, ListForPayment_with_list.
    repeat split; reflexivity.
  - intros Hv. unfold Get_with, List_with, ListForPayment_with.
    pose proof (Hv (query.Ptr (ChargebackOptions.reflect o))) as Ho.
    pose proof (Hv (query.Ptr (ListChargebackOptions.reflect lo))) as Hlo.
    destruct (Values (query.Ptr (ChargebackOptions.reflect o))),
      (Values' (query.Ptr (ChargebackOptions.reflect o))),
      (Values (query.Ptr (ListChargebackOptions.reflect lo))),
      (Values' (query.Ptr (ListChargebackOptions.reflect lo))).
    simpl in Ho, Hlo. subst. repeat split.
  - intros e He. unfold Get, Get_with. rewrite He.
    pose proof (Encode_ChargebackOptions (ChargebackOptions.mk "" "")) as E.
    destruct (query.Values _) as [v e']. simpl in E. rewrite E, Encode_empty.
    reflexivity.
  - intros e He.
    unfold List, List_with, ListForPayment, ListForPayment_with. rewrite He.
    pose proof (Encode_ListChargebackOptions
                  (ListChargebackOptions.mk "" "" "")) as E.
    destruct (query.Values _) as [v e']. simpl in E. rewrite E, Encode_empty.
    split; reflexivity.
  - apply Get_with_error_from.
  - intros m r e Hm Hrun.
    assert (exists uri, m = list_ ctx uri) as (uri & ->).
    { destruct Hm as [-> | ->];
        [rewrite List_with_list | rewrite ListForPayment_with_list]; eauto. }
    exists uri. split; [reflexivity|]. eapply list_error_from, Hrun.
  - intros v vals e Hv. rewrite (Values_error_empty _ _ _ Hv).
    split; [reflexivity | apply Encode_empty].
  - split; reflexivity.
Qed.

Lemma C9_witness :
  @Get_with sample.declarations
    (fun _ => (∅, Some (errorString "query: Values() expects struct input")))
    tt "tr_7UhSN1zuXS" "chb_n9z0tp" (Some (ChargebackOptions.mk "" "payment"))
  = @Get sample.declarations tt "tr_7UhSN1zuXS" "chb_n9z0tp"
      (Some (ChargebackOptions.mk "" "")).
Proof.
  apply (proj1 (proj2 (proj2
           (C9_query_error_is_dropped (H := sample.declarations)
              sample.refusing tt "tr_7UhSN1zuXS" "chb_n9z0tp"
              (ChargebackOptions.mk "" "payment")
              (ListChargebackOptions.mk "" "" "")
              (fun _ => (∅, Some (errorString
                                    "query: Values() expects struct input")))
              query.Values)))
           (errorString "query: Values() expects struct input")).
  reflexivity.
Defined.

(** ** The round trip of a chargeback *)

(** C6, as stated, fails: a Go string holds any bytes, the encoder writes
    U+FFFD for each byte that is not part of well-formed UTF-8, and the
    decoder gives back another string. *)
Lemma C6_counterexample :
  exists (data : string) (c' : Chargeback.t (H := sample.declarations)),
    json.Marshal bad_chargeback = Ok data
    /\ json.Unmarshal data json.zero = (c', None)
    /\ Chargeback.ID c' <> Chargeback.ID bad_chargeback.
Proof.
  eexists _, _. split; [reflexivity|]. split; [reflexivity|]. discriminate.
Qed.

(** C6 (amended): a chargeback whose strings are well-formed UTF-8, and
    whose amounts, timestamps and links (values of types declared outside
    this file) each go through JSON and back, is encoded without error and
    decoded from that text as the value it was; the members written are
    exactly those of the fields that are not empty (a string that is not
    empty, a pointer that is not nil) and [_links], so a field that is
    absent is left out of the text, and it is absent in the decoded value
    as it was in the original. *)
Theorem C6_Chargeback_round_trip `{ext.Declarations} (c : Chargeback.t) :
  utf8.ValidString (Chargeback.Resource c) = true ->
  utf8.ValidString (Chargeback.ID c) = true ->
  utf8.ValidString (Chargeback.PaymentID c) = true ->
  opt_round_trips (Chargeback.Amount c) ->
  opt_round_trips (Chargeback.SettlementAmount c) ->
  opt_round_trips (Chargeback.CreatedAt c) ->
  opt_round_trips (Chargeback.ReversedAt c) ->
  opt_round_trips (ChargebackLinks.Self (Chargeback.Links c)) ->
  opt_round_trips (ChargebackLinks.Payment (Chargeback.Links c)) ->
  opt_round_trips (ChargebackLinks.Settlement (Chargeback.Links c)) ->
  opt_round_trips (ChargebackLinks.Documentation (Chargeback.Links c)) ->
  (exists data,
     json.Marshal c = Ok data
     /\ json.Unmarshal data json.zero = (c, None))
  /\ member_names (json.encode c)
     = (present_string "resource" (Chargeback.Resource c)
        ++ present_string "id" (Chargeback.ID c)
        ++ present_ptr "amount" (Chargeback.Amount c)
        ++ present_ptr "settlementAmount" (Chargeback.SettlementAmount c)
        ++ present_ptr "createdAt" (Chargeback.CreatedAt c)
        ++ present_ptr "reversedAt" (Chargeback.ReversedAt c)
        ++ present_string "paymentId" (Chargeback.PaymentID c)
        ++ ["_links"])%list
  /\ member_names (json.encode (Chargeback.Links c))
     = (present_ptr "self" (ChargebackLinks.Self (Chargeback.Links c))
        ++ present_ptr "payment" (ChargebackLinks.Payment (Chargeback.Links c))
        ++ present_ptr "settlement"
             (ChargebackLinks.Settlement (Chargeback.Links c))
        ++ present_ptr "documentation"
             (ChargebackLinks.Documentation (Chargeback.Links c)))%list.
Proof.
  intros Hres Hid Hpid Ham Hsam Hcr Hrv Hs Hp Hst Hd.
  pose proof (ChargebackLinks_round_trips _ Hs Hp Hst Hd) as Hl.
  split; [|split].
  - apply Unmarshal_Marshal, Chargeback_round_trips; assumption.
  - apply Chargeback_member_names; assumption.
  - apply ChargebackLinks_member_names; assumption.
Qed.

Lemma C6_witness :
  (exists data,
     json.Marshal full_chargeback = Ok data
     /\ json.Unmarshal data json.zero = (full_chargeback, None))
  /\ member_names (json.encode full_chargeback)
     = ["resource"; "id"; "amount"; "createdAt"; "paymentId"; "_links"]
  /\ member_names (json.encode (Chargeback.Links full_chargeback))
     = ["self"; "documentation"].
Proof.
  apply (C6_Chargeback_round_trip (H := sample.declarations) full_chargeback);
    try reflexivity; try exact I.
  all: eexists; (split; [reflexivity|]); (split; [discriminate|]);
    split; reflexivity.
Defined.

(** * Further properties of the accessor *)

(** ** The calls on the client *)

Section calls.
Context `{ext.Declarations}.

Lemma Get_trace (client : Client.t) ctx paymentID chargebackID options uri :
  requested_uri (Get ctx paymentID chargebackID options) = Some uri ->
  trace client (Get ctx paymentID chargebackID options)
  = match Client.NewAPIRequest client ctx http.MethodGet uri None with
    | Err _ => [Built ctx http.MethodGet uri None]
    | Ok req => [Built ctx http.MethodGet uri None; Sent req]
    end.
Proof.
  unfold Get, Get_with, requested_uri. intros [= <-]. simpl.
  destruct (Client.NewAPIRequest _ _ _ _ _) as [req|e]; simpl; [|reflexivity].
  destruct (Client.Do _ _) as [res|e]; reflexivity.
Qed.

Lemma list_trace (client : Client.t) ctx uri :
  trace client (list_ ctx uri)
  = match Client.NewAPIRequest client ctx http.MethodGet uri None with
    | Err _ => [Built ctx http.MethodGet uri None]
    | Ok req => [Built ctx http.MethodGet uri None; Sent req]
    end.
Proof.
  unfold list_. simpl.
  destruct (Client.NewAPIRequest _ _ _ _ _) as [req|e]; simpl; [|reflexivity].
  destruct (Client.Do _ _) as [res|e]; reflexivity.
Qed.

Lemma Get_requests ctx paymentID chargebackID options :
  exists uri, requested_uri (Get ctx paymentID chargebackID options) = Some uri.
Proof. rewrite Get_uri. eauto. Qed.

(** Either list method is [list] on the URI it asks for. *)
Lemma list_method_uri ctx paymentID options
    (m : call (option ChargebackList.t * option error)) :
  m = List ctx options \/ m = ListForPayment ctx paymentID options ->
  exists uri, m = list_ ctx uri /\ requested_uri m = Some uri.
Proof.
  intros [-> | ->]; [apply List_list | apply ListForPayment_list].
Qed.

End calls.

(** X1: each method asks the request builder for one GET request without
    a body, under the caller's context, and hands the request it gets to
    the transport once; when the builder fails, the transport is not
    called.  Nothing is tried again. *)
Theorem X1_one_request_no_retry `{ext.Declarations} (client : Client.t)
    (ctx : ext.Context) (paymentID chargebackID : string)
    (options : option ChargebackOptions.t)
    (loptions : option ListChargebackOptions.t) :
  (exists uri,
     requested_uri (Get ctx paymentID chargebackID options) = Some uri
     /\ trace client (Get ctx paymentID chargebackID options)
        = match Client.NewAPIRequest client ctx "GET" uri None with
          | Err _ => [Built ctx "GET" uri None]
          | Ok req => [Built ctx "GET" uri None; Sent req]
          end)
  /\ (exists uri,
        requested_uri (List ctx loptions) = Some uri
        /\ trace client (List ctx loptions)
           = match Client.NewAPIRequest client ctx "GET" uri None with
             | Err _ => [Built ctx "GET" uri None]
             | Ok req => [Built ctx "GET" uri None; Sent req]
             end)
  /\ (exists uri,
        requested_uri (ListForPayment ctx paymentID loptions) = Some uri
        /\ trace client (ListForPayment ctx paymentID loptions)
           = match Client.NewAPIRequest client ctx "GET" uri None with
             | Err _ => [Built ctx "GET" uri None]
             | Ok req => [Built ctx "GET" uri None; Sent req]
             end).
Proof.
  split; [|split].
  - destruct (Get_requests ctx paymentID chargebackID options) as (uri & Hu).
    exists uri. split; [exact Hu|]. apply Get_trace, Hu.
  - destruct (List_list ctx loptions) as (uri & E & Hu).
    exists uri. split; [exact Hu|]. rewrite E. apply list_trace.
  - destruct (ListForPayment_list ctx paymentID loptions) as (uri & E & Hu).
    exists uri. split; [exact Hu|]. rewrite E. apply list_trace.
Qed.

(** ** Errors and results *)

(** X2: an error of the request builder or of the transport is returned
    as it is, not wrapped, together with the zero value. *)
Theorem X2_client_error_returned_as_is `{ext.Declarations}
    (client : Client.t) (ctx : ext.Context) (paymentID chargebackID : string)
    (options : option ChargebackOptions.t)
    (loptions : option ListChargebackOptions.t) (e : error) :
  (refused client ctx (Get ctx paymentID chargebackID options) e ->
   run client (Get ctx paymentID chargebackID options) = (json.zero, Some e))
  /\ (forall m,
        m = List ctx loptions \/ m = ListForPayment ctx paymentID loptions ->
        refused client ctx m e ->
        run client m = (None, Some e)).
Proof.
  split.
  - intros (uri & Hu & Hr). rewrite (Get_run _ _ _ _ _ _ Hu).
    destruct Hr as [-> | (req & -> & ->)]; reflexivity.
  - intros m Hm (uri & Hu & Hr).
    destruct (list_method_uri _ _ _ _ Hm) as (uri' & -> & Hu').
    assert (uri' = uri) as -> by congruence.
    rewrite list_run.
    destruct Hr as [-> | (req & -> & ->)]; reflexivity.
Qed.

Lemma X2_witness :
  run sample.failing
    (@ListForPayment sample.declarations tt "tr_7UhSN1zuXS" None)
  = (None, Some (errorString "502 Bad Gateway")).
Proof.
  apply (proj2 (X2_client_error_returned_as_is (H := sample.declarations)
                  sample.failing tt "tr_7UhSN1zuXS" "" None None
                  (errorString "502 Bad Gateway"))).
  - right. reflexivity.
  - exists "v2/payments/tr_7UhSN1zuXS/chargebacks". split; [reflexivity|].
    right. exists ("GET", "v2/payments/tr_7UhSN1zuXS/chargebacks").
    split; reflexivity.
Defined.

(** X3: a response body that is not one well-formed JSON value makes each
    method return a syntax error with the zero value: nothing of the body
    is stored. *)
Theorem X3_malformed_body `{ext.Declarations} (client : Client.t)
    (ctx : ext.Context) (paymentID chargebackID body : string)
    (options : option ChargebackOptions.t)
    (loptions : option ListChargebackOptions.t) :
  json.parse body = None ->
  (answered client ctx (Get ctx paymentID chargebackID options) body ->
   run client (Get ctx paymentID chargebackID options)
   = (json.zero, Some (SyntaxError "invalid JSON text")))
  /\ (forall m,
        m = List ctx loptions \/ m = ListForPayment ctx paymentID loptions ->
        answered client ctx m body ->
        run client m = (None, Some (SyntaxError "invalid JSON text"))).
Proof.
  intros Hp. split.
  - intros Ha. rewrite (Get_answered _ _ _ _ _ _ Ha).
    apply Unmarshal_syntax_error, Hp.
  - intros m Hm Ha. destruct (list_methods _ _ _ _ Hm) as (uri & ->).
    rewrite (list_answered _ _ _ _ Ha). apply Unmarshal_syntax_error, Hp.
Qed.

Lemma X3_witness :
  run (sample.serving "{")
    (@Get sample.declarations tt "tr_7UhSN1zuXS" "chb_n9z0tp" None)
  = (json.zero, Some (SyntaxError "invalid JSON text")).
Proof.
  apply (proj1 (X3_malformed_body (H := sample.declarations)
                  (sample.serving "{") tt "tr_7UhSN1zuXS" "chb_n9z0tp" "{"
                  None None eq_refl)).
  exists "v2/payments/tr_7UhSN1zuXS/chargebacks/chb_n9z0tp",
    ("GET", "v2/payments/tr_7UhSN1zuXS/chargebacks/chb_n9z0tp"),
    (Response.mk "{").
  repeat split; reflexivity.
Defined.

(** X4: a method returns a nil error exactly when the request was built,
    the transport answered, and the body was decoded without error; the
    value returned is then what the decoder made of the body. *)
Theorem X4_nil_error_iff_all_steps_succeed `{ext.Declarations}
    (client : Client.t) (ctx : ext.Context) (paymentID chargebackID : string)
    (options : option ChargebackOptions.t)
    (loptions : option ListChargebackOptions.t) :
  (forall r,
     run client (Get ctx paymentID chargebackID options) = (r, None)
     <-> exists body,
           answered client ctx (Get ctx paymentID chargebackID options) body
           /\ json.Unmarshal body json.zero = (r, None))
  /\ (forall m r,
        m = List ctx loptions \/ m = ListForPayment ctx paymentID loptions ->
        (run client m = (r, None)
         <-> exists body,
               answered client ctx m body
               /\ json.Unmarshal body None = (r, None))).
Proof.
  split.
  - intros r. split.
    + intros Hrun.
      destruct (Get_requests ctx paymentID chargebackID options) as (uri & Hu).
      rewrite (Get_run _ _ _ _ _ _ Hu) in Hrun.
      destruct (Client.NewAPIRequest _ _ _ _ _) as [req|e] eqn:Hreq;
        [|discriminate].
      destruct (Client.Do _ _) as [res|e] eqn:Hres; [|discriminate].
      exists (Response.content res). split; [|exact Hrun].
      exists uri, req, res. auto.
    + intros (body & Ha & Hb). rewrite (Get_answered _ _ _ _ _ _ Ha).
      exact Hb.
  - intros m r Hm. destruct (list_method_uri _ _ _ _ Hm) as (uri & -> & Hu).
    split.
    + intros Hrun. rewrite list_run in Hrun.
      destruct (Client.NewAPIRequest _ _ _ _ _) as [req|e] eqn:Hreq;
        [|discriminate].
      destruct (Client.Do _ _) as [res|e] eqn:Hres; [|discriminate].
      exists (Response.content res). split; [|exact Hrun].
      exists uri, req, res. auto.
    + intros (body & Ha & Hb). rewrite (list_answered _ _ _ _ Ha). exact Hb.
Qed.

Lemma X4_witness :
  exists body,
    answered (sample.serving "{}") tt
      (@Get sample.declarations tt "tr_7UhSN1zuXS" "chb_n9z0tp" None) body
    /\ json.Unmarshal body json.zero
       = (json.zero : Chargeback.t (H := sample.declarations), None).
Proof.
  apply (proj1 (proj1 (X4_nil_error_iff_all_steps_succeed
                         (H := sample.declarations) (sample.serving "{}") tt
                         "tr_7UhSN1zuXS" "chb_n9z0tp" None None) json.zero)).
  reflexivity.
Defined.

(** X5: what [Get] returns depends on the response body alone: two calls,
    whatever their identifiers, options, contexts and clients, that are
    answered with the same body return the same chargeback and the same
    error.  The chargeback is not checked against the identifiers asked
    for. *)
Theorem X5_Get_result_is_a_function_of_the_body `{ext.Declarations}
    (client1 client2 : Client.t) (ctx1 ctx2 : ext.Context)
    (paymentID1 chargebackID1 paymentID2 chargebackID2 body : string)
    (options1 options2 : option ChargebackOptions.t) :
  answered client1 ctx1 (Get ctx1 paymentID1 chargebackID1 options1) body ->
  answered client2 ctx2 (Get ctx2 paymentID2 chargebackID2 options2) body ->
  run client1 (Get ctx1 paymentID1 chargebackID1 options1)
  = run client2 (Get ctx2 paymentID2 chargebackID2 options2).
Proof.
  intros H1 H2.
  rewrite (Get_answered _ _ _ _ _ _ H1), (Get_answered _ _ _ _ _ _ H2).
  reflexivity.
Qed.

Lemma X5_witness :
  run (sample.serving body2)
    (@Get sample.declarations tt "tr_7UhSN1zuXS" "chb_n9z0tp" None)
  = run (sample.serving body2)
      (@Get sample.declarations tt "tr_other" "chb_other"
         (Some (ChargebackOptions.mk "" "payment"))).
Proof.
  apply (X5_Get_result_is_a_function_of_the_body (H := sample.declarations)
           (sample.serving body2) (sample.serving body2) tt tt
           "tr_7UhSN1zuXS" "chb_n9z0tp" "tr_other" "chb_other" body2).
  - exists "v2/payments/tr_7UhSN1zuXS/chargebacks/chb_n9z0tp",
      ("GET", "v2/payments/tr_7UhSN1zuXS/chargebacks/chb_n9z0tp"),
      (Response.mk body2).
    repeat split; reflexivity.
  - eexists _, ("GET", _), (Response.mk body2).
    split; [apply Get_uri|]. repeat split; reflexivity.
Defined.

(** X7: a body that is well-formed JSON, nested no deeper than the
    decoder allows, but neither an object nor [null] (a number, a string,
    a boolean, an array) gives an [UnmarshalTypeError] that names the kind
    of the value; [Get] returns it with a zero chargeback, a list method
    with a list that is not nil and holds zero values. *)
Theorem X7_body_of_wrong_kind `{ext.Declarations} (client : Client.t)
    (ctx : ext.Context) (paymentID chargebackID body : string)
    (options : option ChargebackOptions.t)
    (loptions : option ListChargebackOptions.t) (j : json.value) :
  json.parse body = Some j -> within_depth j = true ->
  not_an_object j = true ->
  (answered client ctx (Get ctx paymentID chargebackID options) body ->
   run client (Get ctx paymentID chargebackID options)
   = (json.zero, Some (UnmarshalTypeError (json.kind_of j) "Chargeback")))
  /\ (forall m,
        m = List ctx loptions \/ m = ListForPayment ctx paymentID loptions ->
        answered client ctx m body ->
        run client m
        = (Some json.zero,
           Some (UnmarshalTypeError (json.kind_of j) "ChargebackList"))).
Proof.
  intros Hp _ Hj. split.
  - intros Ha. rewrite (Get_answered _ _ _ _ _ _ Ha).
    unfold json.Unmarshal. rewrite Hp.
    destruct j; try discriminate Hj; reflexivity.
  - intros m Hm Ha. destruct (list_methods _ _ _ _ Hm) as (uri & ->).
    rewrite (list_answered _ _ _ _ Ha).
    unfold json.Unmarshal. rewrite Hp.
    destruct j; try discriminate Hj; reflexivity.
Qed.

Lemma X7_witness :
  run (sample.serving "[[],7]") (@List sample.declarations tt None)
  = (Some json.zero, Some (UnmarshalTypeError "array" "ChargebackList")).
Proof.
  apply (proj2 (X7_body_of_wrong_kind (H := sample.declarations)
                  (sample.serving "[[],7]") tt "" "" "[[],7]" None None
                  (json.JArray [json.JArray []; json.JNumber "7"])
                  eq_refl eq_refl eq_refl)).
  - left. reflexivity.
  - exists "v2/chargebacks", ("GET", "v2/chargebacks"),
      (Response.mk "[[],7]").
    repeat split; reflexivity.
Defined.

(** ** The URI *)

Lemma append_inv_head (a b c : string) : a +:+ b = a +:+ c -> b = c.
Proof.
  induction a as [|x a IH]; simpl; [auto|]. intros [= E]. auto.
Qed.

(** Two strings free of a byte that are followed by that byte are equal
    when the texts are. *)
Lemma split_at_byte (x : ascii) (a b c d : string) :
  contains_byte x a = false -> contains_byte x b = false ->
  a +:+ String x c = b +:+ String x d -> a = b /\ c = d.
Proof.
  revert b.
  induction a as [|y a IH]; intros [|z b]; cbn [String.append contains_byte].
  - intros _ _ [= E]. auto.
  - intros _ Hb [= <- _]. rewrite Ascii.eqb_refl in Hb. discriminate Hb.
  - intros Ha _ [= -> _]. rewrite Ascii.eqb_refl in Ha. discriminate Ha.
  - intros [_ Ha]%orb_false_iff [_ Hb]%orb_false_iff [= -> E].
    destruct (IH b Ha Hb E) as [-> ->]. auto.
Qed.

Lemma no_slash_split (a b c d : string) :
  no_slash a = true -> no_slash b = true ->
  a +:+ String "/" c = b +:+ String "/" d -> a = b /\ c = d.
Proof.
  unfold no_slash. intros Ha%negb_true_iff Hb%negb_true_iff.
  apply split_at_byte; assumption.
Qed.

Lemma all_bytes_app (P : ascii -> bool) (a b : string) :
  all_bytes P (a +:+ b) = all_bytes P a && all_bytes P b.
Proof.
  induction a as [|x a IH]; simpl; [reflexivity|].
  rewrite IH. apply andb_assoc.
Qed.

Lemma digit_of_upperhex_query_byte (n : Z) :
  query_byte (digit_of url.upperhex n) = true.
Proof.
  unfold query_byte. rewrite digit_of_upperhex_unreserved. reflexivity.
Qed.

Lemma QueryEscape_query_bytes (v : string) :
  all_bytes query_byte (url.QueryEscape v) = true.
Proof.
  unfold url.QueryEscape. induction v as [|c r IH]; [reflexivity|].
  simpl. destruct (Ascii.eqb c " "); [exact IH|].
  destruct (url.shouldEscape c) eqn:Hc; simpl.
  - rewrite !digit_of_upperhex_query_byte. exact IH.
  - unfold query_byte at 1. rewrite Hc. exact IH.
Qed.

Lemma join_pairs_query_bytes (ps : list (string * string)) :
  forallb (fun p => all_bytes query_byte (fst p)) ps = true ->
  all_bytes query_byte (join_pairs ps) = true.
Proof.
  induction ps as [|[k v] ps IH]; [reflexivity|].
  cbn [forallb fst]. intros [Hk Hps]%andb_true_iff.
  cbn [join_pairs]. destruct ps as [|p ps].
  - rewrite !all_bytes_app, Hk, QueryEscape_query_bytes. reflexivity.
  - rewrite !all_bytes_app, Hk, QueryEscape_query_bytes, (IH Hps).
    reflexivity.
Qed.

Lemma expected_query_bytes (ps : list (string * string)) :
  forallb (fun p => all_bytes query_byte (fst p)) ps = true ->
  all_bytes query_byte (expected_query ps) = true.
Proof.
  intros Hps. apply join_pairs_query_bytes.
  induction ps as [|p ps IH]; [reflexivity|].
  cbn [forallb] in Hps. apply andb_true_iff in Hps as [Hp Hps].
  rewrite filter_cons. destruct (decide _); [cbn [forallb]; rewrite Hp|]; auto.
Qed.

Section uri_properties.
Context `{ext.Declarations}.

Lemma Get_query_bytes (o : ChargebackOptions.t) :
  all_bytes query_byte
    (url.Encode (query.Values (query.Ptr (ChargebackOptions.reflect o))).1)
  = true.
Proof.
  rewrite Encode_ChargebackOptions. apply expected_query_bytes. reflexivity.
Qed.

Lemma list_query_bytes (o : ListChargebackOptions.t) :
  all_bytes query_byte
    (url.Encode (query.Values (query.Ptr (ListChargebackOptions.reflect o))).1)
  = true.
Proof.
  rewrite Encode_ListChargebackOptions. apply expected_query_bytes.
  reflexivity.
Qed.

End uri_properties.

(** X8: the identifiers reach the URI byte for byte, so an identifier can
    carry a query string or further path segments.  [Get] with nil options
    and a chargeback identifier that ends in [?] and a query asks for the
    very URI that [Get] with these options asks for; and [ListForPayment]
    on a payment identifier with a slash asks for a URI of [Get]. *)
Theorem X8_identifiers_can_carry_path_and_query `{ext.Declarations}
    (ctx : ext.Context) (paymentID chargebackID : string)
    (o : ChargebackOptions.t) :
  requested_uri
    (Get ctx paymentID
       (chargebackID +:+ "?" +:+ url.Encode
          (query.Values (query.Ptr (ChargebackOptions.reflect o))).1) None)
  = requested_uri (Get ctx paymentID chargebackID (Some o))
  /\ requested_uri
       (ListForPayment ctx (paymentID +:+ "/chargebacks/" +:+ chargebackID)
          None)
     = requested_uri
         (Get ctx paymentID (chargebackID +:+ "/chargebacks") None)
  /\ requested_uri
       (Get ctx (paymentID +:+ "/chargebacks/" +:+ chargebackID) "x" None)
     = requested_uri
         (Get ctx paymentID (chargebackID +:+ "/chargebacks/x") None).
Proof.
  rewrite !Get_uri, !ListForPayment_uri.
  rewrite ?append_assoc, ?append_nil_r. simpl. rewrite ?append_assoc.
  auto.
Qed.

(** X9: with nil options and payment identifiers free of slashes, the URI
    of [Get] tells the two identifiers, and the URI of [ListForPayment]
    the payment identifier: different resources are never asked for under
    one URI. *)
Theorem X9_uri_determines_identifiers `{ext.Declarations}
    (ctx ctx' : ext.Context)
    (paymentID chargebackID paymentID' chargebackID' : string) :
  no_slash paymentID = true -> no_slash paymentID' = true ->
  (requested_uri (Get ctx paymentID chargebackID None)
   = requested_uri (Get ctx' paymentID' chargebackID' None) ->
   paymentID = paymentID' /\ chargebackID = chargebackID')
  /\ (requested_uri (ListForPayment ctx paymentID None)
      = requested_uri (ListForPayment ctx' paymentID' None) ->
      paymentID = paymentID').
Proof.
  intros Hp Hp'. split.
  - rewrite !Get_uri, ?append_nil_r. intros [= E].
    destruct (no_slash_split _ _ _ _ Hp Hp' E) as [-> E'].
    split; congruence.
  - rewrite !ListForPayment_uri, ?append_nil_r. intros [= E].
    destruct (no_slash_split _ _ _ _ Hp Hp' E) as [-> _]. reflexivity.
Qed.

Lemma X9_witness :
  "tr_7UhSN1zuXS" = "tr_7UhSN1zuXS" /\ "chb_n9z0tp" = "chb_n9z0tp".
Proof.
  apply (proj1 (X9_uri_determines_identifiers (H := sample.declarations)
                  tt tt "tr_7UhSN1zuXS" "chb_n9z0tp"
                  "tr_7UhSN1zuXS" "chb_n9z0tp" eq_refl eq_refl)).
  reflexivity.
Defined.


(** ** Reading the query back *)

Lemma QueryUnescape_escape_byte (c : ascii) (r : string) :
  QueryUnescape (url.escape (String c r))
  = match QueryUnescape (url.escape r) with
    | Some t => Some (String c t)
    | None => None
    end.
Proof.
  each_byte c; reflexivity.
Qed.

Lemma QueryUnescape_QueryEscape (s : string) :
  QueryUnescape (url.QueryEscape s) = Some s.
Proof.
  unfold url.QueryEscape. induction s as [|c r IH]; [reflexivity|].
  rewrite QueryUnescape_escape_byte, IH. reflexivity.
Qed.

Lemma QueryEscape_inj (a b : string) :
  url.QueryEscape a = url.QueryEscape b -> a = b.
Proof.
  intros E. apply (f_equal QueryUnescape) in E.
  rewrite !QueryUnescape_QueryEscape in E. congruence.
Qed.

Lemma QueryEscape_no_amp (v : string) :
  contains_byte "&" (url.QueryEscape v) = false.
Proof. apply QueryEscape_no_reserved; [reflexivity | discriminate..]. Qed.

(** A pair of a query string: the name, [=], the escaped value. *)
Lemma join_pairs_cons (k v : string) (ps : list (string * string)) :
  join_pairs ((k, v) :: ps)
  = k +:+ "=" +:+ url.QueryEscape v
      +:+ match ps with [] => "" | _ => "&" +:+ join_pairs ps end.
Proof.
  cbn [join_pairs]. destruct ps; rewrite ?append_assoc, ?append_nil_r;
    reflexivity.
Qed.

Lemma join_pairs_inj (ps qs : list (string * string)) :
  forallb (fun p => negb (contains_byte "=" (fst p))) ps = true ->
  forallb (fun p => negb (contains_byte "=" (fst p))) qs = true ->
  join_pairs ps = join_pairs qs -> ps = qs.
Proof.
  revert qs. induction ps as [|[k v] ps IH]; intros [|[k' v'] qs].
  - reflexivity.
  - intros _ _. rewrite join_pairs_cons. destruct k'; discriminate.
  - intros _ _. rewrite join_pairs_cons. destruct k; discriminate.
  - cbn [forallb fst].
    intros [Hk Hps]%andb_true_iff [Hk' Hqs]%andb_true_iff.
    apply negb_true_iff in Hk, Hk'.
    rewrite !join_pairs_cons. intros E.
    apply (split_at_byte "=" _ _ _ _ Hk Hk') in E as [-> E].
    destruct ps as [|p ps], qs as [|q qs].
    + rewrite !append_nil_r in E. apply QueryEscape_inj in E as ->.
      reflexivity.
    + exfalso. apply (f_equal (contains_byte "&")) in E.
      rewrite append_nil_r, contains_byte_app, !QueryEscape_no_amp in E.
      discriminate E.
    + exfalso. apply (f_equal (contains_byte "&")) in E.
      rewrite append_nil_r, contains_byte_app, !QueryEscape_no_amp in E.
      discriminate E.
    + apply (split_at_byte "&" _ _ _ _ (QueryEscape_no_amp v)
               (QueryEscape_no_amp v')) in E as [Ev E].
      apply QueryEscape_inj in Ev as ->.
      rewrite (IH (q :: qs) Hps Hqs E). reflexivity.
Qed.

Lemma expected_query_names (ps : list (string * string)) :
  forallb (fun p => negb (contains_byte "=" (fst p))) ps = true ->
  forallb (fun p => negb (contains_byte "=" (fst p)))
    (filter (fun p => negb (String.eqb (snd p) "")) ps) = true.
Proof.
  induction ps as [|p ps IH]; [reflexivity|].
  cbn [forallb]. intros [Hp Hps]%andb_true_iff.
  rewrite filter_cons. destruct (decide _); [cbn [forallb]; rewrite Hp|];
    auto.
Qed.

Lemma expected_query_inj (ps qs : list (string * string)) :
  forallb (fun p => negb (contains_byte "=" (fst p))) ps = true ->
  forallb (fun p => negb (contains_byte "=" (fst p))) qs = true ->
  expected_query ps = expected_query qs ->
  filter (fun p => negb (String.eqb (snd p) "")) ps
  = filter (fun p => negb (String.eqb (snd p) "")) qs.
Proof.
  intros Hps Hqs. apply join_pairs_inj; apply expected_query_names; assumption.
Qed.

Lemma ChargebackOptions_query_inj (o o' : ChargebackOptions.t) :
  url.Encode (query.Values (query.Ptr (ChargebackOptions.reflect o))).1
  = url.Encode (query.Values (query.Ptr (ChargebackOptions.reflect o'))).1 ->
  o = o'.
Proof.
  rewrite !Encode_ChargebackOptions. intros E.
  apply expected_query_inj in E; [|reflexivity..].
  destruct o as [[|a i] [|b e]], o' as [[|a' i'] [|b' e']];
    try discriminate E; try reflexivity; injection E; intros; subst;
    reflexivity.
Qed.

Lemma ListChargebackOptions_query_inj (o o' : ListChargebackOptions.t) :
  url.Encode (query.Values (query.Ptr (ListChargebackOptions.reflect o))).1
  = url.Encode
      (query.Values (query.Ptr (ListChargebackOptions.reflect o'))).1 ->
  o = o'.
Proof.
  rewrite !Encode_ListChargebackOptions. intros E.
  apply expected_query_inj in E; [|reflexivity..].
  destruct o as [[|a i] [|b e] [|c p]], o' as [[|a' i'] [|b' e'] [|c' p']];
    try discriminate E; try reflexivity; injection E; intros; subst;
    reflexivity.
Qed.

(** X11: the URI tells the options.  Two calls of a method on the same
    identifiers ask for the same URI only when their options are the same:
    no two sets of option values share a query string, and nil options
    differ from options that are all empty. *)
Theorem X11_uri_determines_options `{ext.Declarations}
    (ctx ctx' : ext.Context) (paymentID chargebackID : string)
    (options options' : option ChargebackOptions.t)
    (loptions loptions' : option ListChargebackOptions.t) :
  (requested_uri (Get ctx paymentID chargebackID options)
   = requested_uri (Get ctx' paymentID chargebackID options') ->
   options = options')
  /\ (requested_uri (List ctx loptions) = requested_uri (List ctx' loptions') ->
      loptions = loptions')
  /\ (requested_uri (ListForPayment ctx paymentID loptions)
      = requested_uri (ListForPayment ctx' paymentID loptions') ->
      loptions = loptions').
Proof.
  split; [|split].
  - rewrite !Get_uri. intros E%(inj Some).
    apply (append_inv_head "v2/payments/") in E.
    apply append_inv_head in E.
    apply (append_inv_head "/chargebacks/") in E.
    apply append_inv_head in E.
    destruct options as [o|], options' as [o'|]; try discriminate E;
      [|reflexivity].
    apply (append_inv_head "?") in E.
    rewrite (ChargebackOptions_query_inj _ _ E). reflexivity.
  - rewrite !List_uri. intros E%(inj Some).
    apply (append_inv_head "v2/chargebacks") in E.
    destruct loptions as [o|], loptions' as [o'|]; try discriminate E;
      [|reflexivity].
    apply (append_inv_head "?") in E.
    rewrite (ListChargebackOptions_query_inj _ _ E). reflexivity.
  - rewrite !ListForPayment_uri. intros E%(inj Some).
    apply (append_inv_head "v2/payments/") in E.
    apply append_inv_head in E.
    apply (append_inv_head "/chargebacks") in E.
    destruct loptions as [o|], loptions' as [o'|]; try discriminate E;
      [|reflexivity].
    apply (append_inv_head "?") in E.
    rewrite (ListChargebackOptions_query_inj _ _ E). reflexivity.
Qed.

Lemma X11_witness :
  Some (ChargebackOptions.mk "" "payment")
  = Some (ChargebackOptions.mk "" "payment").
Proof.
  apply (proj1 (X11_uri_determines_options (H := sample.declarations) tt tt
                  "tr_7UhSN1zuXS" "chb_n9z0tp"
                  (Some (ChargebackOptions.mk "" "payment"))
                  (Some (ChargebackOptions.mk "" "payment")) None None)).
  reflexivity.
Defined.

(** ** Reading the query string back *)

Lemma cut_absent (sep : ascii) (a : string) :
  contains_byte sep a = false -> cut sep a = (a, None).
Proof.
  induction a as [|c a IH]; [reflexivity|].
  cbn [contains_byte cut]. rewrite Ascii.eqb_sym.
  intros [Hc Ha]%orb_false_iff. rewrite Hc, (IH Ha). reflexivity.
Qed.

Lemma cut_first (sep : ascii) (a b : string) :
  contains_byte sep a = false -> cut sep (a +:+ String sep b) = (a, Some b).
Proof.
  induction a as [|c a IH].
  - intros _. cbn [String.append cut]. rewrite Ascii.eqb_refl. reflexivity.
  - cbn [contains_byte String.append cut]. rewrite Ascii.eqb_sym.
    intros [Hc Ha]%orb_false_iff. rewrite Hc, (IH Ha). reflexivity.
Qed.

Lemma ParseQuery_loop_step (fuel : nat) (query : string) :
  query <> "" ->
  ParseQuery_loop (S fuel) query
  = let '(piece, rest) := cut "&" query in
    if contains_byte ";" piece then None
    else if String.eqb piece "" then ParseQuery_loop fuel (default "" rest)
    else
      let '(key, value) := cut "=" piece in
      match QueryUnescape key, QueryUnescape (default "" value) with
      | Some k, Some v =>
          match ParseQuery_loop fuel (default "" rest) with
          | Some ps => Some ((k, v) :: ps)
          | None => None
          end
      | _, _ => None
      end.
Proof. destruct query; [congruence|reflexivity]. Qed.

Lemma unreserved_shouldEscape (c : ascii) :
  unreserved c = negb (url.shouldEscape c).
Proof. each_byte c; reflexivity. Qed.

Lemma plain_name_facts (k : string) :
  plain_name k = true ->
  k <> ""
  /\ (forall x, unreserved x = false -> contains_byte x k = false)
  /\ QueryUnescape k = Some k.
Proof.
  unfold plain_name. intros [Hne Hall]%andb_true_iff.
  split; [|split].
  - intros ->. discriminate Hne.
  - intros x Hx. clear Hne. induction k as [|c k IH]; [reflexivity|].
    cbn [all_bytes] in Hall. apply andb_true_iff in Hall as [Hc Hk].
    cbn [contains_byte]. rewrite (IH Hk), orb_false_r.
    destruct (Ascii.eqb_spec x c) as [->|]; [congruence|reflexivity].
  - clear Hne. induction k as [|c k IH]; [reflexivity|].
    cbn [all_bytes] in Hall. apply andb_true_iff in Hall as [Hc Hk].
    cbn [QueryUnescape]. rewrite (IH Hk).
    revert Hc. clear. each_byte c; intros Hc; try reflexivity;
      discriminate Hc.
Qed.

(** One pair of a query string, read back. *)
Lemma piece_facts (k v : string) :
  plain_name k = true ->
  let piece := k +:+ "=" +:+ url.QueryEscape v in
  contains_byte "&" piece = false
  /\ contains_byte ";" piece = false
  /\ String.eqb piece "" = false
  /\ cut "=" piece = (k, Some (url.QueryEscape v)).
Proof.
  intros Hk. destruct (plain_name_facts k Hk) as (Hne & Hno & _).
  cbv zeta. split; [|split; [|split]].
  - rewrite contains_byte_app, (Hno "&"%char eq_refl). simpl.
    apply QueryEscape_no_reserved; [reflexivity|discriminate..].
  - rewrite contains_byte_app, (Hno ";"%char eq_refl). simpl.
    apply QueryEscape_no_reserved; [reflexivity|discriminate..].
  - destruct k; [congruence|reflexivity].
  - apply cut_first, Hno. reflexivity.
Qed.

Lemma ParseQuery_loop_join_pairs (ps : list (string * string)) (fuel : nat) :
  forallb (fun p => plain_name (fst p)) ps = true ->
  (String.length (join_pairs ps) <= fuel)%nat ->
  ParseQuery_loop fuel (join_pairs ps) = Some ps.
Proof.
  revert fuel. induction ps as [|[k v] ps IH]; intros fuel.
  - intros _ _. destruct fuel; reflexivity.
  - cbn [forallb fst]. intros [Hk Hps]%andb_true_iff.
    destruct (piece_facts k v Hk) as (Hamp & Hsemi & Hne & Hcut).
    destruct (plain_name_facts k Hk) as (_ & _ & Hkk).
    rewrite join_pairs_cons.
    assert (Hq : k +:+ "=" +:+ url.QueryEscape v
                   +:+ match ps with
                       | [] => ""
                       | _ => "&" +:+ join_pairs ps
                       end <> "").
    { destruct k; [discriminate Hk|discriminate]. }
    destruct fuel as [|fuel].
    { intros Hlen. exfalso. destruct k; [discriminate Hk|].
      simpl in Hlen. lia. }
    intros Hlen. rewrite (ParseQuery_loop_step _ _ Hq).
    destruct ps as [|p ps].
    + rewrite append_nil_r, (cut_absent _ _ Hamp), Hsemi, Hne, Hcut.
      cbv beta iota zeta. cbn [default from_option id].
      rewrite Hkk, QueryUnescape_QueryEscape.
      destruct fuel; reflexivity.
    + replace (k +:+ "=" +:+ url.QueryEscape v +:+ "&" +:+ join_pairs (p :: ps))
        with ((k +:+ "=" +:+ url.QueryEscape v)
                +:+ String "&" (join_pairs (p :: ps)))
        by (rewrite ?append_assoc; reflexivity).
      rewrite (cut_first _ _ _ Hamp), Hsemi, Hne, Hcut.
      cbv beta iota zeta. cbn [default from_option id].
      rewrite Hkk, QueryUnescape_QueryEscape.
      rewrite (IH fuel Hps); [reflexivity|].
      rewrite ?append_assoc, !length_append in Hlen.
      cbn [String.length] in Hlen. lia.
Qed.

Lemma ParseQuery_expected_query (params : list (string * string)) :
  forallb (fun p => plain_name (fst p)) params = true ->
  ParseQuery (expected_query params) = Some (nonempty_fields params).
Proof.
  intros Hps. unfold ParseQuery, expected_query.
  apply ParseQuery_loop_join_pairs; [|apply Nat.le_refl].
  unfold nonempty_fields. induction params as [|p ps IH]; [reflexivity|].
  cbn [forallb] in Hps. apply andb_true_iff in Hps as [Hp Hps].
  rewrite filter_cons. destruct (decide _); [cbn [forallb]; rewrite Hp|];
    auto.
Qed.

Lemma query_byte_alphabet (c : ascii) :
  query_byte c = true -> query_alphabet c = true.
Proof.
  unfold query_byte, query_alphabet. rewrite unreserved_shouldEscape. auto.
Qed.

Section read_back.
Context `{ext.Declarations}.

Lemma Get_query_reads_back (o : ChargebackOptions.t) :
  ParseQuery
    (url.Encode (query.Values (query.Ptr (ChargebackOptions.reflect o))).1)
  = Some (nonempty_fields [("embed", ChargebackOptions.Embed o);
                           ("include", ChargebackOptions.Include o)]).
Proof.
  rewrite Encode_ChargebackOptions. apply ParseQuery_expected_query.
  reflexivity.
Qed.

Lemma list_query_reads_back (o : ListChargebackOptions.t) :
  ParseQuery
    (url.Encode
       (query.Values (query.Ptr (ListChargebackOptions.reflect o))).1)
  = Some (nonempty_fields
            [("embed", ListChargebackOptions.Embed o);
             ("include", ListChargebackOptions.Include o);
             ("profileId", ListChargebackOptions.ProfileID o)]).
Proof.
  rewrite Encode_ListChargebackOptions. apply ParseQuery_expected_query.
  reflexivity.
Qed.

End read_back.

(** X10: no option value can add a parameter, change another or end the
    query.  Whatever the options hold, a server that reads the query
    string of a method as [url.ParseQuery] does (cut at every [&], then at
    the first [=], then unescaped) finds exactly the fields that are not
    empty, each under its name with the value it had, and nothing else;
    and the query string holds only unreserved characters and [%], [+],
    [=] and [&], so no [#], [?], [/], space or control byte. *)
Theorem X10_query_string_reads_back `{ext.Declarations}
    (ctx : ext.Context) (paymentID chargebackID : string)
    (o : ChargebackOptions.t) (lo : ListChargebackOptions.t) :
  (exists q,
     requested_uri (Get ctx paymentID chargebackID (Some o))
     = Some ("v2/payments/" +:+ paymentID +:+ "/chargebacks/"
             +:+ chargebackID +:+ "?" +:+ q)
     /\ ParseQuery q
        = Some (nonempty_fields [("embed", ChargebackOptions.Embed o);
                                 ("include", ChargebackOptions.Include o)])
     /\ all_bytes query_alphabet q = true)
  /\ (exists q,
        requested_uri (List ctx (Some lo))
        = Some ("v2/chargebacks" +:+ "?" +:+ q)
        /\ ParseQuery q
           = Some (nonempty_fields
                     [("embed", ListChargebackOptions.Embed lo);
                      ("include", ListChargebackOptions.Include lo);
                      ("profileId", ListChargebackOptions.ProfileID lo)])
        /\ all_bytes query_alphabet q = true)
  /\ (exists q,
        requested_uri (ListForPayment ctx paymentID (Some lo))
        = Some ("v2/payments/" +:+ paymentID +:+ "/chargebacks" +:+ "?" +:+ q)
        /\ ParseQuery q
           = Some (nonempty_fields
                     [("embed", ListChargebackOptions.Embed lo);
                      ("include", ListChargebackOptions.Include lo);
                      ("profileId", ListChargebackOptions.ProfileID lo)])
        /\ all_bytes query_alphabet q = true).
Proof.
  split; [|split]; eexists.
  - split; [apply (Get_uri _ _ _ (Some o))|].
    split; [apply Get_query_reads_back|].
    eapply all_bytes_impl; [apply query_byte_alphabet|apply Get_query_bytes].
  - split; [apply (List_uri _ (Some lo))|].
    split; [apply list_query_reads_back|].
    eapply all_bytes_impl; [apply query_byte_alphabet|apply list_query_bytes].
  - split; [apply (ListForPayment_uri _ _ (Some lo))|].
    split; [apply list_query_reads_back|].
    eapply all_bytes_impl; [apply query_byte_alphabet|apply list_query_bytes].
Qed.

(** ** Members and fields *)

Section fields.
Context {S : Type}.
Implicit Types (fields : list (json.field S)) (key : string).

Lemma find_some_in {A : Type} (p : A -> bool) (l : list A) (a : A) :
  find p l = Some a -> In a l /\ p a = true.
Proof. apply find_some. Qed.

(** The field a member name selects is one of the fields, and its name is
    the member's up to case. *)
Lemma find_field_Some fields key store :
  json.find_field fields key = Some store ->
  exists n, In (n, store) fields /\ json.foldName n = json.foldName key.
Proof.
  unfold json.find_field.
  destruct (find (fun f => String.eqb (fst f) key) fields)
    as [[n st]|] eqn:E1.
  - intros [= <-]. apply find_some in E1 as [Hin Hn].
    apply String.eqb_eq in Hn. simpl in Hn. subst key. eauto.
  - destruct (find (fun f => String.eqb (json.foldName (fst f))
                                 (json.foldName key)) fields)
      as [[n st]|] eqn:E2; [|discriminate].
    intros [= <-]. apply find_some in E2 as [Hin Hn].
    apply String.eqb_eq in Hn. eauto.
Qed.

(** A member whose name is no field's name, up to case, selects none. *)
Lemma find_field_None fields key :
  ~ In (json.foldName key) (folded_names fields) ->
  json.find_field fields key = None.
Proof.
  intros Hn. destruct (json.find_field fields key) as [store|] eqn:E;
    [|reflexivity].
  apply find_field_Some in E as (n & Hin & Hf). exfalso. apply Hn.
  rewrite <- Hf. unfold folded_names.
  apply (in_map (fun f => json.foldName (fst f)) _ _ Hin).
Qed.

Lemma find_first {A : Type} (p : A -> bool) (l : list A) (a : A) :
  In a l -> p a = true -> (forall b, In b l -> p b = true -> b = a) ->
  find p l = Some a.
Proof.
  intros Hin Hp Huniq. destruct (find p l) as [b|] eqn:E.
  - apply find_some in E as [Hb Hpb]. rewrite (Huniq b Hb Hpb). reflexivity.
  - exfalso. apply (find_none _ _ E) in Hin. congruence.
Qed.

Lemma folded_names_unique fields n n' st st' :
  NoDup (folded_names fields) ->
  In (n, st) fields -> In (n', st') fields ->
  json.foldName n = json.foldName n' -> (n, st) = (n', st').
Proof.
  unfold folded_names. induction fields as [|[m s] fields IH]; [intros _ []|].
  cbn [map fst]. intros Hnd. apply NoDup_cons in Hnd as [Hm Hnd].
  rewrite list_elem_of_In in Hm.
  intros [E1|H1] [E2|H2] Hf.
  - congruence.
  - exfalso. apply Hm. injection E1 as -> ->. rewrite Hf.
    apply (in_map (fun f => json.foldName (fst f)) _ _ H2).
  - exfalso. apply Hm. injection E2 as -> ->. rewrite <- Hf.
    apply (in_map (fun f => json.foldName (fst f)) _ _ H1).
  - apply IH; assumption.
Qed.

(** When no two fields have the same name up to case, a member name that
    is a field's name up to case selects that field. *)
Lemma find_field_fold fields key n store :
  NoDup (folded_names fields) ->
  In (n, store) fields -> json.foldName key = json.foldName n ->
  json.find_field fields key = Some store.
Proof.
  intros Hnd Hin Hf. unfold json.find_field.
  destruct (find (fun f => String.eqb (fst f) key) fields)
    as [[m st]|] eqn:E1.
  - apply find_some in E1 as [Hm Hk]. apply String.eqb_eq in Hk.
    simpl in Hk. subst key.
    assert (E : (m, st) = (n, store))
      by (eapply folded_names_unique; eauto).
    injection E as -> ->. reflexivity.
  - rewrite (find_first _ fields (n, store)); [reflexivity|exact Hin| |].
    + apply String.eqb_eq. simpl. congruence.
    + intros [m st] Hm Hk. apply String.eqb_eq in Hk. simpl in Hk.
      eapply folded_names_unique; eauto. congruence.
Qed.

(** Members that select no field can be left out. *)
Lemma decode_members_unknown fields (ms1 ms2 : list (string * json.value))
    key j (s : S) :
  ~ In (json.foldName key) (folded_names fields) ->
  json.decode_members fields (ms1 ++ (key, j) :: ms2) s
  = json.decode_members fields (ms1 ++ ms2) s.
Proof.
  intros Hk. revert s. induction ms1 as [|[k v] ms1 IH]; intros s.
  - cbn [app json.decode_members]. rewrite (find_field_None _ _ Hk).
    reflexivity.
  - cbn [app json.decode_members].
    destruct (json.find_field fields k) as [store|]; [|apply IH].
    destruct (store v s) as [s1 o1]. destruct (json.stopped o1);
      [reflexivity|]. rewrite IH. reflexivity.
Qed.

Lemma and_then_Done (o : json.outcome) : json.and_then o json.Done = o.
Proof. destruct o; reflexivity. Qed.

(** One member that selects a field: the field's store. *)
Lemma decode_members_one fields key j store (s : S) :
  json.find_field fields key = Some store ->
  json.decode_members fields [(key, j)] s = store j s.
Proof.
  intros E. cbn [json.decode_members]. rewrite E.
  destruct (store j s) as [s1 o1]. destruct o1; reflexivity.
Qed.

(** What the stores of the other fields leave as it is stays as it is. *)
Lemma decode_members_frame {A : Type} (proj : S -> A) (target : string)
    fields (ms : list (string * json.value)) (s : S) :
  (forall n store, In (n, store) fields ->
     json.foldName n <> json.foldName target ->
     forall j s, proj (store j s).1 = proj s) ->
  (forall m, In m ms -> json.foldName (fst m) <> json.foldName target) ->
  proj (json.decode_members fields ms s).1 = proj s.
Proof.
  intros Hframe. revert s. induction ms as [|[k v] ms IH]; intros s Hms;
    [reflexivity|].
  cbn [json.decode_members].
  assert (Hms' : forall m, In m ms ->
            json.foldName (fst m) <> json.foldName target)
    by (intros m Hm; apply Hms; right; exact Hm).
  destruct (json.find_field fields k) as [store|] eqn:E; [|apply IH, Hms'].
  apply find_field_Some in E as (n & Hin & Hf).
  assert (Hn : json.foldName n <> json.foldName target).
  { rewrite Hf. apply (Hms (k, v)). left. reflexivity. }
  pose proof (Hframe n store Hin Hn v s) as Hs.
  destruct (store v s) as [s1 o1]. simpl in Hs.
  destruct (json.stopped o1); [exact Hs|].
  specialize (IH s1 Hms'). destruct (json.decode_members fields ms s1).
  simpl in *. congruence.
Qed.

End fields.

Section more_fields.
Context {S : Type}.
Implicit Types (fields : list (json.field S)) (key : string).

(** Two member names that select the same field can stand for each
    other. *)
Lemma decode_members_rename fields (ms1 ms2 : list (string * json.value))
    key n j (s : S) :
  json.find_field fields key = json.find_field fields n ->
  json.decode_members fields (ms1 ++ (key, j) :: ms2) s
  = json.decode_members fields (ms1 ++ (n, j) :: ms2) s.
Proof.
  intros Hk. revert s. induction ms1 as [|[k v] ms1 IH]; intros s.
  - cbn [app json.decode_members]. rewrite Hk. reflexivity.
  - cbn [app json.decode_members].
    destruct (json.find_field fields k) as [store|]; [|apply IH].
    destruct (store v s) as [s1 o1]. destruct (json.stopped o1);
      [reflexivity|]. rewrite IH. reflexivity.
Qed.

(** Members that are all [null], stored into a value that the stores of
    [null] leave as it is. *)
Lemma decode_members_null fields (ms : list (string * json.value)) (s : S) :
  (forall n store, In (n, store) fields ->
     store json.JNull s = (s, json.Done)) ->
  forallb (fun m => match snd m with json.JNull => true | _ => false end) ms
  = true ->
  json.decode_members fields ms s = (s, json.Done).
Proof.
  intros Hnull. induction ms as [|[k v] ms IH]; [reflexivity|].
  cbn [forallb snd]. intros [Hv Hms]%andb_true_iff.
  destruct v; try discriminate Hv.
  cbn [json.decode_members].
  destruct (json.find_field fields k) as [store|] eqn:E; [|apply IH, Hms].
  apply find_field_Some in E as (n & Hin & _).
  rewrite (Hnull n store Hin). cbn [json.stopped]. rewrite (IH Hms).
  reflexivity.
Qed.

(** A member whose store refuses its value, saving an error: the other
    members are decoded as they are without it. *)
Lemma decode_members_refused fields (ms1 ms2 : list (string * json.value))
    key j store (e : error) (s : S) :
  json.find_field fields key = Some store ->
  (forall s, store j s = (s, json.Saved e)) ->
  (json.decode_members fields (ms1 ++ (key, j) :: ms2) s).1
  = (json.decode_members fields (ms1 ++ ms2) s).1
  /\ with_saved e (json.decode_members fields (ms1 ++ ms2) s).2
       (json.decode_members fields (ms1 ++ (key, j) :: ms2) s).2.
Proof.
  intros Hk Hst. revert s. induction ms1 as [|[k v] ms1 IH]; intros s.
  - cbn [app json.decode_members]. rewrite Hk, Hst. cbn [json.stopped].
    destruct (json.decode_members fields ms2 s) as [s2 [|e2|e2]]; simpl;
      auto.
  - cbn [app json.decode_members].
    destruct (json.find_field fields k) as [st|]; [|apply IH].
    destruct (st v s) as [s1 o1].
    destruct o1 as [|e1|e1]; cbn [json.stopped].
    + specialize (IH s1).
      destruct (json.decode_members fields (ms1 ++ (key, j) :: ms2) s1)
        as [a oa], (json.decode_members fields (ms1 ++ ms2) s1) as [b ob].
      simpl in *. destruct IH as [-> IH]. split; [reflexivity|].
      destruct ob as [|e2|e2]; simpl in *.
      * subst oa. reflexivity.
      * destruct IH as [-> | ->]; simpl; auto.
      * subst oa. reflexivity.
    + specialize (IH s1).
      destruct (json.decode_members fields (ms1 ++ (key, j) :: ms2) s1)
        as [a oa], (json.decode_members fields (ms1 ++ ms2) s1) as [b ob].
      simpl in *. destruct IH as [-> IH]. split; [reflexivity|].
      destruct ob as [|e2|e2]; simpl in *.
      * subst oa. simpl. auto.
      * destruct IH as [-> | ->]; simpl; auto.
      * subst oa. reflexivity.
    + simpl. auto.
Qed.

End more_fields.

Lemma stopped_and_then (o1 o2 : json.outcome) :
  json.stopped (json.and_then o1 o2) = json.stopped o1 || json.stopped o2.
Proof. destruct o1, o2; reflexivity. Qed.

Lemma mentions_false (name : string) (ms : list (string * json.value)) :
  mentions name ms = false ->
  forall m, In m ms -> json.foldName (fst m) <> json.foldName name.
Proof.
  unfold mentions. intros Hm m Hin Hf.
  assert (Ht : existsb
            (fun m => String.eqb (json.foldName (fst m)) (json.foldName name))
            ms = true).
  { apply existsb_exists. exists m. split; [exact Hin|].
    apply String.eqb_eq, Hf. }
  congruence.
Qed.

Section last_member.
Context {S A : Type}.

(** The last member that names a field decides what the field holds. *)
Lemma decode_members_last (proj : S -> A) (target : string)
    (fields : list (json.field S)) (ms1 ms2 : list (string * json.value))
    (key : string) (j : json.value) store (a : A) (s : S) :
  json.find_field fields key = Some store ->
  (forall s, proj (store j s).1 = a) ->
  (forall n store, In (n, store) fields ->
     json.foldName n <> json.foldName target ->
     forall j s, proj (store j s).1 = proj s) ->
  mentions target ms2 = false ->
  json.stopped (json.decode_members fields (ms1 ++ (key, j) :: ms2) s).2
  = false ->
  proj (json.decode_members fields (ms1 ++ (key, j) :: ms2) s).1 = a.
Proof.
  intros Hk Ha Hframe Hms2. revert s.
  pose proof (mentions_false _ _ Hms2) as Hms2'.
  induction ms1 as [|[k v] ms1 IH]; intros s.
  - cbn [app json.decode_members]. rewrite Hk.
    specialize (Ha s). destruct (store j s) as [s1 o1]. simpl in Ha.
    destruct (json.stopped o1); [intros _; exact Ha|].
    pose proof (decode_members_frame proj target fields ms2 s1 Hframe Hms2')
      as Hf.
    destruct (json.decode_members fields ms2 s1) as [s2 o2]. simpl in *.
    intros _. congruence.
  - cbn [app json.decode_members].
    destruct (json.find_field fields k) as [st|]; [|apply IH].
    destruct (st v s) as [s1 o1].
    destruct (json.stopped o1) eqn:Ho1; [simpl; congruence|].
    specialize (IH s1).
    destruct (json.decode_members fields (ms1 ++ (key, j) :: ms2) s1)
      as [s2 o2].
    simpl in *. rewrite stopped_and_then, Ho1. simpl. exact IH.
Qed.

End last_member.

(** Every element of an array is stored when the decoding is not stopped. *)
Lemma decode_elems_length {T : Type} `{!json.Decodable T}
    (elems : list json.value) (old : list T) :
  json.stopped (json.decode_elems elems old).2 = false ->
  length (json.decode_elems elems old).1 = length elems.
Proof.
  revert old. induction elems as [|j elems IH]; intros old; [reflexivity|].
  cbn [json.decode_elems].
  destruct (json.decode j (default json.zero (head old))) as [t o1].
  destruct (json.stopped o1) eqn:Ho1; [simpl; congruence|].
  specialize (IH (tail old)).
  destruct (json.decode_elems elems (tail old)) as [ts o2].
  simpl in *. rewrite stopped_and_then, Ho1. simpl. intros Ho2.
  rewrite (IH Ho2). reflexivity.
Qed.

(** Stored into an empty slice, every element is decoded into a zero
    value of its own. *)
Lemma decode_elems_map {T : Type} `{!json.Decodable T}
    (elems : list json.value) :
  json.stopped (json.decode_elems elems ([] : list T)).2 = false ->
  (json.decode_elems elems ([] : list T)).1
  = map (fun j => (json.decode j json.zero).1) elems.
Proof.
  induction elems as [|j elems IH]; [reflexivity|].
  cbn [json.decode_elems head tail default map].
  destruct (json.decode j json.zero) as [t o1].
  destruct (json.stopped o1) eqn:Ho1; [simpl; congruence|].
  destruct (json.decode_elems elems []) as [ts o2].
  simpl in *. rewrite stopped_and_then, Ho1. simpl. intros Ho2.
  rewrite (IH Ho2). reflexivity.
Qed.

Section structs.
Context `{ext.Declarations}.

Lemma Chargeback_folded_names :
  folded_names Chargeback.fields
  = ["RESOURCE"; "ID"; "AMOUNT"; "SETTLEMENTAMOUNT"; "CREATEDAT";
     "REVERSEDAT"; "PAYMENTID"; "_LINKS"].
Proof. reflexivity. Qed.

Lemma ChargebackLinks_folded_names :
  folded_names ChargebackLinks.fields
  = ["SELF"; "PAYMENT"; "SETTLEMENT"; "DOCUMENTATION"].
Proof. reflexivity. Qed.

Lemma ChargebackList_folded_names :
  folded_names ChargebackList.fields = ["COUNT"; "_EMBEDDED"; "_LINKS"].
Proof. reflexivity. Qed.

Lemma Embedded_folded_names :
  folded_names Embedded.fields = ["CHARGEBACKS"].
Proof. reflexivity. Qed.

Lemma Chargeback_names_NoDup : NoDup (folded_names Chargeback.fields).
Proof.
  rewrite Chargeback_folded_names. apply (bool_decide_unpack _).
  vm_compute. reflexivity.
Qed.

Lemma ChargebackLinks_names_NoDup :
  NoDup (folded_names ChargebackLinks.fields).
Proof.
  rewrite ChargebackLinks_folded_names. apply (bool_decide_unpack _).
  vm_compute. reflexivity.
Qed.

Lemma ChargebackList_names_NoDup : NoDup (folded_names ChargebackList.fields).
Proof.
  rewrite ChargebackList_folded_names. apply (bool_decide_unpack _).
  vm_compute. reflexivity.
Qed.

Lemma Embedded_names_NoDup : NoDup (folded_names Embedded.fields).
Proof.
  rewrite Embedded_folded_names. apply (bool_decide_unpack _).
  vm_compute. reflexivity.
Qed.

End structs.

(** ** What the decoder reads of a body *)

(** X12: when an object is decoded, a member whose name is the name of
    no field, case apart, is skipped whatever its value is: the decoding
    gives the value and the outcome it gives for the object without that
    member, into a chargeback, into a list and into the links of a
    chargeback. *)
Theorem X12_unknown_members_are_skipped `{ext.Declarations}
    (key : string) (j : json.value) (ms1 ms2 : list (string * json.value)) :
  (~ In (json.foldName key)
       ["RESOURCE"; "ID"; "AMOUNT"; "SETTLEMENTAMOUNT"; "CREATEDAT";
        "REVERSEDAT"; "PAYMENTID"; "_LINKS"] ->
   forall c : Chargeback.t,
     json.decode (json.JObject (ms1 ++ (key, j) :: ms2)) c
     = json.decode (json.JObject (ms1 ++ ms2)) c)
  /\ (~ In (json.foldName key) ["COUNT"; "_EMBEDDED"; "_LINKS"] ->
      forall cl : option ChargebackList.t,
        json.decode (json.JObject (ms1 ++ (key, j) :: ms2)) cl
        = json.decode (json.JObject (ms1 ++ ms2)) cl)
  /\ (~ In (json.foldName key)
          ["SELF"; "PAYMENT"; "SETTLEMENT"; "DOCUMENTATION"] ->
      forall l : ChargebackLinks.t,
        json.decode (json.JObject (ms1 ++ (key, j) :: ms2)) l
        = json.decode (json.JObject (ms1 ++ ms2)) l).
Proof.
  split; [|split].
  - rewrite <- Chargeback_folded_names. intros Hk c.
    cbn [json.decode Chargeback.decodable json.decode_struct].
    apply (decode_members_unknown _ _ _ _ _ _ Hk).
  - rewrite <- ChargebackList_folded_names. intros Hk cl.
    cbn [json.decode ChargebackList.ptr_decodable json.decode_ptr
         ChargebackList.decodable json.decode_struct].
    rewrite (decode_members_unknown _ _ _ _ _ _ Hk). reflexivity.
  - rewrite <- ChargebackLinks_folded_names. intros Hk l.
    cbn [json.decode ChargebackLinks.decodable json.decode_struct].
    apply (decode_members_unknown _ _ _ _ _ _ Hk).
Qed.

Lemma X12_witness :
  json.decode
    (json.JObject
       [("id", json.JString "chb_n9z0tp");
        ("mode", json.JArray [json.JNumber "1"; json.JObject []])])
    (json.zero : Chargeback.t (H := sample.declarations))
  = json.decode (json.JObject [("id", json.JString "chb_n9z0tp")]) json.zero.
Proof.
  refine (proj1 (X12_unknown_members_are_skipped (H := sample.declarations)
                   "mode"
                   (json.JArray [json.JNumber "1"; json.JObject []])
                   [("id", json.JString "chb_n9z0tp")] []) _ json.zero).
  vm_compute. intuition discriminate.
Defined.

Section field_names.
Context `{ext.Declarations}.

Lemma Chargeback_field_names :
  map fst Chargeback.fields
  = ["resource"; "id"; "amount"; "settlementAmount"; "createdAt";
     "reversedAt"; "paymentId"; "_links"].
Proof. reflexivity. Qed.

Lemma ChargebackList_field_names :
  map fst ChargebackList.fields = ["count"; "_embedded"; "_links"].
Proof. reflexivity. Qed.

Lemma ChargebackLinks_field_names :
  map fst ChargebackLinks.fields
  = ["self"; "payment"; "settlement"; "documentation"].
Proof. reflexivity. Qed.

Lemma in_map_fst {A B : Type} (l : list (A * B)) (a : A) :
  In a (map fst l) -> exists b, In (a, b) l.
Proof.
  intros Hin. apply in_map_iff in Hin as ([a' b] & <- & Hin). eauto.
Qed.

End field_names.

(** X13: the decoder matches member names with field names case apart.
    A member whose name differs from a field's name only in the case of
    its letters (the Kelvin sign counting as a [k], the long s as an [s])
    is read as that field, wherever it stands in the object, in a
    chargeback, in a list and in the links of a chargeback. *)
Theorem X13_member_names_match_case_apart `{ext.Declarations}
    (key n : string) (j : json.value) (ms1 ms2 : list (string * json.value)) :
  json.foldName key = json.foldName n ->
  (In n ["resource"; "id"; "amount"; "settlementAmount"; "createdAt";
         "reversedAt"; "paymentId"; "_links"] ->
   forall c : Chargeback.t,
     json.decode (json.JObject (ms1 ++ (key, j) :: ms2)) c
     = json.decode (json.JObject (ms1 ++ (n, j) :: ms2)) c)
  /\ (In n ["count"; "_embedded"; "_links"] ->
      forall cl : option ChargebackList.t,
        json.decode (json.JObject (ms1 ++ (key, j) :: ms2)) cl
        = json.decode (json.JObject (ms1 ++ (n, j) :: ms2)) cl)
  /\ (In n ["self"; "payment"; "settlement"; "documentation"] ->
      forall l : ChargebackLinks.t,
        json.decode (json.JObject (ms1 ++ (key, j) :: ms2)) l
        = json.decode (json.JObject (ms1 ++ (n, j) :: ms2)) l).
Proof.
  intros Hf. split; [|split].
  - rewrite <- Chargeback_field_names. intros [store Hin]%in_map_fst c.
    cbn [json.decode Chargeback.decodable json.decode_struct].
    apply decode_members_rename.
    rewrite (find_field_fold _ key n store Chargeback_names_NoDup Hin Hf).
    rewrite (find_field_fold _ n n store Chargeback_names_NoDup Hin eq_refl).
    reflexivity.
  - rewrite <- ChargebackList_field_names. intros [store Hin]%in_map_fst cl.
    cbn [json.decode ChargebackList.ptr_decodable json.decode_ptr
         ChargebackList.decodable json.decode_struct].
    rewrite (decode_members_rename _ _ _ key n).
    + reflexivity.
    + rewrite (find_field_fold _ key n store ChargebackList_names_NoDup
                 Hin Hf).
      rewrite (find_field_fold _ n n store ChargebackList_names_NoDup
                 Hin eq_refl).
      reflexivity.
  - rewrite <- ChargebackLinks_field_names. intros [store Hin]%in_map_fst l.
    cbn [json.decode ChargebackLinks.decodable json.decode_struct].
    apply decode_members_rename.
    rewrite (find_field_fold _ key n store ChargebackLinks_names_NoDup
               Hin Hf).
    rewrite (find_field_fold _ n n store ChargebackLinks_names_NoDup
               Hin eq_refl).
    reflexivity.
Qed.

Lemma X13_witness :
  json.decode
    (json.JObject
       [("Re" +:+ String (byte_of 197) (String (byte_of 191) "OURCE"),
         json.JString "chargeback")])
    (json.zero : Chargeback.t (H := sample.declarations))
  = json.decode (json.JObject [("resource", json.JString "chargeback")])
      json.zero.
Proof.
  refine (proj1 (X13_member_names_match_case_apart (H := sample.declarations)
                   ("Re" +:+ String (byte_of 197)
                               (String (byte_of 191) "OURCE"))
                   "resource" (json.JString "chargeback") [] [] _) _ json.zero).
  - vm_compute. reflexivity.
  - left. reflexivity.
Defined.

(** For each field in turn: the stores of the other fields leave it. *)
Ltac other_stores :=
  let n := fresh "n" in
  let store := fresh "store" in
  let Hin := fresh "Hin" in
  let Hn := fresh "Hn" in
  let j := fresh "j" in
  let s := fresh "s" in
  let E := fresh "E" in
  intros n store Hin Hn j s;
  repeat (destruct Hin as [E|Hin];
          [ injection E as <- <-;
            first [ exfalso; apply Hn; vm_compute; reflexivity
                  | cbn beta;
                    match goal with
                    | |- context [let '(_, _) := ?t in _] => destruct t
                    end; reflexivity ]
          | ]);
  destruct Hin.

(** X14: the decoder stores into the fields that the body names and into
    no other: a field of a chargeback that no member of the object names,
    case apart, holds after the decoding what it held before, so that [Get]
    returns the zero value in it. *)
Theorem X14_fields_not_named_are_left `{ext.Declarations}
    (ms : list (string * json.value)) (c : Chargeback.t) :
  let c' := (json.decode (json.JObject ms) c).1 in
  (mentions "resource" ms = false ->
   Chargeback.Resource c' = Chargeback.Resource c)
  /\ (mentions "id" ms = false -> Chargeback.ID c' = Chargeback.ID c)
  /\ (mentions "amount" ms = false ->
      Chargeback.Amount c' = Chargeback.Amount c)
  /\ (mentions "settlementAmount" ms = false ->
      Chargeback.SettlementAmount c' = Chargeback.SettlementAmount c)
  /\ (mentions "createdAt" ms = false ->
      Chargeback.CreatedAt c' = Chargeback.CreatedAt c)
  /\ (mentions "reversedAt" ms = false ->
      Chargeback.ReversedAt c' = Chargeback.ReversedAt c)
  /\ (mentions "paymentId" ms = false ->
      Chargeback.PaymentID c' = Chargeback.PaymentID c)
  /\ (mentions "_links" ms = false ->
      Chargeback.Links c' = Chargeback.Links c).
Proof.
  cbn [json.decode Chargeback.decodable json.decode_struct].
  repeat split; intros Hm;
    (eapply decode_members_frame;
     [ | apply mentions_false, Hm ]); other_stores.
Qed.

Lemma X14_witness :
  Chargeback.PaymentID
    (json.decode
       (json.JObject [("id", json.JString "chb_n9z0tp");
                      ("amount", json.JNull)])
       (@Chargeback.mk sample.declarations "" "" None None None None
          "tr_7UhSN1zuXS" json.zero)).1
  = "tr_7UhSN1zuXS".
Proof.
  apply (proj1 (proj2 (proj2 (proj2 (proj2 (proj2 (proj2
           (X14_fields_not_named_are_left (H := sample.declarations)
              [("id", json.JString "chb_n9z0tp"); ("amount", json.JNull)]
              (@Chargeback.mk sample.declarations "" "" None None None None
                 "tr_7UhSN1zuXS" json.zero))))))))).
  reflexivity.
Defined.

Section stores.
Context `{ext.Declarations}.

(** [null] stored into a zero chargeback leaves it zero. *)
Lemma Chargeback_null_stores n store :
  In (n, store) Chargeback.fields ->
  store json.JNull (json.zero : Chargeback.t) = (json.zero, json.Done).
Proof.
  intros Hin.
  repeat (destruct Hin as [E|Hin]; [injection E as <- <-; reflexivity|]).
  destruct Hin.
Qed.

Lemma Chargeback_decode_all_null (j : json.value) :
  all_null j = true ->
  json.decode j (json.zero : Chargeback.t) = (json.zero, json.Done).
Proof.
  destruct j; try discriminate; [reflexivity|].
  intros Hms. cbn [json.decode Chargeback.decodable json.decode_struct].
  apply decode_members_null; [apply Chargeback_null_stores | exact Hms].
Qed.

(** The three fields of kind string and their stores. *)
Lemma Chargeback_string_field (n : string) :
  In n ["resource"; "id"; "paymentId"] ->
  exists store,
    In (n, store) Chargeback.fields
    /\ forall j c, not_a_string j = true ->
         store j c
         = (c, json.Saved (UnmarshalTypeError (json.kind_of j) "string")).
Proof.
  intros [<-|[<-|[<-|[]]]]; eexists; (split; [cbn; eauto 10|]);
    intros j [] Hj; destruct j; try discriminate Hj; reflexivity.
Qed.

End stores.

(** X6: a body that holds nothing, [null] or an object all of whose
    members are [null], makes [Get] return a zero chargeback and a nil
    error: the caller cannot tell it from an empty object. *)
Theorem X6_Get_body_holding_nothing `{ext.Declarations} (client : Client.t)
    (ctx : ext.Context) (paymentID chargebackID body : string)
    (options : option ChargebackOptions.t) (j : json.value) :
  json.parse body = Some j -> all_null j = true ->
  answered client ctx (Get ctx paymentID chargebackID options) body ->
  run client (Get ctx paymentID chargebackID options) = (json.zero, None).
Proof.
  intros Hp Hj Ha. rewrite (Get_answered _ _ _ _ _ _ Ha).
  unfold json.Unmarshal. rewrite Hp, (Chargeback_decode_all_null j Hj).
  reflexivity.
Qed.

Lemma X6_witness :
  run (sample.serving (json_text "{'id':null,'_links':null,'extra':null}"))
    (@Get sample.declarations tt "tr_7UhSN1zuXS" "chb_n9z0tp" None)
  = (json.zero, None).
Proof.
  apply (X6_Get_body_holding_nothing (H := sample.declarations)
           (sample.serving (json_text "{'id':null,'_links':null,'extra':null}"))
           tt "tr_7UhSN1zuXS" "chb_n9z0tp"
           (json_text "{'id':null,'_links':null,'extra':null}") None
           (json.JObject [("id", json.JNull); ("_links", json.JNull);
                          ("extra", json.JNull)])
           eq_refl eq_refl).
  exists "v2/payments/tr_7UhSN1zuXS/chargebacks/chb_n9z0tp",
    ("GET", "v2/payments/tr_7UhSN1zuXS/chargebacks/chb_n9z0tp"),
    (Response.mk (json_text "{'id':null,'_links':null,'extra':null}")).
  repeat split; reflexivity.
Defined.

(** X15: [count] and the embedded chargebacks are stored side by side
    and never compared.  When the object decoded into a nil list is made
    of a [count] member that holds an integer literal and of an
    [_embedded] member that holds an object with a [chargebacks] array,
    and the decoding of the elements is not stopped, then, whatever the
    number and whatever the array, the list holds that number and one
    chargeback for each element, each element decoded into a zero
    chargeback as [Get] decodes an object; the outcome is that of the
    elements.  The array is found under the lower-case name although the
    field [Chargebacks] has no tag. *)
Theorem X15_count_is_not_checked_against_the_list `{ext.Declarations}
    (lit : string) (n : Z) (elems : list json.value)
    (cs : list Chargeback.t) (o : json.outcome) :
  json.ParseInt lit = Some n ->
  json.decode_elems elems [] = (cs, o) -> json.stopped o = false ->
  json.decode
    (json.JObject
       [("count", json.JNumber lit);
        ("_embedded", json.JObject [("chargebacks", json.JArray elems)])])
    (None : option ChargebackList.t)
  = (Some (ChargebackList.mk n (Embedded.mk (Some cs)) json.zero), o)
  /\ length cs = length elems
  /\ cs = map (fun j => (json.decode j (json.zero : Chargeback.t)).1) elems.
Proof.
  intros Hn Hcs Ho. split; [|split].
  - cbn [json.decode ChargebackList.ptr_decodable json.decode_ptr
         ChargebackList.decodable json.decode_struct default].
    cbn [json.decode_members].
    erewrite (find_field_fold ChargebackList.fields "count" "count" _
                ChargebackList_names_NoDup (or_introl eq_refl))
      by reflexivity.
    cbn [json.decode_int]. rewrite Hn.
    cbn [json.stopped].
    erewrite (find_field_fold ChargebackList.fields "_embedded" "_embedded" _
                ChargebackList_names_NoDup (or_intror (or_introl eq_refl)))
      by reflexivity.
    cbn [json.decode Embedded.decodable json.decode_struct
         json.decode_members ChargebackList.Embedded ChargebackList.Count
         ChargebackList.Links json.zero].
    erewrite (find_field_fold Embedded.fields "chargebacks" "Chargebacks" _
                Embedded_names_NoDup (or_introl eq_refl))
      by (vm_compute; reflexivity).
    cbn [json.decode_slice Embedded.Chargebacks default].
    change (json.decode_elems elems _)
      with (json.decode_elems elems (@nil Chargeback.t)).
    rewrite Hcs, Ho. cbn [json.stopped].
    destruct o; try discriminate Ho; reflexivity.
  - pose proof (decode_elems_length elems ([] : list Chargeback.t)) as Hl.
    rewrite Hcs in Hl. apply Hl, Ho.
  - pose proof (decode_elems_map (T := Chargeback.t) elems) as Hm.
    rewrite Hcs in Hm. apply Hm, Ho.
Qed.

Lemma X15_witness :
  json.decode
    (json.JObject
       [("count", json.JNumber "5");
        ("_embedded",
         json.JObject
           [("chargebacks",
             json.JArray [json.JObject [("id", json.JString "chb_n9z0tp")]])])])
    (None : option (ChargebackList.t (H := sample.declarations)))
  = (Some (ChargebackList.mk 5
             (Embedded.mk
                (Some [@Chargeback.mk sample.declarations "" "chb_n9z0tp"
                         None None None None "" json.zero]))
             json.zero), json.Done).
Proof.
  apply (proj1 (X15_count_is_not_checked_against_the_list
                  (H := sample.declarations)
                  "5" 5 [json.JObject [("id", json.JString "chb_n9z0tp")]]
                  [@Chargeback.mk sample.declarations "" "chb_n9z0tp"
                     None None None None "" json.zero]
                  json.Done eq_refl eq_refl eq_refl)).
Defined.

(** X16: when an object is decoded into a chargeback, a member that
    names a field of kind string and holds a value of another kind does
    not stop the decoding: the chargeback is the one decoded from the
    object without that member, the error is not nil, and where the
    object without the member decodes without error it is the
    [UnmarshalTypeError] of the member. *)
Theorem X16_wrong_kind_for_a_string_field `{ext.Declarations}
    (n : string) (j : json.value) (ms1 ms2 : list (string * json.value))
    (c : Chargeback.t) :
  In n ["resource"; "id"; "paymentId"] -> not_a_string j = true ->
  let r := json.decode (json.JObject (ms1 ++ (n, j) :: ms2)) c in
  let r' := json.decode (json.JObject (ms1 ++ ms2)) c in
  r.1 = r'.1
  /\ json.error_of r.2 <> None
  /\ (r'.2 = json.Done ->
      r.2 = json.Saved (UnmarshalTypeError (json.kind_of j) "string")).
Proof.
  intros Hn Hj.
  cbn [json.decode Chargeback.decodable json.decode_struct]. cbv zeta.
  destruct (Chargeback_string_field n Hn) as (store & Hin & Hst).
  pose proof (find_field_fold _ n n store Chargeback_names_NoDup Hin eq_refl)
    as Hk.
  destruct (decode_members_refused Chargeback.fields ms1 ms2 n j store
              (UnmarshalTypeError (json.kind_of j) "string") c Hk
              (fun s => Hst j s Hj)) as [Hv Ho].
  destruct (json.decode_members Chargeback.fields (ms1 ++ (n, j) :: ms2) c)
    as [c1 o1].
  destruct (json.decode_members Chargeback.fields (ms1 ++ ms2) c) as [c0 o0].
  simpl in *. split; [exact Hv|].
  destruct o0 as [|e0|e0]; simpl in Ho.
  - subst o1. split; [discriminate|reflexivity].
  - destruct Ho as [-> | ->]; (split; [discriminate|discriminate]).
  - subst o1. split; [discriminate|discriminate].
Qed.

Lemma X16_witness :
  (json.decode
     (json.JObject [("id", json.JNumber "7");
                    ("paymentId", json.JString "tr_7UhSN1zuXS")])
     (json.zero : Chargeback.t (H := sample.declarations))).2
  = json.Saved (UnmarshalTypeError "number" "string").
Proof.
  refine (proj2 (proj2 (X16_wrong_kind_for_a_string_field
                          (H := sample.declarations)
                          "id" (json.JNumber "7") []
                          [("paymentId", json.JString "tr_7UhSN1zuXS")]
                          json.zero _ eq_refl)) _).
  - right. left. reflexivity.
  - reflexivity.
Defined.

Section string_fields.
Context `{ext.Declarations}.

Lemma Chargeback_frame_Resource :
  forall n store, In (n, store) Chargeback.fields ->
    json.foldName n <> json.foldName "resource" ->
    forall j s, Chargeback.Resource (store j s).1 = Chargeback.Resource s.
Proof. other_stores. Qed.

Lemma Chargeback_frame_ID :
  forall n store, In (n, store) Chargeback.fields ->
    json.foldName n <> json.foldName "id" ->
    forall j s, Chargeback.ID (store j s).1 = Chargeback.ID s.
Proof. other_stores. Qed.

Lemma Chargeback_frame_PaymentID :
  forall n store, In (n, store) Chargeback.fields ->
    json.foldName n <> json.foldName "paymentId" ->
    forall j s, Chargeback.PaymentID (store j s).1 = Chargeback.PaymentID s.
Proof. other_stores. Qed.

End string_fields.

(** X17: the strings of the body reach the chargeback as they are.  The
    last member that names [resource], [id] or [paymentId], case apart,
    and holds a string decides what the field holds, whatever members
    come before it, unless the decoding was stopped. *)
Theorem X17_last_string_member_is_kept `{ext.Declarations}
    (key v : string) (ms1 ms2 : list (string * json.value))
    (c : Chargeback.t) :
  let r := json.decode (json.JObject (ms1 ++ (key, json.JString v) :: ms2)) c
  in
  json.stopped r.2 = false ->
  (json.foldName key = "RESOURCE" -> mentions "resource" ms2 = false ->
   Chargeback.Resource r.1 = v)
  /\ (json.foldName key = "ID" -> mentions "id" ms2 = false ->
      Chargeback.ID r.1 = v)
  /\ (json.foldName key = "PAYMENTID" -> mentions "paymentId" ms2 = false ->
      Chargeback.PaymentID r.1 = v).
Proof.
  cbn [json.decode Chargeback.decodable json.decode_struct]. cbv zeta.
  intros Hr. split; [|split]; intros Hk Hms2.
  - eapply (decode_members_last Chargeback.Resource "resource");
      [ eapply (find_field_fold _ key "resource");
        [ apply Chargeback_names_NoDup | left; reflexivity | exact Hk ]
      | reflexivity | apply Chargeback_frame_Resource | exact Hms2
      | exact Hr ].
  - eapply (decode_members_last Chargeback.ID "id");
      [ eapply (find_field_fold _ key "id");
        [ apply Chargeback_names_NoDup | right; left; reflexivity | exact Hk ]
      | reflexivity | apply Chargeback_frame_ID | exact Hms2 | exact Hr ].
  - eapply (decode_members_last Chargeback.PaymentID "paymentId");
      [ eapply (find_field_fold _ key "paymentId");
        [ apply Chargeback_names_NoDup | do 6 right; left; reflexivity
        | exact Hk ]
      | reflexivity | apply Chargeback_frame_PaymentID | exact Hms2
      | exact Hr ].
Qed.

Lemma X17_witness :
  Chargeback.ID
    (json.decode
       (json.JObject [("id", json.JString "chb_first");
                      ("ID", json.JString "chb_n9z0tp");
                      ("amount", json.JNull)])
       (json.zero : Chargeback.t (H := sample.declarations))).1
  = "chb_n9z0tp".
Proof.
  refine (proj1 (proj2 (X17_last_string_member_is_kept
                          (H := sample.declarations) "ID" "chb_n9z0tp"
                          [("id", json.JString "chb_first")]
                          [("amount", json.JNull)] json.zero _)) _ _);
    reflexivity.
Defined.

Section count.
Context `{ext.Declarations}.

(** The store of [count] refuses a number that is no 64-bit integer. *)
Lemma ChargebackList_count_refused (lit : string) :
  json.ParseInt lit = None ->
  exists store,
    In ("count", store) ChargebackList.fields
    /\ forall l, store (json.JNumber lit) l
         = (l, json.Saved (UnmarshalTypeError ("number " +:+ lit) "int")).
Proof.
  intros Hn. eexists. split; [left; reflexivity|].
  intros []. cbn [json.decode_int ChargebackList.Count]. rewrite Hn.
  reflexivity.
Qed.

End count.

(** X18: when an object is decoded into a nil list, a [count] that is a
    JSON number but no 64-bit integer (one with a fraction or an exponent,
    or one out of range) is refused and the decoding goes on: the list is
    not nil and is the one decoded from the object without that member,
    the error is not nil, and where the object without the member decodes
    without error it is the [UnmarshalTypeError] of the number. *)
Theorem X18_count_that_is_no_integer `{ext.Declarations}
    (lit : string) (ms1 ms2 : list (string * json.value)) :
  json.ParseInt lit = None ->
  let r := json.decode
             (json.JObject (ms1 ++ ("count", json.JNumber lit) :: ms2))
             (None : option ChargebackList.t) in
  let r' := json.decode (json.JObject (ms1 ++ ms2))
              (None : option ChargebackList.t) in
  r.1 = r'.1
  /\ r.1 <> None
  /\ json.error_of r.2 <> None
  /\ (r'.2 = json.Done ->
      r.2 = json.Saved (UnmarshalTypeError ("number " +:+ lit) "int")).
Proof.
  intros Hn.
  cbn [json.decode ChargebackList.ptr_decodable json.decode_ptr
       ChargebackList.decodable json.decode_struct default]. cbv zeta.
  destruct (ChargebackList_count_refused lit Hn) as (store & Hin & Hst).
  pose proof (find_field_fold _ "count" "count" store
                ChargebackList_names_NoDup Hin eq_refl) as Hk.
  destruct (decode_members_refused ChargebackList.fields ms1 ms2 "count"
              (json.JNumber lit) store
              (UnmarshalTypeError ("number " +:+ lit) "int")
              json.zero Hk Hst) as [Hv Ho].
  destruct (json.decode_members ChargebackList.fields
              (ms1 ++ ("count", json.JNumber lit) :: ms2) json.zero)
    as [c1 o1].
  destruct (json.decode_members ChargebackList.fields (ms1 ++ ms2) json.zero)
    as [c0 o0].
  simpl in *. subst c1. split; [reflexivity|]. split; [discriminate|].
  destruct o0 as [|e0|e0]; simpl in Ho.
  - subst o1. split; [discriminate|reflexivity].
  - destruct Ho as [-> | ->]; (split; [discriminate|discriminate]).
  - subst o1. split; [discriminate|discriminate].
Qed.

Lemma X18_witness :
  (json.decode (json.JObject [("count", json.JNumber "1.5")])
     (None : option (ChargebackList.t (H := sample.declarations)))).2
  = json.Saved (UnmarshalTypeError "number 1.5" "int").
Proof.
  refine (proj2 (proj2 (proj2 (X18_count_that_is_no_integer
                          (H := sample.declarations) "1.5" [] [] eq_refl))) _).
  reflexivity.
Defined.

(** ** Pointer fields *)

Lemma last_member_None (name : string) (ms : list (string * json.value)) :
  last_member name ms = None -> mentions name ms = false.
Proof.
  induction ms as [|[k v] ms IH]; [reflexivity|].
  cbn [last_member mentions existsb fst].
  destruct (last_member name ms); [discriminate|].
  destruct (String.eqb _ _); [discriminate|]. intros _. apply IH. reflexivity.
Qed.

Lemma last_member_Some (name : string) (ms : list (string * json.value))
    (j : json.value) :
  last_member name ms = Some j ->
  exists ms1 key ms2,
    ms = (ms1 ++ (key, j) :: ms2)%list
    /\ json.foldName key = json.foldName name
    /\ mentions name ms2 = false.
Proof.
  induction ms as [|[k v] ms IH]; [discriminate|].
  cbn [last_member].
  destruct (last_member name ms) as [j'|] eqn:E.
  - intros [= ->]. destruct (IH eq_refl) as (ms1 & key & ms2 & -> & Hk & Hm).
    exists ((k, v) :: ms1), key, ms2. auto.
  - destruct (String.eqb _ _) eqn:Hk; [|discriminate].
    intros [= ->]. exists [], k, ms. split; [reflexivity|].
    split; [apply String.eqb_eq, Hk | apply last_member_None, E].
Qed.

Lemma decode_ptr_nil {T : Type} `{!json.Decodable T} (j : json.value)
    (dst : option T) :
  is_nil (json.decode_ptr j dst).1
  = match j with json.JNull => true | _ => false end.
Proof.
  unfold json.decode_ptr.
  destruct j; try reflexivity;
    destruct (json.decode _ _); reflexivity.
Qed.

Section pointer_field.
Context {S T : Type}.

(** A field of pointer type is nil after the decoding exactly when the
    object gives it nothing to point at. *)
Lemma decode_members_nil (proj : S -> option T) (target : string)
    (fields : list (json.field S)) (store : json.value -> S -> S * json.outcome)
    (ms : list (string * json.value)) (s : S) :
  NoDup (folded_names fields) ->
  In (target, store) fields ->
  (forall j s, is_nil (proj (store j s).1)
               = match j with json.JNull => true | _ => false end) ->
  (forall n store, In (n, store) fields ->
     json.foldName n <> json.foldName target ->
     forall j s, proj (store j s).1 = proj s) ->
  proj s = None ->
  json.stopped (json.decode_members fields ms s).2 = false ->
  is_nil (proj (json.decode_members fields ms s).1) = holds_null target ms.
Proof.
  intros Hnd Hin Hst Hframe Hs Hr. unfold holds_null.
  destruct (last_member target ms) as [j|] eqn:E.
  - apply last_member_Some in E as (ms1 & key & ms2 & -> & Hk & Hm).
    rewrite (decode_members_last (fun s => is_nil (proj s)) target fields
               ms1 ms2 key j store
               (match j with json.JNull => true | _ => false end) s).
    + destruct j; reflexivity.
    + eapply find_field_fold; eauto.
    + intros s'. apply Hst.
    + intros n st Hn Hf j' s'. rewrite (Hframe n st Hn Hf). reflexivity.
    + exact Hm.
    + exact Hr.
  - apply last_member_None in E.
    rewrite (decode_members_frame proj target fields ms s Hframe
               (mentions_false _ _ E)), Hs.
    reflexivity.
Qed.

End pointer_field.

Ltac pointer_store :=
  let j := fresh "j" in
  let s := fresh "s" in
  intros j s; cbn beta;
  match goal with
  | |- context [json.decode_ptr ?j ?d] =>
      rewrite <- (decode_ptr_nil j d); destruct (json.decode_ptr j d)
  end; reflexivity.

(** X19: a pointer field tells whether the body held something for it.
    When a body is decoded into a zero chargeback and the decoding is not
    stopped, each of [Amount], [SettlementAmount], [CreatedAt] and
    [ReversedAt] is nil exactly when no member names it, case apart, or
    the last member that names it is [null]; the same holds of the four
    links of [ChargebackLinks]. *)
Theorem X19_pointer_is_nil_iff_nothing_given `{ext.Declarations}
    (ms : list (string * json.value)) :
  (let r := json.decode (json.JObject ms) (json.zero : Chargeback.t) in
   json.stopped r.2 = false ->
   is_nil (Chargeback.Amount r.1) = holds_null "amount" ms
   /\ is_nil (Chargeback.SettlementAmount r.1)
      = holds_null "settlementAmount" ms
   /\ is_nil (Chargeback.CreatedAt r.1) = holds_null "createdAt" ms
   /\ is_nil (Chargeback.ReversedAt r.1) = holds_null "reversedAt" ms)
  /\ (let r := json.decode (json.JObject ms) (json.zero : ChargebackLinks.t)
      in
      json.stopped r.2 = false ->
      is_nil (ChargebackLinks.Self r.1) = holds_null "self" ms
      /\ is_nil (ChargebackLinks.Payment r.1) = holds_null "payment" ms
      /\ is_nil (ChargebackLinks.Settlement r.1) = holds_null "settlement" ms
      /\ is_nil (ChargebackLinks.Documentation r.1)
         = holds_null "documentation" ms).
Proof.
  cbn [json.decode Chargeback.decodable ChargebackLinks.decodable
       json.decode_struct]. cbv zeta.
  split; intros Hr.
  - repeat split.
    + eapply (decode_members_nil Chargeback.Amount "amount");
        [ apply Chargeback_names_NoDup | do 2 right; left; reflexivity
        | pointer_store | other_stores | reflexivity | exact Hr ].
    + eapply (decode_members_nil Chargeback.SettlementAmount
                "settlementAmount");
        [ apply Chargeback_names_NoDup | do 3 right; left; reflexivity
        | pointer_store | other_stores | reflexivity | exact Hr ].
    + eapply (decode_members_nil Chargeback.CreatedAt "createdAt");
        [ apply Chargeback_names_NoDup | do 4 right; left; reflexivity
        | pointer_store | other_stores | reflexivity | exact Hr ].
    + eapply (decode_members_nil Chargeback.ReversedAt "reversedAt");
        [ apply Chargeback_names_NoDup | do 5 right; left; reflexivity
        | pointer_store | other_stores | reflexivity | exact Hr ].
  - repeat split.
    + eapply (decode_members_nil ChargebackLinks.Self "self");
        [ apply ChargebackLinks_names_NoDup | left; reflexivity
        | pointer_store | other_stores | reflexivity | exact Hr ].
    + eapply (decode_members_nil ChargebackLinks.Payment "payment");
        [ apply ChargebackLinks_names_NoDup | right; left; reflexivity
        | pointer_store | other_stores | reflexivity | exact Hr ].
    + eapply (decode_members_nil ChargebackLinks.Settlement "settlement");
        [ apply ChargebackLinks_names_NoDup | do 2 right; left; reflexivity
        | pointer_store | other_stores | reflexivity | exact Hr ].
    + eapply (decode_members_nil ChargebackLinks.Documentation
                "documentation");
        [ apply ChargebackLinks_names_NoDup | do 3 right; left; reflexivity
        | pointer_store | other_stores | reflexivity | exact Hr ].
Qed.

Lemma X19_witness :
  is_nil
    (Chargeback.Amount
       (json.decode
          (json.JObject [("amount", json.JObject []); ("AMOUNT", json.JNull);
                         ("createdAt", json.JString "2018-03-14T17:00:50Z")])
          (json.zero : Chargeback.t (H := sample.declarations))).1)
  = true
  /\ is_nil
       (Chargeback.CreatedAt
          (json.decode
             (json.JObject [("amount", json.JObject []);
                            ("AMOUNT", json.JNull);
                            ("createdAt", json.JString "2018-03-14T17:00:50Z")])
             (json.zero : Chargeback.t (H := sample.declarations))).1)
     = false.
Proof.
  pose proof (proj1 (X19_pointer_is_nil_iff_nothing_given
                       (H := sample.declarations)
                       [("amount", json.JObject []); ("AMOUNT", json.JNull);
                        ("createdAt", json.JString "2018-03-14T17:00:50Z")])
                eq_refl) as (Ha & _ & Hc & _).
  split; [exact Ha | exact Hc].
Defined.
